(** * neomodel/core.py: a shallow embedding and its checked properties

    The module maps typed Python objects onto a Neo4j graph store through
    the py2neo client.  The embedding follows the source class by class:

    - Python objects live in two heaps (mapped nodes and relationship
      managers), so that a manager's cache holds references and a failed
      operation leaves its mutations in place;
    - every method is a computation in a state-and-exception monad over
      the [World]: an exception carries the world as it was when raised;
    - the py2neo client and the graph store behind it are modelled by a
      small functional graph database ([GraphDB]): connectivity failures
      and stale handles, which the client alone decides, are left out.

    Dictionaries are [gmap]s; Python 2 leaves the iteration order of a
    dictionary unspecified, here it is the order of [map_to_list]. *)

From stdpp Require Import gmap strings list fin_maps pretty.
From Stdlib Require Import ZArith Ascii String.

Open Scope string_scope.
Open Scope list_scope.

(** ** Python values *)

Definition loc := nat.
Definition nodeid := nat.
Definition relid := nat.

(** The values an instance [__dict__] or a store record can hold.
    [VNode] is a py2neo node handle, [VManager] a reference to a
    [RelationshipManager], [VDb] the connection adapter, [VIndex] a py2neo
    index handle and [VEmptyDict] the [{}] stored in [_related]. *)
Inductive value :=
| VNone
| VBool (b : bool)
| VInt (z : Z)
| VLong (z : Z)
| VStr (s : string)
| VUnicode (s : string)
| VNode (n : nodeid)
| VManager (m : loc)
| VDb
| VIndex (name : string)
| VEmptyDict.

Global Instance value_eq_dec : EqDecision value.
Proof. solve_decision. Defined.

(** Python truth value.  A py2neo handle is an ordinary object and is
    taken to be true. *)
Definition truthy (v : value) : bool :=
  match v with
  | VNone => false
  | VBool b => b
  | VInt z | VLong z => negb (Z.eqb z 0)
  | VStr s | VUnicode s => negb (String.eqb s "")
  | VNode _ | VManager _ | VDb | VIndex _ => true
  | VEmptyDict => false
  end.

(** [isinstance(value, (str, unicode))] *)
Definition is_str (v : value) : bool :=
  match v with VStr _ | VUnicode _ => true | _ => false end.

(** [isinstance(value, (int, long))]; [bool] is a subclass of [int]. *)
Definition is_int (v : value) : bool :=
  match v with VInt _ | VLong _ | VBool _ => true | _ => false end.

(** [isinstance(value, RelationshipManager)] *)
Definition is_manager (v : value) : bool :=
  match v with VManager _ => true | _ => false end.

(** [key.startswith('_')] *)
Definition startswith_underscore (key : string) : bool := String.prefix "_" key.

(** [str.upper] on ASCII letters *)
Definition upper_ascii (c : ascii) : ascii :=
  let n := nat_of_ascii c in
  if (97 <=? n)%nat && (n <=? 122)%nat then ascii_of_nat (n - 32) else c.

Fixpoint upper (s : string) : string :=
  match s with
  | EmptyString => EmptyString
  | String c s' => String (upper_ascii c) (upper s')
  end.

(** [str(value)], the text of a value: what a query carries to the store
    (the source sends [str(query)]) and what an index keeps of a value.
    [str] of a [long] has no suffix and [str] of a [unicode] is taken on
    ASCII text, so a [str] and a [unicode] of the same characters, or an
    [int] and a [long] of the same number, have one text.  A handle or
    another object is given a text of its own: no property that is saved
    or searched has such a value, [validate] refuses it. *)
Definition py_str (v : value) : string :=
  match v with
  | VNone => "None"
  | VBool true => "True"
  | VBool false => "False"
  | VInt z | VLong z => pretty z
  | VStr s | VUnicode s => s
  | VNode n => "<Node " +:+ pretty n +:+ ">"
  | VManager m => "<RelationshipManager " +:+ pretty m +:+ ">"
  | VDb => "<NeoDB>"
  | VIndex name => "<Index " +:+ name +:+ ">"
  | VEmptyDict => "{}"
  end.

(** ** Exceptions

    The source raises the builtin [Exception] with a message at most
    sites; the message kept here is the literal part of the text, what
    [str] or [format] appends to it is dropped.  [SystemError] stands for
    a dangling reference or a missing class, which Python rules out. *)
Inductive exn :=
| Exception (msg : string)
| TypeError (msg : string)
| AttributeError (name : string)
| NoSuchProperty (k : string)
| PropertyNotIndexed (k : string)
| NotUnique (msg : string)
| SystemError (msg : string).

Global Instance exn_eq_dec : EqDecision exn.
Proof. solve_decision. Defined.

(** [e.__class__.__name__]: the module defines [NoSuchProperty],
    [PropertyNotIndexed] and [NotUnique] and no other exception class. *)
Definition exn_class (e : exn) : string :=
  match e with
  | Exception _ => "Exception"
  | TypeError _ => "TypeError"
  | AttributeError _ => "AttributeError"
  | NoSuchProperty _ => "NoSuchProperty"
  | PropertyNotIndexed _ => "PropertyNotIndexed"
  | NotUnique _ => "NotUnique"
  | SystemError _ => "SystemError"
  end.

Inductive result (A : Type) :=
| Return (a : A)
| Raise (e : exn).
Arguments Return {A} a.
Arguments Raise {A} e.

(** ** Classes *)

Inductive Direction := OUTGOING | INCOMING | EITHER.

Global Instance Direction_eq_dec : EqDecision Direction.
Proof. solve_decision. Defined.

(** The three descriptor classes; [KProperty] is the base class, which
    has no [validate]. *)
Inductive PropertyKind := KProperty | KStringProperty | KIntegerProperty.

Record Property := mkProperty {
  p_kind : PropertyKind;
  unique_index : bool;
  index : bool
}.

(** [Property.__init__]: the arguments are used for their truth value
    only, and [blank] is not stored. *)
Definition Property_init (kind : PropertyKind) (unique_index index blank : bool)
  : result Property :=
  if unique_index && index then
    Raise (Exception "unique_index and index are mutually exclusive")
  else if unique_index && blank then
    Raise (Exception "uniquely indexed properties cannot also be blank")
  else Return (mkProperty kind unique_index index).

(** [Property.is_indexed] *)
Definition is_indexed (p : Property) : bool := unique_index p || index p.

Record RelationshipDefinition := mkRelDef {
  rd_relation_type : string;
  rd_node_class : string;
  rd_direction : Direction
}.

(** What a class attribute can be: a descriptor, a relationship
    definition, or any other object, kept by its truth value (a method is
    true, a missing docstring [None] is false). *)
Inductive attr :=
| AProperty (p : Property)
| ARelDef (d : RelationshipDefinition)
| AObject (truth : bool).

Definition attr_truthy (a : attr) : bool :=
  match a with
  | AProperty _ | ARelDef _ => true
  | AObject b => b
  end.

(** A class: its own [__dict__] and the names of the classes that follow
    it in its method resolution order. *)
Record PyClass := mkClass {
  c_dict : gmap string attr;
  c_mro : list string
}.

(** ** Heap objects *)

(** An instance of a [NeoNode] subclass: [__class__] and [__dict__]. *)
Record NeoNodeObj := mkObj {
  o_class : string;
  o_dict : gmap string value
}.

Record RelationshipManagerObj := mkManager {
  rm_direction : Direction;
  rm_relation_type : string;
  rm_node_class : string;
  rm_name : string;
  rm_related : gmap nodeid loc;
  rm_origin : loc
}.

(** ** The graph store behind py2neo *)

Record Rel := mkRel {
  r_start : nodeid;
  r_type : string;
  r_end : nodeid
}.

Global Instance Rel_eq_dec : EqDecision Rel.
Proof. solve_decision. Defined.

(** An index entry: key, the text of the value, indexed node.  The
    store indexes and matches text: the type of the Python value that
    was indexed is not kept. *)
Definition IndexEntry : Type := string * string * nodeid.

Record GraphDB := mkDB {
  nodes : gmap nodeid (gmap string value);
  rels : gmap relid Rel;
  indexes : gmap string (list IndexEntry)
}.

(** What [client.delete] takes. *)
Inductive entity :=
| ERel (r : relid)
| ENode (n : nodeid).

(** ** The world: class table, heaps, store, and the category cache of
    the process-wide [NeoDB] *)
Record World := mkWorld {
  classes : gmap string PyClass;
  objects : gmap loc NeoNodeObj;
  managers : gmap loc RelationshipManagerObj;
  db : GraphDB;
  category_cache : gmap string nodeid
}.

Definition set_objects (f : gmap loc NeoNodeObj → gmap loc NeoNodeObj) (w : World) : World :=
  mkWorld (classes w) (f (objects w)) (managers w) (db w) (category_cache w).

Definition set_managers (f : gmap loc RelationshipManagerObj → gmap loc RelationshipManagerObj)
  (w : World) : World :=
  mkWorld (classes w) (objects w) (f (managers w)) (db w) (category_cache w).

Definition set_db (f : GraphDB → GraphDB) (w : World) : World :=
  mkWorld (classes w) (objects w) (managers w) (f (db w)) (category_cache w).

Definition set_category_cache (f : gmap string nodeid → gmap string nodeid) (w : World) : World :=
  mkWorld (classes w) (objects w) (managers w) (db w) (f (category_cache w)).

(** ** The monad *)

Definition M (A : Type) : Type := World → result A * World.

Definition ret {A} (a : A) : M A := λ w, (Return a, w).

Definition bind {A B} (m : M A) (f : A → M B) : M B :=
  λ w, match m w with
       | (Return a, w') => f a w'
       | (Raise e, w') => (Raise e, w')
       end.

Definition raise {A} (e : exn) : M A := λ w, (Raise e, w).

(** [try: m except Exception: h]; every exception of [exn] derives from
    [Exception]. *)
Definition try_except {A} (m : M A) (h : exn → M A) : M A :=
  λ w, match m w with
       | (Return a, w') => (Return a, w')
       | (Raise e, w') => h e w'
       end.

Definition get_world : M World := λ w, (Return w, w).
Definition modify (f : World → World) : M unit := λ w, (Return tt, f w).

Notation "x <- m ;; k" := (bind m (λ x, k))
  (at level 100, m at next level, right associativity,
   format "x  <-  m  ;;  '/' k").
Notation "m ;;; k" := (bind m (λ _, k))
  (at level 100, right associativity).

(** [for x in l: body x] *)
Fixpoint for_each {A} (l : list A) (body : A → M unit) : M unit :=
  match l with
  | [] => ret tt
  | x :: l' => body x ;;; for_each l' body
  end.

(** ** py2neo: nodes and relationships *)

(** The node at the other end of [r], seen from [n] in direction [d]. *)
Definition other_end (n : nodeid) (d : Direction) (r : Rel) : option nodeid :=
  match d with
  | OUTGOING => if decide (r_start r = n) then Some (r_end r) else None
  | INCOMING => if decide (r_end r = n) then Some (r_start r) else None
  | EITHER =>
      if decide (r_start r = n) then Some (r_end r)
      else if decide (r_end r = n) then Some (r_start r) else None
  end.

Definition touches (n : nodeid) (r : Rel) : bool :=
  bool_decide (r_start r = n) || bool_decide (r_end r = n).

(** [node.get_related_nodes(direction, type)]: one node per matching edge. *)
Definition db_get_related_nodes (g : GraphDB) (n : nodeid) (d : Direction) (ty : string)
  : list nodeid :=
  omap (λ ir : relid * Rel,
          if decide (r_type ir.2 = ty) then other_end n d ir.2 else None)
       (map_to_list (rels g)).

(** [node.get_relationships_with(other, direction, type)] *)
Definition db_get_relationships_with (g : GraphDB) (n other : nodeid) (d : Direction)
  (ty : string) : list relid :=
  omap (λ ir : relid * Rel,
          if decide (r_type ir.2 = ty) then
            if decide (other_end n d ir.2 = Some other) then Some ir.1 else None
          else None)
       (map_to_list (rels g)).

(** [node.get_relationships()]: every edge at [n], either direction. *)
Definition db_get_relationships (g : GraphDB) (n : nodeid) : list relid :=
  omap (λ ir : relid * Rel, if touches n ir.2 then Some ir.1 else None)
       (map_to_list (rels g)).

(** [client.create(props, (anchor, type, 0))]: a new node and an edge from
    [anchor] to it. *)
Definition db_create (g : GraphDB) (props : gmap string value) (anchor : nodeid)
  (ty : string) : nodeid * relid * GraphDB :=
  let n := fresh (dom (nodes g)) in
  let r := fresh (dom (rels g)) in
  (n, r, mkDB (<[n := props]> (nodes g)) (<[r := mkRel anchor ty n]> (rels g)) (indexes g)).

Definition db_delete_entity (g : GraphDB) (e : entity) : GraphDB :=
  match e with
  | ERel r => mkDB (nodes g) (delete r (rels g)) (indexes g)
  | ENode n => mkDB (delete n (nodes g)) (rels g) (indexes g)
  end.

(** [client.delete], applied to the entities in turn. *)
Definition db_delete (g : GraphDB) (es : list entity) : GraphDB :=
  foldl db_delete_entity g es.

(** [node.set_properties(props)]: replaces the whole record. *)
Definition db_set_properties (g : GraphDB) (n : nodeid) (props : gmap string value)
  : GraphDB :=
  mkDB (<[n := props]> (nodes g)) (rels g) (indexes g).

(** [node.get_properties()] *)
Definition db_get_properties (g : GraphDB) (n : nodeid) : gmap string value :=
  default ∅ (nodes g !! n).

(** [client.get_or_create_relationships((a, type, b))] *)
Definition db_get_or_create_relationship (g : GraphDB) (a : nodeid) (ty : string)
  (b : nodeid) : GraphDB :=
  if existsb (λ ir : relid * Rel, bool_decide (ir.2 = mkRel a ty b)) (map_to_list (rels g))
  then g
  else mkDB (nodes g) (<[fresh (dom (rels g)) := mkRel a ty b]> (rels g)) (indexes g).

(** ** py2neo: indexes *)

Definition index_entries (g : GraphDB) (name : string) : list IndexEntry :=
  default [] (indexes g !! name).

Definition set_index (g : GraphDB) (name : string) (es : list IndexEntry) : GraphDB :=
  mkDB (nodes g) (rels g) (<[name := es]> (indexes g)).

(** [client.get_or_create_index(neo4j.Node, name)] *)
Definition db_get_or_create_index (g : GraphDB) (name : string) : GraphDB :=
  match indexes g !! name with
  | Some _ => g
  | None => set_index g name []
  end.

(** Is the entry under the key [k] and the text of [v]? *)
Definition entry_at (k : string) (v : value) (e : IndexEntry) : bool :=
  bool_decide (e.1.1 = k) && bool_decide (e.1.2 = py_str v).

(** Is there an entry under [k] and the text of [v]? *)
Definition index_has (g : GraphDB) (name k : string) (v : value) : bool :=
  existsb (entry_at k v) (index_entries g name).

(** [index.add(key, value, node)] *)
Definition index_add (g : GraphDB) (name k : string) (v : value) (n : nodeid) : GraphDB :=
  set_index g name (index_entries g name ++ [(k, py_str v, n)]).

(** [index.remove(entity=node)]: drops every entry of the node. *)
Definition index_remove (g : GraphDB) (name : string) (n : nodeid) : GraphDB :=
  set_index g name (filter (λ e : IndexEntry, e.2 ≠ n) (index_entries g name)).

(** [index.get_or_create(key, value, props)]: the node indexed under
    ([k], [v]), created with [props] when there is none. *)
Definition index_get_or_create (g : GraphDB) (name k : string) (v : value)
  (props : gmap string value) : nodeid * GraphDB :=
  match List.find (entry_at k v) (index_entries g name) with
  | Some e => (e.2, g)
  | None =>
      let n := fresh (dom (nodes g)) in
      (n, index_add (mkDB (<[n := props]> (nodes g)) (rels g) (indexes g)) name k v n)
  end.

(** The query expressions of lucenequerybuilder the module builds itself:
    equality terms joined by [&]. *)
Inductive Q :=
| QTerm (k : string) (v : value)
| QAnd (a b : Q).

Fixpoint q_matches (es : list IndexEntry) (n : nodeid) (q : Q) : bool :=
  match q with
  | QTerm k v => existsb (λ e : IndexEntry, entry_at k v e && bool_decide (e.2 = n)) es
  | QAnd a b => q_matches es n a && q_matches es n b
  end.

(** [index.query(str(q))]: the indexed nodes matching [q], each once.
    The query goes out as text, so a term matches on the text of its
    value. *)
Definition index_query (g : GraphDB) (name : string) (q : Q) : list nodeid :=
  let es := index_entries g name in
  filter (λ n, q_matches es n q = true) (remove_dups (es.*2)).

(** ** IndexBatch *)

Inductive batch_request :=
| BAdd (k : string) (v : value) (n : nodeid)
| BAddIfNone (k : string) (v : value) (n : nodeid).

(** Modelled from the spec: [IndexBatch] of neomodel/indexbatch.py, which
    is not among the sources.  [add] inserts unconditionally;
    [add_if_none] is the conditional insert: it adds the entry and
    reports 201 when nothing is indexed under (key, value), and reports
    200 and leaves the index as it is otherwise. *)
Definition batch_step (g : GraphDB) (name : string) (rq : batch_request) : nat * GraphDB :=
  match rq with
  | BAdd k v n => (201, index_add g name k v n)
  | BAddIfNone k v n =>
      if index_has g name k v then (200, g) else (201, index_add g name k v n)
  end.

(** Modelled from the spec: [IndexBatch.submit], the statuses of the
    requests in the order they were queued. *)
Fixpoint batch_submit (g : GraphDB) (name : string) (rqs : list batch_request)
  : list nat * GraphDB :=
  match rqs with
  | [] => ([], g)
  | rq :: rest =>
      let sg := batch_step g name rq in
      let r := batch_submit sg.2 name rest in
      (sg.1 :: r.1, r.2)
  end.

(** ** Heap access *)

Definition deref (l : loc) : M NeoNodeObj :=
  λ w, match objects w !! l with
       | Some o => (Return o, w)
       | None => (Raise (SystemError "dangling object"), w)
       end.

Definition get_manager (l : loc) : M RelationshipManagerObj :=
  λ w, match managers w !! l with
       | Some m => (Return m, w)
       | None => (Raise (SystemError "dangling manager"), w)
       end.

(** The manager with its cache [self.related] updated by [f]. *)
Definition with_related (f : gmap nodeid loc → gmap nodeid loc) (m : RelationshipManagerObj)
  : RelationshipManagerObj :=
  mkManager (rm_direction m) (rm_relation_type m) (rm_node_class m) (rm_name m)
    (f (rm_related m)) (rm_origin m).

Definition set_related (l : loc) (f : gmap nodeid loc → gmap nodeid loc) : M unit :=
  modify (set_managers (alter (with_related f) l)).

(** Reading [self.<key>] for a key the constructor stores in the instance
    [__dict__]. *)
Definition get_slot (l : loc) (key : string) : M value :=
  o <- deref l ;;
  match o_dict o !! key with
  | Some v => ret v
  | None => raise (AttributeError key)
  end.

(** The instance after [self.__dict__[key] = v]. *)
Definition obj_set (o : NeoNodeObj) (key : string) (v : value) : NeoNodeObj :=
  mkObj (o_class o) (<[key := v]> (o_dict o)).

(** [self.__dict__[key] = v] *)
Definition set_slot (l : loc) (key : string) (v : value) : M unit :=
  modify (set_objects (alter (λ o, obj_set o key v) l)).

(** A py2neo method [meth] called on [v]: only a node handle has it. *)
Definition as_node (meth : string) (v : value) : M nodeid :=
  match v with
  | VNode n => ret n
  | _ => raise (AttributeError meth)
  end.

Definition as_index (meth : string) (v : value) : M string :=
  match v with
  | VIndex name => ret name
  | _ => raise (AttributeError meth)
  end.

Definition as_str (meth : string) (v : value) : M string :=
  match v with
  | VStr s | VUnicode s => ret s
  | _ => raise (AttributeError meth)
  end.

(** ** Class attributes *)

Fixpoint mro_lookup (cs : gmap string PyClass) (names : list string) (name : string)
  : option attr :=
  match names with
  | [] => None
  | c :: rest =>
      match cs !! c ≫= (λ k, c_dict k !! name) with
      | Some a => Some a
      | None => mro_lookup cs rest name
      end
  end.

(** The attributes a class has through its metaclass [NeoNodeMeta]:
    those of the metaclass itself ([__module__], [__doc__], [__new__]),
    of [type] and, behind it, of [object] (Python 2.7), with their truth
    value on a class made by a class statement.  [__abstractmethods__] is
    not among them: reading it raises [AttributeError], so that
    [hasattr] is false. *)
Definition type_attrs : gmap string attr :=
  list_to_map
    (((λ name, (name, AObject true)) <$>
        ["mro"; "__name__"; "__bases__"; "__base__"; "__mro__"; "__dict__";
         "__basicsize__"; "__flags__"; "__dictoffset__"; "__weakrefoffset__";
         "__subclasses__"; "__instancecheck__"; "__subclasscheck__"; "__call__";
         "__eq__"; "__ne__"; "__lt__"; "__le__"; "__gt__"; "__ge__";
         "__class__"; "__delattr__"; "__format__"; "__getattribute__"; "__hash__";
         "__init__"; "__new__"; "__reduce__"; "__reduce_ex__"; "__repr__";
         "__setattr__"; "__sizeof__"; "__str__"; "__subclasshook__"])
     ++ [("__module__", AObject true); ("__itemsize__", AObject false);
         ("__doc__", AObject false)]).

(** [getattr(cls, name)], and with it [hasattr]: the class's own
    dictionary first, then its bases in resolution order, then the
    metaclass.  (The names [type] keeps as data descriptors, such as
    [__name__], are taken not to be bound by a class body.) *)
Definition class_getattr (cs : gmap string PyClass) (cname name : string) : option attr :=
  c ← cs !! cname;
  match mro_lookup cs (cname :: c_mro c) name with
  | Some a => Some a
  | None => type_attrs !! name
  end.

Definition get_class (cname : string) : M PyClass :=
  λ w, match classes w !! cname with
       | Some c => (Return c, w)
       | None => (Raise (SystemError "missing class"), w)
       end.

(** [validate] of [StringProperty] and [IntegerProperty] *)
Definition validate (p : Property) (v : value) : M bool :=
  match p_kind p with
  | KStringProperty =>
      if is_str v then ret true
      else raise (TypeError "Object of type str expected got ")
  | KIntegerProperty =>
      if is_int v then ret true
      else raise (TypeError "Object of type int or long expected")
  | KProperty => raise (AttributeError "validate")
  end.

(** Attribute access on whatever [get_property] returned. *)
Definition attr_validate (a : attr) (v : value) : M bool :=
  match a with
  | AProperty p => validate p v
  | _ => raise (AttributeError "validate")
  end.

Definition attr_unique_index (a : attr) : M bool :=
  match a with
  | AProperty p => ret (unique_index p)
  | _ => raise (AttributeError "unique_index")
  end.

Definition attr_index (a : attr) : M bool :=
  match a with
  | AProperty p => ret (index p)
  | _ => raise (AttributeError "index")
  end.

Definition attr_is_indexed (a : attr) : M bool :=
  match a with
  | AProperty p => ret (is_indexed p)
  | _ => raise (AttributeError "is_indexed")
  end.

(** ** NeoDB *)

(** [NeoDB.category] *)
Definition category (name : string) : M nodeid :=
  modify (set_db (λ g, db_get_or_create_index g "Category")) ;;;
  w <- get_world ;;
  match category_cache w !! name with
  | Some c => ret c
  | None =>
      let cg := index_get_or_create (db w) "Category" "category" (VStr name)
                  {["category" := VStr name]} in
      modify (set_db (λ _, cg.2)) ;;;
      modify (set_category_cache (<[name := cg.1]>)) ;;;
      ret cg.1
  end.

(** ** RelationshipDefinition *)

(** [RelationshipDefinition.build_manager]: a fresh manager (the default
    [RelationshipManager] class) with an empty cache. *)
Definition build_manager (d : RelationshipDefinition) (origin : loc) (name : string)
  : M loc :=
  w <- get_world ;;
  let l := fresh (dom (managers w)) in
  modify (set_managers (<[l := mkManager (rd_direction d) (rd_relation_type d)
                                 (rd_node_class d) name ∅ origin]>)) ;;;
  ret l.

(** ** NeoNodeMeta *)

(** The class table with the class [c] entered under [name]. *)
Definition set_class (name : string) (c : PyClass) (w : World) : World :=
  mkWorld (<[name := c]> (classes w)) (objects w) (managers w) (db w) (category_cache w).

(** The class [c] with its attribute [key] bound to [a]. *)
Definition class_set (c : PyClass) (key : string) (a : attr) : PyClass :=
  mkClass (<[key := a]> (c_dict c)) (c_mro c).

(** [NeoNodeMeta.__new__]: the class is made and entered in the class
    table; unless it is [NeoNode] itself, its index is obtained from the
    store and bound to the class attribute [index]. *)
Definition NeoNodeMeta_new (name : string) (c : PyClass) : M unit :=
  modify (set_class name c) ;;;
  if decide (name ≠ "NeoNode") then
    modify (set_db (λ g, db_get_or_create_index g name)) ;;;
    modify (set_class name (class_set c "index" (AObject true)))
  else ret tt.

(** ** NeoNode *)

Module NeoNode.

(** [NeoNode.get_property]: the [Exception] of the source is built and
    dropped, not raised, so whatever [getattr] finds is returned. *)
Definition get_property (cls name : string) : M attr :=
  w <- get_world ;;
  _ <- get_class cls ;;
  match class_getattr (classes w) cls name with
  | Some node_property => ret node_property
  | None => raise (AttributeError name)
  end.

(** The class method [NeoNode.relate]. *)
Definition relate (cls manager_property : string) (rel_type : string)
  (direction : Direction) (to : string) : M unit :=
  w <- get_world ;;
  c <- get_class cls ;;
  match class_getattr (classes w) cls manager_property with
  | Some _ => raise (Exception (cls +:+ " already has attribute " +:+ manager_property))
  | None =>
      modify (λ w, mkWorld
                (<[cls := mkClass (<[manager_property := ARelDef (mkRelDef rel_type to direction)]>
                                      (c_dict c)) (c_mro c)]> (classes w))
                (objects w) (managers w) (db w) (category_cache w))
  end.

(** [NeoNode.__setattr__] *)
Definition __setattr__ (self : loc) (key : string) (v : value) : M unit :=
  if startswith_underscore key then set_slot self key v
  else
    o <- deref self ;;
    prop <- get_property (o_class o) key ;;
    ok <- attr_validate prop v ;;
    if ok then set_slot self key v else ret tt.

(** What the loop of [NeoNode.properties] keeps: no key prefixed ['_'],
    no [RelationshipManager] (bound methods are not among [value]). *)
Definition property_item (kv : string * value) : bool :=
  negb (startswith_underscore kv.1) && negb (is_manager kv.2).

(** [NeoNode.properties] *)
Definition properties (self : loc) : M (gmap string value) :=
  o <- deref self ;;
  ret (filter (λ kv, property_item kv = true) (o_dict o)).

(** [NeoNode._validate_args] *)
Definition _validate_args (self : loc) (props : gmap string value) : M unit :=
  for_each (map_to_list props) (λ kv,
    o <- deref self ;;
    c <- get_class (o_class o) ;;
    match c_dict c !! kv.1 with
    | Some _ =>
        node_property <- get_property (o_class o) kv.1 ;;
        _ <- attr_validate node_property kv.2 ;;
        set_slot self kv.1 kv.2
    | None => raise (NoSuchProperty kv.1)
    end).

(** [RelationshipInstaller.__init__] *)
Definition RelationshipInstaller_init (self : loc) : M unit :=
  __setattr__ self "_related" VEmptyDict ;;;
  o <- deref self ;;
  c <- get_class (o_class o) ;;
  for_each (map_to_list (c_dict c)) (λ kv,
    match kv.2 with
    | ARelDef d =>
        m <- build_manager d self kv.1 ;;
        set_slot self kv.1 (VManager m)
    | _ => ret tt
    end).

(** [NeoNode.__init__], on a new instance of [cls] with an empty
    [__dict__]. *)
Definition __init__ (cls : string) (kwargs : gmap string value) : M loc :=
  w <- get_world ;;
  let self := fresh (dom (objects w)) in
  modify (set_objects (<[self := mkObj cls ∅]>)) ;;;
  _validate_args self kwargs ;;;
  __setattr__ self "_node" VNone ;;;
  __setattr__ self "_db" VDb ;;;
  __setattr__ self "_type" (VStr cls) ;;;
  ty <- get_slot self "_type" ;;
  name <- as_str "get_or_create_index" ty ;;
  modify (set_db (λ g, db_get_or_create_index g name)) ;;;
  __setattr__ self "_index" (VIndex name) ;;;
  RelationshipInstaller_init self ;;;
  ret self.

(** The loop of [NeoNode._update_index]: the requests queued on the
    batch. *)
Fixpoint _update_index_requests (self : loc) (items : list (string * value))
  : M (list batch_request) :=
  match items with
  | [] => ret []
  | kv :: rest =>
      o <- deref self ;;
      node_property <- get_property (o_class o) kv.1 ;;
      u <- attr_unique_index node_property ;;
      rq <- (if u then
               node <- get_slot self "_node" ;;
               n <- as_node "add_if_none" node ;;
               ret [BAddIfNone kv.1 kv.2 n]
             else
               i <- attr_index node_property ;;
               if i then
                 node <- get_slot self "_node" ;;
                 n <- as_node "add" node ;;
                 ret [BAdd kv.1 kv.2 n]
               else ret []) ;;
      rqs <- _update_index_requests self rest ;;
      ret (rq ++ rqs)
  end.

(** [NeoNode._update_index] *)
Definition _update_index (self : loc) (props : gmap string value) : M unit :=
  ix <- get_slot self "_index" ;;
  name <- as_index "IndexBatch" ix ;;
  rqs <- _update_index_requests self (map_to_list props) ;;
  w <- get_world ;;
  let r := batch_submit (db w) name rqs in
  modify (set_db (λ _, r.2)) ;;;
  if bool_decide (200 ∈ r.1) then raise (NotUnique "A supplied value is not unique")
  else ret tt.

(** [NeoNode.delete] *)
Definition delete (self : loc) : M bool :=
  node <- get_slot self "_node" ;;
  if truthy node then
    n <- as_node "get_relationships" node ;;
    w <- get_world ;;
    let to_delete := (ERel <$> db_get_relationships (db w) n) ++ [ENode n] in
    modify (set_db (λ g, db_delete g to_delete)) ;;;
    __setattr__ self "_node" VNone ;;;
    ret true
  else raise (Exception "Node has not been saved so cannot be deleted").

(** [NeoNode._create]; the [Exception] built when [self._node] is false
    is dropped, as in the source. *)
Definition _create (self : loc) (props : gmap string value) : M unit :=
  ty <- get_slot self "_type" ;;
  tname <- as_str "upper" ty ;;
  let relation_name := upper tname in
  anchor <- category tname ;;
  w <- get_world ;;
  let nrg := db_create (db w) props anchor relation_name in
  modify (set_db (λ _, nrg.2)) ;;;
  __setattr__ self "_node" (VNode nrg.1.1) ;;;
  try_except (_update_index self props)
    (λ e, _ <- delete self ;; raise e).

(** [NeoNode.save] *)
Definition save (self : loc) : M loc :=
  node <- get_slot self "_node" ;;
  (if truthy node then
     props <- properties self ;;
     n <- as_node "set_properties" node ;;
     modify (set_db (λ g, db_set_properties g n props)) ;;;
     ix <- get_slot self "_index" ;;
     name <- as_index "remove" ix ;;
     node' <- get_slot self "_node" ;;
     n' <- as_node "remove" node' ;;
     modify (set_db (λ g, index_remove g name n')) ;;;
     props' <- properties self ;;
     _update_index self props'
   else
     props <- properties self ;;
     _create self props) ;;;
  ret self.

End NeoNode.

(** [for x in l: out.append(f x)] *)
Fixpoint for_collect {A B} (l : list A) (f : A → M B) : M (list B) :=
  match l with
  | [] => ret []
  | x :: l' =>
      y <- f x ;;
      ys <- for_collect l' f ;;
      ret (y :: ys)
  end.

(** ** RelationshipManager *)

Module RelationshipManager.

(** [self.origin._node] *)
Definition origin_node (m : RelationshipManagerObj) : M value :=
  get_slot (rm_origin m) "_node".

(** [RelationshipManager.all]; [None] is the bare [return] of the
    source. *)
Definition all (self : loc) : M (option (list loc)) :=
  m <- get_manager self ;;
  if decide (rm_related m = ∅) then
    on <- origin_node m ;;
    n <- as_node "get_related_nodes" on ;;
    w <- get_world ;;
    let related_nodes := db_get_related_nodes (db w) n (rm_direction m) (rm_relation_type m) in
    match related_nodes with
    | [] => ret None
    | _ =>
        for_each related_nodes (λ n,
          w' <- get_world ;;
          wrapped_node <- NeoNode.__init__ (rm_node_class m) (db_get_properties (db w') n) ;;
          NeoNode.__setattr__ wrapped_node "_node" (VNode n) ;;;
          set_related self (<[n := wrapped_node]>)) ;;;
        m' <- get_manager self ;;
        ret (Some ((map_to_list (rm_related m')).*2))
    end
  else ret (Some ((map_to_list (rm_related m)).*2)).

(** [RelationshipManager.is_related] *)
Definition is_related (self obj : loc) : M bool :=
  m <- get_manager self ;;
  node <- get_slot obj "_node" ;;
  id <- as_node "id" node ;;
  if decide (is_Some (rm_related m !! id)) then ret true
  else
    on <- origin_node m ;;
    n <- as_node "has_relationship_with" on ;;
    w <- get_world ;;
    ret (negb (bool_decide
                 (db_get_relationships_with (db w) n id (rm_direction m) (rm_relation_type m)
                  = []))).

(** [RelationshipManager.relate] *)
Definition relate (self obj : loc) : M unit :=
  m <- get_manager self ;;
  o <- deref obj ;;
  if decide (o_class o ≠ rm_node_class m) then
    raise (Exception ("Expecting object of class " +:+ rm_node_class m))
  else
    node <- get_slot obj "_node" ;;
    if negb (truthy node) then
      raise (Exception "Can't create relationship to unsaved node")
    else
      on <- origin_node m ;;
      a <- as_node "get_or_create_relationships" on ;;
      b <- as_node "get_or_create_relationships" node ;;
      modify (set_db (λ g, db_get_or_create_relationship g a (rm_relation_type m) b)) ;;;
      id <- as_node "id" node ;;
      set_related self (<[id := obj]>).

(** [RelationshipManager.unrelate] *)
Definition unrelate (self obj : loc) : M unit :=
  m <- get_manager self ;;
  node <- get_slot obj "_node" ;;
  id <- as_node "id" node ;;
  (if decide (is_Some (rm_related m !! id)) then set_related self (delete id)
   else ret tt) ;;;
  on <- origin_node m ;;
  n <- as_node "get_relationships_with" on ;;
  w <- get_world ;;
  let rels := db_get_relationships_with (db w) n id (rm_direction m) (rm_relation_type m) in
  match rels with
  | [] => ret tt
  | [r] => modify (set_db (λ g, db_delete g [ERel r]))
  | _ => raise (Exception "Expected single relationship got ")
  end.

End RelationshipManager.

(** ** NeoIndex *)

Record NeoIndexObj := mkNeoIndex {
  ni_node_class : string;
  ni_index : string
}.

Module NeoIndex.

(** [reduce(lambda x, y: x & y, qs)] *)
Definition reduce_and (qs : list Q) : M Q :=
  match qs with
  | [] => raise (TypeError "reduce() of empty sequence with no initial value")
  | q :: rest => ret (foldl QAnd q rest)
  end.

(** [NeoIndex.search]; [query] is [None] when the caller passes no query
    (or a false one). *)
Definition search (self : NeoIndexObj) (query : option Q) (kwargs : gmap string value)
  : M (list loc) :=
  for_each (map_to_list kwargs) (λ kv,
    p <- NeoNode.get_property (ni_node_class self) kv.1 ;;
    if negb (attr_truthy p) then raise (NoSuchProperty kv.1)
    else
      ix <- attr_is_indexed p ;;
      if negb ix then raise (PropertyNotIndexed kv.1)
      else _ <- attr_validate p kv.2 ;; ret tt) ;;;
  q <- match query with
       | Some q => ret q
       | None => reduce_and ((λ kv, QTerm kv.1 kv.2) <$> map_to_list kwargs)
       end ;;
  w <- get_world ;;
  for_collect (index_query (db w) (ni_index self) q) (λ node,
    w' <- get_world ;;
    neonode <- NeoNode.__init__ (ni_node_class self) (db_get_properties (db w') node) ;;
    NeoNode.__setattr__ neonode "_node" (VNode node) ;;;
    ret neonode).

(** [NeoIndex.get] *)
Definition get (self : NeoIndexObj) (query : option Q) (kwargs : gmap string value)
  : M loc :=
  nodes <- search self query kwargs ;;
  match nodes with
  | [n] => ret n
  | _ :: _ :: _ => raise (Exception "Multiple nodes returned from query, expected one")
  | [] => raise (Exception "No nodes found")
  end.

End NeoIndex.

(** ** Auxiliary definitions for the statements *)

(** What [delete] removes from the store for the node [n]. *)
Definition db_delete_node (g : GraphDB) (n : nodeid) : GraphDB :=
  db_delete g ((ERel <$> db_get_relationships g n) ++ [ENode n]).

(** Does [validate] of the descriptor accept the value? *)
Definition validates (p : Property) (v : value) : bool :=
  match p_kind p with
  | KStringProperty => is_str v
  | KIntegerProperty => is_int v
  | KProperty => false
  end.

(** A keyword argument the loop of [_validate_args] accepts: its key is in
    the class's own dictionary, bound to a descriptor that validates the
    value. *)
Definition valid_item (c : PyClass) (kv : string * value) : Prop :=
  ∃ p, c_dict c !! kv.1 = Some (AProperty p) ∧ validates p kv.2 = true.

(** [d[k] = v] for the items in turn. *)
Definition dict_update (d : gmap string value) (l : list (string * value))
  : gmap string value :=
  foldl (λ d kv, <[kv.1 := kv.2]> d) d l.

(** The body of the loop of [NeoNode._validate_args]. *)
Definition validate_args_body (self : loc) (kv : string * value) : M unit :=
  o <- deref self ;;
  c <- get_class (o_class o) ;;
  match c_dict c !! kv.1 with
  | Some _ =>
      node_property <- NeoNode.get_property (o_class o) kv.1 ;;
      _ <- attr_validate node_property kv.2 ;;
      set_slot self kv.1 kv.2
  | None => raise (NoSuchProperty kv.1)
  end.

(** What one keyword argument makes the loop of [_validate_args] raise,
    if anything: [NoSuchProperty] for a key missing from the class's own
    dictionary, [TypeError] from [validate], and [AttributeError] where
    the attribute has no [validate]. *)
Definition item_error (c : PyClass) (kv : string * value) : option exn :=
  match c_dict c !! kv.1 with
  | None => Some (NoSuchProperty kv.1)
  | Some (AProperty p) =>
      match p_kind p with
      | KStringProperty =>
          if is_str kv.2 then None
          else Some (TypeError "Object of type str expected got ")
      | KIntegerProperty =>
          if is_int kv.2 then None
          else Some (TypeError "Object of type int or long expected")
      | KProperty => Some (AttributeError "validate")
      end
  | Some _ => Some (AttributeError "validate")
  end.

(** The body of the loop of [RelationshipInstaller.__init__]. *)
Definition installer_body (self : loc) (kv : string * attr) : M unit :=
  match kv.2 with
  | ARelDef d =>
      m <- build_manager d self kv.1 ;;
      set_slot self kv.1 (VManager m)
  | _ => ret tt
  end.

(** The manager [build_manager] makes for the definition [d] under the
    name [name] on the instance [origin]. *)
Definition new_manager (d : RelationshipDefinition) (origin : loc) (name : string)
  : RelationshipManagerObj :=
  mkManager (rd_direction d) (rd_relation_type d) (rd_node_class d) name ∅ origin.

(** The world with the instance [self] of [cls] holding the [__dict__] [D]. *)
Definition put_dict (self : loc) (cls : string) (D : gmap string value) (w : World)
  : World :=
  set_objects (<[self := mkObj cls D]>) w.

(** The body of the first loop of [NeoIndex.search]. *)
Definition search_body (cls : string) (kv : string * value) : M unit :=
  p <- NeoNode.get_property cls kv.1 ;;
  if negb (attr_truthy p) then raise (NoSuchProperty kv.1)
  else
    ix <- attr_is_indexed p ;;
    if negb ix then raise (PropertyNotIndexed kv.1)
    else _ <- attr_validate p kv.2 ;; ret tt.

(** What one keyword makes the first loop of [NeoIndex.search] raise, if
    anything: [AttributeError] from [getattr] for a name the class does
    not have, [NoSuchProperty] for an attribute that is false,
    [AttributeError] for one without [is_indexed], [PropertyNotIndexed]
    for a descriptor that is not indexed, and whatever [validate]
    raises. *)
Definition search_item_error (cs : gmap string PyClass) (cls : string)
  (kv : string * value) : option exn :=
  match class_getattr cs cls kv.1 with
  | None => Some (AttributeError kv.1)
  | Some (AObject false) => Some (NoSuchProperty kv.1)
  | Some (AObject true) | Some (ARelDef _) => Some (AttributeError "is_indexed")
  | Some (AProperty p) =>
      if negb (is_indexed p) then Some (PropertyNotIndexed kv.1)
      else
        match p_kind p with
        | KStringProperty =>
            if is_str kv.2 then None
            else Some (TypeError "Object of type str expected got ")
        | KIntegerProperty =>
            if is_int kv.2 then None
            else Some (TypeError "Object of type int or long expected")
        | KProperty => Some (AttributeError "validate")
        end
  end.

(** The query [search] builds from its keywords when it is given none. *)
Definition kwargs_terms (kwargs : gmap string value) : list Q :=
  (λ kv, QTerm kv.1 kv.2) <$> map_to_list kwargs.

(** The requests the loop of [NeoNode._update_index] queues for one item
    of [props], on an instance of [cls] saved on the node [n]. *)
Definition item_requests (cs : gmap string PyClass) (cls : string) (n : nodeid)
  (kv : string * value) : list batch_request :=
  match class_getattr cs cls kv.1 with
  | Some (AProperty p) =>
      if unique_index p then [BAddIfNone kv.1 kv.2 n]
      else if index p then [BAdd kv.1 kv.2 n] else []
  | _ => []
  end.

(** The index entry a request asks for. *)
Definition request_entry (rq : batch_request) : IndexEntry :=
  match rq with
  | BAdd k v n | BAddIfNone k v n => (k, py_str v, n)
  end.

Definition request_key (rq : batch_request) : string := (request_entry rq).1.1.

(** The batch [_update_index] submits for [props]. *)
Definition update_requests (cs : gmap string PyClass) (cls : string) (n : nodeid)
  (props : gmap string value) : list batch_request :=
  flat_map (item_requests cs cls n) (map_to_list props).

(** Is every key of [props] a descriptor [getattr] finds on [cls]? *)
Definition all_declared (cs : gmap string PyClass) (cls : string)
  (props : gmap string value) : bool :=
  forallb (λ kv : string * value,
             match class_getattr cs cls kv.1 with
             | Some (AProperty _) => true
             | _ => false
             end) (map_to_list props).

(** What [self.properties] returns for an instance with the [__dict__] [D]. *)
Definition properties_of (D : gmap string value) : gmap string value :=
  filter (λ kv, NeoNode.property_item kv = true) D.

(** Is there a uniquely indexed property of [cls] in [props] whose value
    has an entry in the index [name] of the store [g] under the same
    key? *)
Definition unique_conflict (cs : gmap string PyClass) (cls : string) (g : GraphDB)
  (name : string) (props : gmap string value) : bool :=
  existsb (λ kv : string * value,
             match class_getattr cs cls kv.1 with
             | Some (AProperty p) => unique_index p && index_has g name kv.1 kv.2
             | _ => false
             end) (map_to_list props).

(** Would the loop of [_validate_args] accept every item of [props] for
    the class [c]? *)
Definition all_valid (c : PyClass) (props : gmap string value) : bool :=
  forallb (λ kv : string * value,
             match c_dict c !! kv.1 with
             | Some (AProperty p) => validates p kv.2
             | _ => false
             end) (map_to_list props).

(** The body of the loop of [RelationshipManager.all]. *)
Definition all_body (self : loc) (cls : string) (n : nodeid) : M unit :=
  w' <- get_world ;;
  wrapped_node <- NeoNode.__init__ cls (db_get_properties (db w') n) ;;
  NeoNode.__setattr__ wrapped_node "_node" (VNode n) ;;;
  set_related self (<[n := wrapped_node]>).

(** What holds in the world [w'] while the loop of [all], started in
    [w0] on the manager [m] at [self], fills the cache: the manager holds
    [cache]; classes, nodes, relationships and the instances of [w0] are
    as they were; every cached instance is new, has the node it is
    cached under, and the properties of that node in the store (but for
    names that begin with an underscore). *)
Definition all_inv (self : loc) (m : RelationshipManagerObj) (w0 w' : World)
  (cache : gmap nodeid loc) : Prop :=
  managers w' !! self = Some (with_related (λ _, cache) m)
  ∧ classes w' = classes w0
  ∧ nodes (db w') = nodes (db w0)
  ∧ rels (db w') = rels (db w0)
  ∧ (∀ l o, objects w0 !! l = Some o → objects w' !! l = Some o)
  ∧ (∀ n l, cache !! n = Some l →
       objects w0 !! l = None
       ∧ ∃ o, objects w' !! l = Some o
              ∧ o_dict o !! "_node" = Some (VNode n)
              ∧ properties_of (o_dict o)
                = filter (λ kv : string * value, startswith_underscore kv.1 = false)
                    (db_get_properties (db w0) n)).

(** ** A small schema to run the code on *)

Module Demo.

(** The attributes of [NeoNode] itself (methods and its docstring). *)
Definition NeoNode_class : PyClass :=
  mkClass
    (list_to_map
       [("__doc__", AObject true); ("__metaclass__", AObject true);
        ("__module__", AObject true); ("__init__", AObject true);
        ("__setattr__", AObject true); ("get_property", AObject true);
        ("relate", AObject true); ("properties", AObject true);
        ("_validate_args", AObject true); ("_create", AObject true);
        ("_update_index", AObject true); ("save", AObject true);
        ("delete", AObject true)])
    ["RelationshipInstaller"; "object"].

(** [class Person(NeoNode)] with a uniquely indexed [name], an indexed
    [age], a plain [nick], a descriptor whose name begins with an
    underscore, and a relationship [friends] to [Person]; no docstring. *)
Definition Person : PyClass :=
  mkClass
    (list_to_map
       [("name", AProperty (mkProperty KStringProperty true false));
        ("age", AProperty (mkProperty KIntegerProperty false true));
        ("nick", AProperty (mkProperty KStringProperty false false));
        ("_secret", AProperty (mkProperty KStringProperty false false));
        ("friends", ARelDef (mkRelDef "KNOWS" "Person" OUTGOING));
        ("index", AObject true); ("__module__", AObject true);
        ("__doc__", AObject false)])
    ["NeoNode"; "RelationshipInstaller"; "object"].

(** [class Pet(NeoNode)] with an indexed [name]. *)
Definition Pet : PyClass :=
  mkClass
    (list_to_map
       [("name", AProperty (mkProperty KStringProperty false true));
        ("index", AObject true); ("__module__", AObject true);
        ("__doc__", AObject false)])
    ["NeoNode"; "RelationshipInstaller"; "object"].

Definition w0 : World :=
  mkWorld (list_to_map [("NeoNode", NeoNode_class); ("Person", Person); ("Pet", Pet)])
    ∅ ∅ (mkDB ∅ ∅ ∅) ∅.

(** The world a computation leaves. *)
Definition after {A} (m : M A) (w : World) : World := (m w).2.

(** [ann = Person(name='Ann', age=30)] *)
Definition w_ann : World :=
  after (NeoNode.__init__ "Person" (list_to_map [("name", VStr "Ann"); ("age", VInt 30)])) w0.
Definition ann : loc := 0.

(** [ann.save()] *)
Definition w_ann_saved : World := after (NeoNode.save ann) w_ann.

Definition o_ann_saved : NeoNodeObj :=
  default (mkObj "" ∅) (objects w_ann_saved !! ann).

(** [ann2 = Person(name='Ann')] *)
Definition w_ann2 : World :=
  after (NeoNode.__init__ "Person" (list_to_map [("name", VStr "Ann")])) w_ann_saved.
Definition ann2 : loc := 1.

(** [bob = Person(name='Bob').save()] *)
Definition w_bob : World :=
  after (b <- NeoNode.__init__ "Person" (list_to_map [("name", VStr "Bob")]) ;;
         NeoNode.save b) w_ann2.
Definition bob : loc := 2.

End Demo.

(** ** Evaluated worlds for running the code *)

Module Run.

(** [Demo.w_bob]: ann (saved, node 1), ann2 (unsaved), bob (saved, node 2). *)
Definition w_bob : World := Eval vm_compute in Demo.w_bob.

Definition ann_friends : loc := 0.

Definition o_ann : NeoNodeObj :=
  Eval vm_compute in default (mkObj "" ∅) (objects w_bob !! Demo.ann).
Definition o_ann2 : NeoNodeObj :=
  Eval vm_compute in default (mkObj "" ∅) (objects w_bob !! Demo.ann2).
Definition o_bob : NeoNodeObj :=
  Eval vm_compute in default (mkObj "" ∅) (objects w_bob !! Demo.bob).

Definition manager_at (w : World) (l : loc) : RelationshipManagerObj :=
  default (mkManager EITHER "" "" "" ∅ 0) (managers w !! l).

Definition m_friends : RelationshipManagerObj :=
  Eval vm_compute in manager_at w_bob ann_friends.

(** [ann.friends.relate(bob)] *)
Definition w_related : World :=
  Eval vm_compute in Demo.after (RelationshipManager.relate ann_friends Demo.bob) w_bob.

Definition m_friends_related : RelationshipManagerObj :=
  Eval vm_compute in manager_at w_related ann_friends.

(** A second [KNOWS] edge from ann to bob, put in the store by another
    client. *)
Definition w_double : World :=
  Eval vm_compute in
    set_db (λ g, mkDB (nodes g) (<[7 := mkRel 1 "KNOWS" 2]> (rels g)) (indexes g)) w_related.

(** [Person.relate('followers', ('FOLLOWS', INCOMING), to=Person)], then
    [cy = Person(name='Cy').save()]: cy is saved on node 3 and
    [cy.followers] is an [INCOMING] manager. *)
Definition w_follow : World :=
  Eval vm_compute in
    Demo.after (NeoNode.relate "Person" "followers" "FOLLOWS" INCOMING "Person" ;;;
                c <- NeoNode.__init__ "Person" (list_to_map [("name", VStr "Cy")]) ;;
                NeoNode.save c) w_bob.

Definition cy : loc := 3.
Definition cy_followers : loc := 3.

Definition o_cy : NeoNodeObj :=
  Eval vm_compute in default (mkObj "" ∅) (objects w_follow !! cy).
Definition m_followers : RelationshipManagerObj :=
  Eval vm_compute in manager_at w_follow cy_followers.

(** [Demo.w0]: the classes, no instance, an empty store. *)
Definition w0 : World := Eval vm_compute in Demo.w0.

(** Keywords for [Person]: a bad one among them, and only good ones. *)
Definition kwargs_bogus : gmap string value :=
  <["name" := VStr "Ann"]> (<["bogus" := VInt 1]> ∅).
Definition kwargs_ann : gmap string value :=
  <["name" := VStr "Ann"]> (<["age" := VInt 30]> ∅).

(** [class Employee(Person)] with a [salary] of its own; [name], [age] and
    [friends] are inherited. *)
Definition Employee : PyClass :=
  mkClass
    (list_to_map
       [("salary", AProperty (mkProperty KIntegerProperty false false));
        ("__module__", AObject true); ("__doc__", AObject false)])
    ["Person"; "NeoNode"; "RelationshipInstaller"; "object"].

(** The class statement runs the metaclass; then [eve = Employee(salary=10)]. *)
Definition w_emp : World :=
  Eval vm_compute in
    Demo.after (NeoNodeMeta_new "Employee" Employee ;;;
                NeoNode.__init__ "Employee" (<["salary" := VInt 10]> ∅)) w_bob.

Definition eve : loc := 3.
Definition o_eve : NeoNodeObj :=
  Eval vm_compute in default (mkObj "" ∅) (objects w_emp !! eve).
Definition Employee_registered : PyClass :=
  Eval vm_compute in default (mkClass ∅ []) (classes w_emp !! "Employee").

(** [Person.index] *)
Definition person_index : NeoIndexObj := mkNeoIndex "Person" "Person".

(** [dan = Person(name='Dan', age=41)], not saved. *)
Definition w_dan : World :=
  Eval vm_compute in
    Demo.after (NeoNode.__init__ "Person"
                  (list_to_map [("name", VStr "Dan"); ("age", VInt 41)])) w_bob.

Definition dan : loc := 3.
Definition o_dan : NeoNodeObj :=
  Eval vm_compute in default (mkObj "" ∅) (objects w_dan !! dan).

(** A [KNOWS] edge from ann to bob, put in the store by another client:
    the cache of [ann.friends] is empty. *)
Definition w_knows : World :=
  Eval vm_compute in set_db (λ g, db_get_or_create_relationship g 1 "KNOWS" 2) w_bob.

End Run.

(** * Properties *)

(** ** Running the monad *)

Lemma bind_Return {A B} (m : M A) (f : A → M B) w a w' :
  m w = (Return a, w') → bind m f w = f a w'.
Proof. intros H. unfold bind. by rewrite H. Qed.

Lemma bind_Raise {A B} (m : M A) (f : A → M B) w e w' :
  m w = (Raise e, w') → bind m f w = (Raise e, w').
Proof. intros H. unfold bind. by rewrite H. Qed.

Lemma deref_run w l o : objects w !! l = Some o → deref l w = (Return o, w).
Proof. intros H. unfold deref. by rewrite H. Qed.

Lemma get_manager_run w l m : managers w !! l = Some m → get_manager l w = (Return m, w).
Proof. intros H. unfold get_manager. by rewrite H. Qed.

Lemma get_class_run w cls c : classes w !! cls = Some c → get_class cls w = (Return c, w).
Proof. intros H. unfold get_class. by rewrite H. Qed.

Lemma get_slot_run w l o key v :
  objects w !! l = Some o → o_dict o !! key = Some v → get_slot l key w = (Return v, w).
Proof.
  intros Ho Hk. unfold get_slot. rewrite (bind_Return _ _ _ _ _ (deref_run _ _ _ Ho)).
  by rewrite Hk.
Qed.

Lemma get_slot_missing w l o key :
  objects w !! l = Some o → o_dict o !! key = None →
  get_slot l key w = (Raise (AttributeError key), w).
Proof.
  intros Ho Hk. unfold get_slot. rewrite (bind_Return _ _ _ _ _ (deref_run _ _ _ Ho)).
  by rewrite Hk.
Qed.

Lemma set_slot_run w l key v :
  set_slot l key v w
  = (Return tt, set_objects (alter (λ o, obj_set o key v) l) w).
Proof. reflexivity. Qed.

Lemma setattr_underscore w l key v :
  startswith_underscore key = true →
  NeoNode.__setattr__ l key v w
  = (Return tt, set_objects (alter (λ o, obj_set o key v) l) w).
Proof. intros H. unfold NeoNode.__setattr__. by rewrite H. Qed.

(** ** The store *)

Lemma elem_of_db_get_relationships g n r :
  r ∈ db_get_relationships g n ↔ ∃ rel, rels g !! r = Some rel ∧ touches n rel = true.
Proof.
  unfold db_get_relationships. rewrite list_elem_of_omap. split.
  - intros [[i rel] [Hin Hs]]. simpl in Hs.
    destruct (touches n rel) eqn:Ht; [|done]. simplify_eq.
    exists rel. split; [|done]. by apply elem_of_map_to_list.
  - intros (rel & Hr & Ht). exists (r, rel). split.
    + by apply elem_of_map_to_list.
    + simpl. by rewrite Ht.
Qed.

Lemma db_delete_rels_nodes g rs :
  nodes (db_delete g (ERel <$> rs)) = nodes g
  ∧ indexes (db_delete g (ERel <$> rs)) = indexes g
  ∧ ∀ r, rels (db_delete g (ERel <$> rs)) !! r
         = if decide (r ∈ rs) then None else rels g !! r.
Proof.
  revert g. induction rs as [|r0 rs IH]; intros g.
  - split; [done|split; [done|]].
    intros r. rewrite decide_False by apply not_elem_of_nil. done.
  - change (db_delete g (ERel <$> r0 :: rs))
      with (db_delete (db_delete_entity g (ERel r0)) (ERel <$> rs)).
    destruct (IH (db_delete_entity g (ERel r0))) as (Hn & Hi & Hr).
    rewrite Hn, Hi. split; [done|split; [done|]].
    intros r. rewrite Hr. cbn [db_delete_entity rels].
    destruct (decide (r = r0)) as [->|Hne].
    + rewrite lookup_delete_eq. rewrite (decide_True _ _ (list_elem_of_here _ _)).
      by case_decide.
    + rewrite lookup_delete_ne by done.
      destruct (decide (r ∈ rs)) as [H1|H1].
      * rewrite decide_True; [done|by right].
      * rewrite decide_False; [done|]. intros [?|?]%elem_of_cons; done.
Qed.

Lemma db_delete_app g es1 es2 :
  db_delete g (es1 ++ es2) = db_delete (db_delete g es1) es2.
Proof. unfold db_delete. apply foldl_app. Qed.

Lemma db_delete_node_nodes g n : nodes (db_delete_node g n) = delete n (nodes g).
Proof.
  unfold db_delete_node. rewrite db_delete_app.
  destruct (db_delete_rels_nodes g (db_get_relationships g n)) as (Hn & _ & _).
  cbn. by rewrite Hn.
Qed.

Lemma db_delete_node_indexes g n : indexes (db_delete_node g n) = indexes g.
Proof.
  unfold db_delete_node. rewrite db_delete_app.
  destruct (db_delete_rels_nodes g (db_get_relationships g n)) as (_ & Hi & _).
  cbn. by rewrite Hi.
Qed.

Lemma db_delete_node_rels g n r :
  rels (db_delete_node g n) !! r
  = match rels g !! r with
    | Some rel => if touches n rel then None else Some rel
    | None => None
    end.
Proof.
  unfold db_delete_node. rewrite db_delete_app.
  destruct (db_delete_rels_nodes g (db_get_relationships g n)) as (_ & _ & Hr).
  cbn. rewrite Hr.
  case_decide as Hin.
  - apply elem_of_db_get_relationships in Hin as (rel & -> & ->). done.
  - destruct (rels g !! r) as [rel|] eqn:E; [|done].
    destruct (touches n rel) eqn:Ht; [|done].
    exfalso. apply Hin. apply elem_of_db_get_relationships. eauto.
Qed.

(** ** Property descriptors *)

(** C9: [Property.__init__] raises when [unique_index] comes with [index],
    and when it comes with [blank]; a descriptor that is returned has not
    both [unique_index] and [index], and was not declared both
    [unique_index] and [blank]. *)
Theorem Property_init_exclusive (kind : PropertyKind) (u i b : bool) :
  Property_init kind true true b
    = Raise (Exception "unique_index and index are mutually exclusive")
  ∧ Property_init kind true false true
    = Raise (Exception "uniquely indexed properties cannot also be blank")
  ∧ match Property_init kind u i b with
    | Return p =>
        unique_index p = u ∧ index p = i
        ∧ unique_index p && index p = false
        ∧ unique_index p && b = false
    | Raise _ => u = true ∧ (i = true ∨ b = true)
    end.
Proof.
  split; [done|split; [done|]].
  destruct u, i, b; cbn; auto.
Qed.

(** ** NeoNode.delete *)

Lemma touches_false n rel :
  touches n rel = false ↔ r_start rel ≠ n ∧ r_end rel ≠ n.
Proof.
  unfold touches. rewrite orb_false_iff, !bool_decide_eq_false. done.
Qed.

Lemma delete_run w self o n :
  objects w !! self = Some o →
  o_dict o !! "_node" = Some (VNode n) →
  NeoNode.delete self w
  = (Return true,
     set_objects (alter (λ o, obj_set o "_node" VNone) self)
       (set_db (λ g, db_delete_node g n) w)).
Proof.
  intros Ho Hn. unfold NeoNode.delete.
  by rewrite (bind_Return _ _ _ _ _ (get_slot_run _ _ _ _ _ Ho Hn)).
Qed.

Lemma delete_transient w self o :
  objects w !! self = Some o →
  o_dict o !! "_node" = Some VNone →
  NeoNode.delete self w
  = (Raise (Exception "Node has not been saved so cannot be deleted"), w).
Proof.
  intros Ho Hn. unfold NeoNode.delete.
  by rewrite (bind_Return _ _ _ _ _ (get_slot_run _ _ _ _ _ Ho Hn)).
Qed.

(** C6, amended: [delete] on an instance whose [_node] is [None] raises
    the builtin [Exception] (the module has no exception class for a node
    that is not saved); on an instance holding the handle of node [n] it
    returns [True], after which the store has neither [n] nor any
    relationship at [n] (everything else in the store is as before),
    [_node] is [None], and a second [delete] raises the same builtin
    [Exception]. *)
Theorem delete_spec (w : World) (self : loc) (o : NeoNodeObj) :
  objects w !! self = Some o →
  match o_dict o !! "_node" with
  | Some (VNode n) =>
      ∃ w',
        NeoNode.delete self w = (Return true, w')
        ∧ nodes (db w') !! n = None
        ∧ (∀ r rel, rels (db w') !! r = Some rel → r_start rel ≠ n ∧ r_end rel ≠ n)
        ∧ (∀ r rel, rels (db w) !! r = Some rel → r_start rel ≠ n → r_end rel ≠ n →
                    rels (db w') !! r = Some rel)
        ∧ (∀ m, m ≠ n → nodes (db w') !! m = nodes (db w) !! m)
        ∧ get_slot self "_node" w' = (Return VNone, w')
        ∧ NeoNode.delete self w'
          = (Raise (Exception "Node has not been saved so cannot be deleted"), w')
  | Some VNone =>
      NeoNode.delete self w
      = (Raise (Exception "Node has not been saved so cannot be deleted"), w)
  | _ => True
  end.
Proof.
  intros Ho. destruct (o_dict o !! "_node") as [[]|] eqn:Hn; try done.
  - by eapply delete_transient.
  - eexists. split; [by eapply delete_run|].
    assert (Ho' : objects (set_objects (alter (λ o, obj_set o "_node" VNone) self)
                     (set_db (λ g, db_delete_node g n) w)) !! self
                  = Some (obj_set o "_node" VNone)).
    { cbn. by rewrite lookup_alter_eq, Ho. }
    assert (Hn' : o_dict (obj_set o "_node" VNone) !! "_node" = Some VNone).
    { cbn. by rewrite lookup_insert_eq. }
    cbn [db set_objects set_db].
    split; [|split; [|split; [|split; [|split]]]].
    + by rewrite db_delete_node_nodes, lookup_delete_eq.
    + intros r rel. rewrite db_delete_node_rels.
      destruct (rels (db w) !! r) as [rel'|]; [|done].
      destruct (touches n rel') eqn:Ht; [done|].
      intros [= <-]. by apply touches_false.
    + intros r rel Hr H1 H2. rewrite db_delete_node_rels, Hr.
      by rewrite (proj2 (touches_false n rel)).
    + intros m Hm. by rewrite db_delete_node_nodes, lookup_delete_ne.
    + by eapply get_slot_run.
    + by eapply delete_transient.
Qed.

Lemma delete_spec_witness :
  objects Demo.w_ann_saved !! Demo.ann = Some Demo.o_ann_saved
  ∧ ∃ w',
      NeoNode.delete Demo.ann Demo.w_ann_saved = (Return true, w')
      ∧ nodes (db w') !! 1 = None
      ∧ (∀ r rel, rels (db w') !! r = Some rel → r_start rel ≠ 1 ∧ r_end rel ≠ 1)
      ∧ (∀ r rel, rels (db Demo.w_ann_saved) !! r = Some rel →
                  r_start rel ≠ 1 → r_end rel ≠ 1 → rels (db w') !! r = Some rel)
      ∧ (∀ m, m ≠ 1 → nodes (db w') !! m = nodes (db Demo.w_ann_saved) !! m)
      ∧ get_slot Demo.ann "_node" w' = (Return VNone, w')
      ∧ NeoNode.delete Demo.ann w'
        = (Raise (Exception "Node has not been saved so cannot be deleted"), w').
Proof.
  assert (H : objects Demo.w_ann_saved !! Demo.ann = Some Demo.o_ann_saved)
    by (vm_compute; reflexivity).
  split; [exact H|].
  exact (delete_spec Demo.w_ann_saved Demo.ann Demo.o_ann_saved H).
Defined.

(** C6, as the claim words it, fails: [delete] on an instance that has
    no node raises the builtin [Exception], not an exception of a class
    [NodeNotPersisted]; the module has no such class. *)
Lemma delete_transient_not_NodeNotPersisted :
  objects Run.w_bob !! Demo.ann2 = Some Run.o_ann2
  ∧ o_dict Run.o_ann2 !! "_node" = Some VNone
  ∧ NeoNode.delete Demo.ann2 Run.w_bob
    = (Raise (Exception "Node has not been saved so cannot be deleted"), Run.w_bob)
  ∧ ¬ ∃ e w', NeoNode.delete Demo.ann2 Run.w_bob = (Raise e, w')
              ∧ exn_class e = "NodeNotPersisted".
Proof.
  assert (Hrun : NeoNode.delete Demo.ann2 Run.w_bob
                 = (Raise (Exception "Node has not been saved so cannot be deleted"),
                    Run.w_bob)) by (vm_compute; reflexivity).
  split; [vm_compute; reflexivity|]. split; [vm_compute; reflexivity|].
  split; [exact Hrun|].
  intros (e & w' & He & Hcls). rewrite Hrun in He. injection He as <- _.
  discriminate Hcls.
Qed.

(** ** RelationshipManager *)

Lemma elem_of_db_get_relationships_with g n other d ty r :
  r ∈ db_get_relationships_with g n other d ty
  ↔ ∃ rel, rels g !! r = Some rel ∧ r_type rel = ty ∧ other_end n d rel = Some other.
Proof.
  unfold db_get_relationships_with. rewrite list_elem_of_omap. split.
  - intros [[i rel] [Hin Hs]]. cbn in Hs.
    destruct (decide (r_type rel = ty)); [|done].
    destruct (decide (other_end n d rel = Some other)); [|done].
    simplify_eq. exists rel. split; [by apply elem_of_map_to_list|done].
  - intros (rel & Hr & Ht & Ho). exists (r, rel). split.
    + by apply elem_of_map_to_list.
    + cbn. rewrite decide_True by done. by rewrite decide_True by done.
Qed.

Lemma db_get_or_create_relationship_has g a ty b :
  ∃ r, rels (db_get_or_create_relationship g a ty b) !! r = Some (mkRel a ty b).
Proof.
  unfold db_get_or_create_relationship.
  destruct (existsb _ _) eqn:E.
  - apply existsb_exists in E as ([r rel] & Hin & Heq).
    apply bool_decide_eq_true in Heq. cbn in Heq. subst rel.
    exists r. apply elem_of_map_to_list. by apply list_elem_of_In.
  - eexists. cbn. apply lookup_insert_eq.
Qed.

Lemma db_get_or_create_relationship_keeps g a ty b r rel :
  rels g !! r = Some rel →
  rels (db_get_or_create_relationship g a ty b) !! r = Some rel.
Proof.
  intros Hr. unfold db_get_or_create_relationship.
  destruct (existsb _ _); [done|]. cbn.
  rewrite lookup_insert_ne; [done|].
  intros <-. pose proof (is_fresh (dom (rels g))) as Hf.
  apply Hf. apply elem_of_dom. eauto.
Qed.

Lemma db_get_or_create_relationship_idem g a ty b r :
  rels g !! r = Some (mkRel a ty b) →
  db_get_or_create_relationship g a ty b = g.
Proof.
  intros Hr. unfold db_get_or_create_relationship.
  destruct (existsb _ _) eqn:E; [done|].
  apply not_true_iff_false in E. exfalso. apply E.
  apply existsb_exists. exists (r, mkRel a ty b). split.
  - apply list_elem_of_In. by apply elem_of_map_to_list.
  - by apply bool_decide_eq_true.
Qed.

Lemma relate_run w self obj m o oo a b :
  managers w !! self = Some m →
  objects w !! obj = Some o →
  o_class o = rm_node_class m →
  o_dict o !! "_node" = Some (VNode b) →
  objects w !! rm_origin m = Some oo →
  o_dict oo !! "_node" = Some (VNode a) →
  RelationshipManager.relate self obj w
  = (Return tt,
     set_managers (alter (with_related (<[b := obj]>)) self)
       (set_db (λ g, db_get_or_create_relationship g a (rm_relation_type m) b) w)).
Proof.
  intros Hm Ho Hc Hn Hoo Ha. unfold RelationshipManager.relate.
  rewrite (bind_Return _ _ _ _ _ (get_manager_run _ _ _ Hm)).
  rewrite (bind_Return _ _ _ _ _ (deref_run _ _ _ Ho)).
  rewrite decide_False by (intros ?; done).
  rewrite (bind_Return _ _ _ _ _ (get_slot_run _ _ _ _ _ Ho Hn)).
  cbn [truthy negb]. unfold RelationshipManager.origin_node.
  rewrite (bind_Return _ _ _ _ _ (get_slot_run _ _ _ _ _ Hoo Ha)).
  reflexivity.
Qed.

(** X1: [relate] raises "Expecting object of class ..." when the class of
    [obj] is not the manager's [node_class]; with the right class it
    raises "Can't create relationship to unsaved node" when [obj._node]
    is [None]; and with the right class and a node handle (the origin
    being saved too) it returns, the store then has an edge from the
    origin's node to the node of [obj] with the relation type, already
    existing edges are kept (none is added when the edge was there), and
    the cache maps the node identity of [obj] to [obj]. *)
Theorem relate_spec (w : World) (self obj : loc) (m : RelationshipManagerObj)
  (o : NeoNodeObj) :
  managers w !! self = Some m →
  objects w !! obj = Some o →
  if decide (o_class o ≠ rm_node_class m) then
    RelationshipManager.relate self obj w
    = (Raise (Exception ("Expecting object of class " +:+ rm_node_class m)), w)
  else
    match o_dict o !! "_node" with
    | Some VNone =>
        RelationshipManager.relate self obj w
        = (Raise (Exception "Can't create relationship to unsaved node"), w)
    | Some (VNode b) =>
        ∀ oo a,
          objects w !! rm_origin m = Some oo →
          o_dict oo !! "_node" = Some (VNode a) →
          ∃ w',
            RelationshipManager.relate self obj w = (Return tt, w')
            ∧ db w' = db_get_or_create_relationship (db w) a (rm_relation_type m) b
            ∧ (∃ r, rels (db w') !! r = Some (mkRel a (rm_relation_type m) b))
            ∧ (∀ r rel, rels (db w) !! r = Some rel → rels (db w') !! r = Some rel)
            ∧ (∀ r, rels (db w) !! r = Some (mkRel a (rm_relation_type m) b) →
                    db w' = db w)
            ∧ managers w' !! self = Some (with_related (<[b := obj]>) m)
            ∧ rm_related (with_related (<[b := obj]>) m) !! b = Some obj
            ∧ objects w' = objects w
    | _ => True
    end.
Proof.
  intros Hm Ho. case_decide as Hc.
  - unfold RelationshipManager.relate.
    rewrite (bind_Return _ _ _ _ _ (get_manager_run _ _ _ Hm)).
    rewrite (bind_Return _ _ _ _ _ (deref_run _ _ _ Ho)).
    by rewrite decide_True.
  - destruct (o_dict o !! "_node") as [[]|] eqn:Hn; try done.
    + unfold RelationshipManager.relate.
      rewrite (bind_Return _ _ _ _ _ (get_manager_run _ _ _ Hm)).
      rewrite (bind_Return _ _ _ _ _ (deref_run _ _ _ Ho)).
      rewrite decide_False by (intros ?; done).
      by rewrite (bind_Return _ _ _ _ _ (get_slot_run _ _ _ _ _ Ho Hn)).
    + intros oo a Hoo Ha. eexists. split; [by eapply relate_run|].
      cbn [db set_managers set_db managers objects].
      split; [done|]. split; [apply db_get_or_create_relationship_has|].
      split; [intros; by apply db_get_or_create_relationship_keeps|].
      split; [intros; by eapply db_get_or_create_relationship_idem|].
      split; [by rewrite lookup_alter_eq, Hm|].
      split; [apply lookup_insert_eq|done].
Qed.

Lemma relate_spec_witness :
  managers Run.w_bob !! Run.ann_friends = Some Run.m_friends
  ∧ objects Run.w_bob !! Demo.bob = Some Run.o_bob
  ∧ ∃ w',
      RelationshipManager.relate Run.ann_friends Demo.bob Run.w_bob = (Return tt, w')
      ∧ (∃ r, rels (db w') !! r = Some (mkRel 1 "KNOWS" 2))
      ∧ managers w' !! Run.ann_friends
        = Some (with_related (<[2 := Demo.bob]>) Run.m_friends).
Proof.
  assert (Hm : managers Run.w_bob !! Run.ann_friends = Some Run.m_friends)
    by (vm_compute; reflexivity).
  assert (Ho : objects Run.w_bob !! Demo.bob = Some Run.o_bob)
    by (vm_compute; reflexivity).
  assert (Hoo : objects Run.w_bob !! rm_origin Run.m_friends = Some Run.o_ann)
    by (vm_compute; reflexivity).
  assert (Ha : o_dict Run.o_ann !! "_node" = Some (VNode 1)) by (vm_compute; reflexivity).
  split; [exact Hm|]. split; [exact Ho|].
  pose proof (relate_spec Run.w_bob Run.ann_friends Demo.bob _ _ Hm Ho) as H.
  rewrite decide_False in H by (intros Hne; apply Hne; vm_compute; reflexivity).
  assert (Hn : o_dict Run.o_bob !! "_node" = Some (VNode 2)) by (vm_compute; reflexivity).
  rewrite Hn in H.
  destruct (H _ _ Hoo Ha) as (w' & Hrun & _ & Hedge & _ & _ & Hcache & _).
  exists w'. split; [exact Hrun|]. split; [exact Hedge|exact Hcache].
Defined.

Lemma unrelate_run w self obj m o oo a b :
  managers w !! self = Some m →
  objects w !! obj = Some o →
  o_dict o !! "_node" = Some (VNode b) →
  objects w !! rm_origin m = Some oo →
  o_dict oo !! "_node" = Some (VNode a) →
  let w1 := if decide (is_Some (rm_related m !! b))
            then set_managers (alter (with_related (delete b)) self) w else w in
  RelationshipManager.unrelate self obj w
  = match db_get_relationships_with (db w) a b (rm_direction m) (rm_relation_type m) with
    | [] => (Return tt, w1)
    | [r] => (Return tt, set_db (λ g, db_delete g [ERel r]) w1)
    | _ => (Raise (Exception "Expected single relationship got "), w1)
    end.
Proof.
  intros Hm Ho Hn Hoo Ha w1. unfold RelationshipManager.unrelate.
  rewrite (bind_Return _ _ _ _ _ (get_manager_run _ _ _ Hm)).
  rewrite (bind_Return _ _ _ _ _ (get_slot_run _ _ _ _ _ Ho Hn)).
  cbn [as_node]. unfold bind at 1. cbn [ret].
  assert (Hstep : (if decide (is_Some (rm_related m !! b))
                   then set_related self (delete b) else ret tt) w = (Return tt, w1)).
  { subst w1. by case_decide. }
  rewrite (bind_Return _ _ _ _ _ Hstep).
  assert (Hoo1 : objects w1 !! rm_origin m = Some oo).
  { subst w1. by case_decide. }
  unfold RelationshipManager.origin_node.
  rewrite (bind_Return _ _ _ _ _ (get_slot_run _ _ _ _ _ Hoo1 Ha)).
  cbn [as_node]. unfold bind at 1. cbn [ret]. unfold bind at 1. cbn [get_world].
  assert (Hdb : db w1 = db w). { subst w1. by case_decide. }
  rewrite Hdb.
  destruct (db_get_relationships_with _ _ _ _ _) as [|r [|r' rs]]; reflexivity.
Qed.

Lemma unrelate_cache w self m b :
  managers w !! self = Some m →
  let w1 := if decide (is_Some (rm_related m !! b))
            then set_managers (alter (with_related (delete b)) self) w else w in
  ∃ m', managers w1 !! self = Some m'
        ∧ rm_related m' = delete b (rm_related m)
        ∧ objects w1 = objects w ∧ db w1 = db w.
Proof.
  intros Hm w1. subst w1. case_decide as Hin.
  - exists (with_related (delete b) m). cbn. by rewrite lookup_alter_eq, Hm.
  - exists m. split; [done|]. split; [|done].
    symmetry. apply delete_id. by apply eq_None_not_Some.
Qed.

(** X2: [unrelate], for a saved [obj] and a saved origin, leaves the cache
    without an entry for [obj]; when the store has no edge of the
    relation type and direction between the two nodes it returns and the
    store is as before; when it has exactly one, it returns and that edge
    alone is gone; when it has more, it raises "Expected single
    relationship got ..." and the store is as before. *)
Theorem unrelate_spec (w : World) (self obj : loc) (m : RelationshipManagerObj)
  (o oo : NeoNodeObj) (a b : nodeid) :
  managers w !! self = Some m →
  objects w !! obj = Some o →
  o_dict o !! "_node" = Some (VNode b) →
  objects w !! rm_origin m = Some oo →
  o_dict oo !! "_node" = Some (VNode a) →
  ∃ w' m',
    managers w' !! self = Some m'
    ∧ rm_related m' = delete b (rm_related m)
    ∧ rm_related m' !! b = None
    ∧ objects w' = objects w
    ∧ match db_get_relationships_with (db w) a b (rm_direction m) (rm_relation_type m) with
      | [] =>
          RelationshipManager.unrelate self obj w = (Return tt, w') ∧ db w' = db w
      | [r] =>
          RelationshipManager.unrelate self obj w = (Return tt, w')
          ∧ rels (db w') = delete r (rels (db w))
          ∧ nodes (db w') = nodes (db w)
          ∧ indexes (db w') = indexes (db w)
      | _ =>
          RelationshipManager.unrelate self obj w
          = (Raise (Exception "Expected single relationship got "), w')
          ∧ db w' = db w
      end.
Proof.
  intros Hm Ho Hn Hoo Ha.
  pose proof (unrelate_run _ _ _ _ _ _ _ _ Hm Ho Hn Hoo Ha) as Hrun.
  destruct (unrelate_cache w self m b Hm) as (m' & Hm' & Hrel & Hobj & Hdb).
  cbv zeta in Hrun, Hm', Hobj, Hdb.
  set (w1 := if decide (is_Some (rm_related m !! b))
             then set_managers (alter (with_related (delete b)) self) w else w) in *.
  destruct (db_get_relationships_with _ _ _ _ _) as [|r [|r' rs]].
  - exists w1, m'. rewrite Hrel, lookup_delete_eq. done.
  - exists (set_db (λ g, db_delete g [ERel r]) w1), m'.
    rewrite Hrel, lookup_delete_eq. cbn. by rewrite Hdb.
  - exists w1, m'. rewrite Hrel, lookup_delete_eq. done.
Qed.

(** X3: when [obj] is in the cache and the store has more than one
    matching edge, [unrelate] raises, and the manager it leaves behind no
    longer has the entry of [obj]: the failed call has changed the
    cache. *)
Theorem unrelate_failure_mutates_cache (w : World) (self obj : loc)
  (m : RelationshipManagerObj) (o oo : NeoNodeObj) (a b : nodeid) (cached : loc) :
  managers w !! self = Some m →
  objects w !! obj = Some o →
  o_dict o !! "_node" = Some (VNode b) →
  objects w !! rm_origin m = Some oo →
  o_dict oo !! "_node" = Some (VNode a) →
  rm_related m !! b = Some cached →
  1 < List.length (db_get_relationships_with (db w) a b (rm_direction m) (rm_relation_type m)) →
  ∃ w' m',
    RelationshipManager.unrelate self obj w
    = (Raise (Exception "Expected single relationship got "), w')
    ∧ managers w' !! self = Some m'
    ∧ rm_related m' !! b = None
    ∧ rm_related m' = delete b (rm_related m)
    ∧ managers w' ≠ managers w
    ∧ db w' = db w.
Proof.
  intros Hm Ho Hn Hoo Ha Hin Hlen.
  pose proof (unrelate_run _ _ _ _ _ _ _ _ Hm Ho Hn Hoo Ha) as Hrun.
  cbv zeta in Hrun. rewrite decide_True in Hrun by eauto.
  destruct (db_get_relationships_with _ _ _ _ _) as [|r [|r' rs]];
    [cbn in Hlen; lia..|].
  eexists _, (with_related (delete b) m). split; [exact Hrun|].
  cbn [managers set_managers db].
  split; [by rewrite lookup_alter_eq, Hm|].
  split; [apply lookup_delete_eq|]. split; [done|]. split; [|done].
  intros Heq.
  assert (H1 : alter (with_related (delete b)) self (managers w) !! self = Some m)
    by (by rewrite Heq).
  rewrite lookup_alter_eq, Hm in H1. cbn in H1.
  injection H1 as H1. apply (f_equal (λ x, rm_related x !! b)) in H1.
  cbn in H1. rewrite lookup_delete_eq, Hin in H1. done.
Qed.

(** X4: with an empty cache and a store that reports no node related to
    the origin's node by the relation type and direction, [all] returns
    [None] (the bare [return] of the source) and the world, hence the
    cache, is as before. *)
Theorem all_no_related (w : World) (self : loc) (m : RelationshipManagerObj)
  (oo : NeoNodeObj) (a : nodeid) :
  managers w !! self = Some m →
  rm_related m = ∅ →
  objects w !! rm_origin m = Some oo →
  o_dict oo !! "_node" = Some (VNode a) →
  db_get_related_nodes (db w) a (rm_direction m) (rm_relation_type m) = [] →
  RelationshipManager.all self w = (Return None, w)
  ∧ ∃ m', managers w !! self = Some m' ∧ rm_related m' = ∅.
Proof.
  intros Hm He Hoo Ha Hnone. split; [|eauto].
  unfold RelationshipManager.all.
  rewrite (bind_Return _ _ _ _ _ (get_manager_run _ _ _ Hm)).
  rewrite decide_True by done.
  unfold RelationshipManager.origin_node.
  rewrite (bind_Return _ _ _ _ _ (get_slot_run _ _ _ _ _ Hoo Ha)).
  cbn [as_node]. unfold bind at 1. cbn [ret]. unfold bind at 1. cbn [get_world].
  by rewrite Hnone.
Qed.

Lemma unrelate_spec_witness :
  managers Run.w_related !! Run.ann_friends = Some Run.m_friends_related
  ∧ objects Run.w_related !! Demo.bob = Some Run.o_bob
  ∧ o_dict Run.o_bob !! "_node" = Some (VNode 2)
  ∧ objects Run.w_related !! rm_origin Run.m_friends_related = Some Run.o_ann
  ∧ o_dict Run.o_ann !! "_node" = Some (VNode 1)
  ∧ ∃ w' m',
      managers w' !! Run.ann_friends = Some m'
      ∧ rm_related m' !! 2 = None
      ∧ RelationshipManager.unrelate Run.ann_friends Demo.bob Run.w_related
        = (Return tt, w')
      ∧ rels (db w') = delete 2 (rels (db Run.w_related)).
Proof.
  assert (Hm : managers Run.w_related !! Run.ann_friends = Some Run.m_friends_related)
    by (vm_compute; reflexivity).
  assert (Ho : objects Run.w_related !! Demo.bob = Some Run.o_bob)
    by (vm_compute; reflexivity).
  assert (Hn : o_dict Run.o_bob !! "_node" = Some (VNode 2)) by (vm_compute; reflexivity).
  assert (Hoo : objects Run.w_related !! rm_origin Run.m_friends_related = Some Run.o_ann)
    by (vm_compute; reflexivity).
  assert (Ha : o_dict Run.o_ann !! "_node" = Some (VNode 1)) by (vm_compute; reflexivity).
  assert (Hl : db_get_relationships_with (db Run.w_related) 1 2
                 (rm_direction Run.m_friends_related)
                 (rm_relation_type Run.m_friends_related) = [2])
    by (vm_compute; reflexivity).
  split; [exact Hm|]. split; [exact Ho|]. split; [exact Hn|].
  split; [exact Hoo|]. split; [exact Ha|].
  destruct (unrelate_spec _ _ _ _ _ _ _ _ Hm Ho Hn Hoo Ha)
    as (w' & m' & Hm' & _ & Hb & _ & Hcase).
  rewrite Hl in Hcase. destruct Hcase as (Hrun & Hrels & _).
  exists w', m'. split; [exact Hm'|]. split; [exact Hb|].
  split; [exact Hrun|exact Hrels].
Defined.

Lemma unrelate_failure_mutates_cache_witness :
  managers Run.w_double !! Run.ann_friends = Some Run.m_friends_related
  ∧ rm_related Run.m_friends_related !! 2 = Some Demo.bob
  ∧ ∃ w' m',
      RelationshipManager.unrelate Run.ann_friends Demo.bob Run.w_double
      = (Raise (Exception "Expected single relationship got "), w')
      ∧ managers w' !! Run.ann_friends = Some m'
      ∧ rm_related m' !! 2 = None
      ∧ managers w' ≠ managers Run.w_double.
Proof.
  assert (Hm : managers Run.w_double !! Run.ann_friends = Some Run.m_friends_related)
    by (vm_compute; reflexivity).
  assert (Ho : objects Run.w_double !! Demo.bob = Some Run.o_bob)
    by (vm_compute; reflexivity).
  assert (Hn : o_dict Run.o_bob !! "_node" = Some (VNode 2)) by (vm_compute; reflexivity).
  assert (Hoo : objects Run.w_double !! rm_origin Run.m_friends_related = Some Run.o_ann)
    by (vm_compute; reflexivity).
  assert (Ha : o_dict Run.o_ann !! "_node" = Some (VNode 1)) by (vm_compute; reflexivity).
  assert (Hin : rm_related Run.m_friends_related !! 2 = Some Demo.bob)
    by (vm_compute; reflexivity).
  assert (Hlen : 1 < List.length
                       (db_get_relationships_with (db Run.w_double) 1 2
                          (rm_direction Run.m_friends_related)
                          (rm_relation_type Run.m_friends_related)))
    by (vm_compute; lia).
  split; [exact Hm|]. split; [exact Hin|].
  destruct (unrelate_failure_mutates_cache _ _ _ _ _ _ _ _ _ Hm Ho Hn Hoo Ha Hin Hlen)
    as (w' & m' & Hrun & Hm' & Hb & _ & Hne & _).
  exists w', m'. split; [exact Hrun|]. split; [exact Hm'|]. split; [exact Hb|exact Hne].
Defined.

Lemma all_no_related_witness :
  managers Run.w_bob !! Run.ann_friends = Some Run.m_friends
  ∧ rm_related Run.m_friends = ∅
  ∧ db_get_related_nodes (db Run.w_bob) 1
      (rm_direction Run.m_friends) (rm_relation_type Run.m_friends) = []
  ∧ RelationshipManager.all Run.ann_friends Run.w_bob = (Return None, Run.w_bob).
Proof.
  assert (Hm : managers Run.w_bob !! Run.ann_friends = Some Run.m_friends)
    by (vm_compute; reflexivity).
  assert (He : rm_related Run.m_friends = ∅) by (vm_compute; reflexivity).
  assert (Hoo : objects Run.w_bob !! rm_origin Run.m_friends = Some Run.o_ann)
    by (vm_compute; reflexivity).
  assert (Ha : o_dict Run.o_ann !! "_node" = Some (VNode 1)) by (vm_compute; reflexivity).
  assert (Hnone : db_get_related_nodes (db Run.w_bob) 1
                    (rm_direction Run.m_friends) (rm_relation_type Run.m_friends) = [])
    by (vm_compute; reflexivity).
  split; [exact Hm|]. split; [exact He|]. split; [exact Hnone|].
  exact (proj1 (all_no_related _ _ _ _ _ Hm He Hoo Ha Hnone)).
Defined.

(** ** RelationshipManager: how the operations compose *)

Lemma all_cached_run w self m :
  managers w !! self = Some m →
  rm_related m ≠ ∅ →
  RelationshipManager.all self w = (Return (Some ((map_to_list (rm_related m)).*2)), w).
Proof.
  intros Hm Hne. unfold RelationshipManager.all.
  rewrite (bind_Return _ _ _ _ _ (get_manager_run _ _ _ Hm)).
  by rewrite decide_False.
Qed.


Lemma is_related_store_run w self obj m o oo a b :
  managers w !! self = Some m →
  objects w !! obj = Some o →
  o_dict o !! "_node" = Some (VNode b) →
  objects w !! rm_origin m = Some oo →
  o_dict oo !! "_node" = Some (VNode a) →
  rm_related m !! b = None →
  RelationshipManager.is_related self obj w
  = (Return (negb (bool_decide
                     (db_get_relationships_with (db w) a b (rm_direction m)
                        (rm_relation_type m) = []))), w).
Proof.
  intros Hm Ho Hn Hoo Ha Hin. unfold RelationshipManager.is_related.
  rewrite (bind_Return _ _ _ _ _ (get_manager_run _ _ _ Hm)).
  rewrite (bind_Return _ _ _ _ _ (get_slot_run _ _ _ _ _ Ho Hn)).
  cbn [as_node]. unfold bind at 1. cbn [ret].
  rewrite decide_False by (rewrite Hin; apply is_Some_None).
  unfold RelationshipManager.origin_node.
  rewrite (bind_Return _ _ _ _ _ (get_slot_run _ _ _ _ _ Hoo Ha)).
  reflexivity.
Qed.


Lemma db_get_relationships_with_delete g n other d ty r :
  db_get_relationships_with g n other d ty = [r] →
  db_get_relationships_with (db_delete g [ERel r]) n other d ty = [].
Proof.
  intros Hl.
  destruct (db_get_relationships_with (db_delete g [ERel r]) n other d ty)
    as [|r' l] eqn:E; [done|].
  exfalso.
  assert (Hin : r' ∈ db_get_relationships_with (db_delete g [ERel r]) n other d ty)
    by (rewrite E; left).
  apply elem_of_db_get_relationships_with in Hin as (rel & Hr & Ht & Hoe).
  cbn in Hr. apply lookup_delete_Some in Hr as [Hne Hr].
  assert (Hin' : r' ∈ db_get_relationships_with g n other d ty).
  { apply elem_of_db_get_relationships_with. eauto. }
  rewrite Hl in Hin'. apply list_elem_of_singleton in Hin'. congruence.
Qed.

(** X6: when [unrelate] returns (the store had no matching edge, or
    exactly one), [is_related obj] afterwards returns [False]: neither the
    cache nor the store relates the two any more. *)
Theorem unrelate_then_is_related (w : World) (self obj : loc)
  (m : RelationshipManagerObj) (o oo : NeoNodeObj) (a b : nodeid) :
  managers w !! self = Some m →
  objects w !! obj = Some o →
  o_dict o !! "_node" = Some (VNode b) →
  objects w !! rm_origin m = Some oo →
  o_dict oo !! "_node" = Some (VNode a) →
  (List.length
     (db_get_relationships_with (db w) a b (rm_direction m) (rm_relation_type m)) ≤ 1)%nat →
  ∃ w',
    RelationshipManager.unrelate self obj w = (Return tt, w')
    ∧ RelationshipManager.is_related self obj w' = (Return false, w').
Proof.
  intros Hm Ho Hn Hoo Ha Hlen.
  pose proof (unrelate_run _ _ _ _ _ _ _ _ Hm Ho Hn Hoo Ha) as Hrun.
  destruct (unrelate_cache w self m b Hm) as (m' & Hm' & Hrel & Hobj & Hdb).
  cbv zeta in Hrun, Hm', Hobj, Hdb.
  set (w1 := if decide (is_Some (rm_related m !! b))
             then set_managers (alter (with_related (delete b)) self) w else w) in *.
  assert (Hmeta : rm_direction m' = rm_direction m
                  ∧ rm_relation_type m' = rm_relation_type m
                  ∧ rm_origin m' = rm_origin m).
  { subst w1. destruct (decide (is_Some (rm_related m !! b))).
    - cbn in Hm'. rewrite lookup_alter_eq, Hm in Hm'. by injection Hm' as <-.
    - rewrite Hm in Hm'. by injection Hm' as <-. }
  destruct Hmeta as (Hd & Ht & Hor).
  assert (Hnone : rm_related m' !! b = None) by (rewrite Hrel; apply lookup_delete_eq).
  destruct (db_get_relationships_with (db w) a b (rm_direction m) (rm_relation_type m))
    as [|r [|r' rs]] eqn:El; [| |cbn in Hlen; lia].
  - exists w1. split; [exact Hrun|].
    assert (Ho1 : objects w1 !! obj = Some o) by (by rewrite Hobj).
    assert (Hoo1 : objects w1 !! rm_origin m' = Some oo) by (by rewrite Hobj, Hor).
    rewrite (is_related_store_run w1 self obj m' o oo a b Hm' Ho1 Hn Hoo1 Ha Hnone).
    rewrite Hdb, Hd, Ht, El. done.
  - exists (set_db (λ g, db_delete g [ERel r]) w1). split; [exact Hrun|].
    set (w2 := set_db (λ g, db_delete g [ERel r]) w1).
    assert (Hm2 : managers w2 !! self = Some m') by done.
    assert (Ho2 : objects w2 !! obj = Some o) by (subst w2; cbn; by rewrite Hobj).
    assert (Hoo2 : objects w2 !! rm_origin m' = Some oo)
      by (subst w2; cbn; by rewrite Hobj, Hor).
    rewrite (is_related_store_run w2 self obj m' o oo a b Hm2 Ho2 Hn Hoo2 Ha Hnone).
    subst w2. cbn [db set_db]. rewrite Hdb, Hd, Ht.
    rewrite (db_get_relationships_with_delete _ _ _ _ _ _ El). done.
Qed.

(** X7: [relate] always creates the edge from the origin to [obj],
    whatever the manager's direction.  On an [INCOMING] manager (origin
    and object on different nodes, no edge from the object to the origin
    in the store) the store lookup of [unrelate] and [is_related] therefore
    finds nothing after [relate]: [unrelate] returns and the edge that
    [relate] created is still in the store. *)
Theorem relate_incoming_edge_not_found (w : World) (self obj : loc)
  (m : RelationshipManagerObj) (o oo : NeoNodeObj) (a b : nodeid) :
  managers w !! self = Some m →
  objects w !! obj = Some o →
  o_class o = rm_node_class m →
  o_dict o !! "_node" = Some (VNode b) →
  objects w !! rm_origin m = Some oo →
  o_dict oo !! "_node" = Some (VNode a) →
  rm_direction m = INCOMING →
  a ≠ b →
  db_get_relationships_with (db w) a b INCOMING (rm_relation_type m) = [] →
  ∃ w' w'',
    RelationshipManager.relate self obj w = (Return tt, w')
    ∧ db_get_relationships_with (db w') a b INCOMING (rm_relation_type m) = []
    ∧ RelationshipManager.unrelate self obj w' = (Return tt, w'')
    ∧ db w'' = db w'
    ∧ ∃ r, rels (db w'') !! r = Some (mkRel a (rm_relation_type m) b).
Proof.
  intros Hm Ho Hc Hn Hoo Ha Hd Hab Hnone.
  pose proof (relate_run _ _ _ _ _ _ _ _ Hm Ho Hc Hn Hoo Ha) as Hrun.
  set (w' := set_managers (alter (with_related (<[b := obj]>)) self)
               (set_db (λ g, db_get_or_create_relationship g a (rm_relation_type m) b) w))
    in *.
  assert (Hm' : managers w' !! self = Some (with_related (<[b := obj]>) m)).
  { subst w'. cbn. by rewrite lookup_alter_eq, Hm. }
  assert (Hl : db_get_relationships_with (db w') a b INCOMING (rm_relation_type m) = []).
  { destruct (db_get_relationships_with (db w') a b INCOMING (rm_relation_type m))
      as [|r l] eqn:E; [done|]. exfalso.
    assert (Hin : r ∈ db_get_relationships_with (db w') a b INCOMING (rm_relation_type m))
      by (rewrite E; left).
    apply elem_of_db_get_relationships_with in Hin as (rel & Hr & Ht & Hoe).
    subst w'. cbn [db set_managers set_db] in Hr.
    unfold db_get_or_create_relationship in Hr.
    assert (Hold : rels (db w) !! r = Some rel →  False).
    { intros Hr0.
      assert (Hin0 : r ∈ db_get_relationships_with (db w) a b INCOMING (rm_relation_type m)).
      { apply elem_of_db_get_relationships_with. eauto. }
      rewrite Hnone in Hin0. by apply elem_of_nil in Hin0. }
    destruct (existsb _ _); [by apply Hold|].
    cbn in Hr. apply lookup_insert_Some in Hr as [[_ <-]|[_ Hr]]; [|by apply Hold].
    cbn in Hoe. case_decide; simplify_eq. }
  pose proof (unrelate_run w' self obj _ o oo a b Hm' Ho Hn) as Hun.
  cbn [rm_origin with_related rm_direction rm_relation_type] in Hun.
  specialize (Hun Hoo Ha). cbv zeta in Hun. rewrite Hd, Hl in Hun.
  eexists w', _. split; [exact Hrun|]. split; [exact Hl|]. split; [exact Hun|].
  split.
  - by case_decide.
  - assert (Hdb : ∀ w0 : World,
        db (if decide (is_Some (rm_related (with_related (<[b := obj]>) m) !! b))
            then set_managers (alter (with_related (delete b)) self) w0 else w0) = db w0)
      by (intros; by case_decide).
    rewrite Hdb. subst w'. cbn [db set_managers set_db].
    apply db_get_or_create_relationship_has.
Qed.


Lemma unrelate_then_is_related_witness :
  managers Run.w_related !! Run.ann_friends = Some Run.m_friends_related
  ∧ objects Run.w_related !! Demo.bob = Some Run.o_bob
  ∧ (List.length
       (db_get_relationships_with (db Run.w_related) 1 2
          (rm_direction Run.m_friends_related)
          (rm_relation_type Run.m_friends_related)) ≤ 1)%nat
  ∧ ∃ w',
      RelationshipManager.unrelate Run.ann_friends Demo.bob Run.w_related = (Return tt, w')
      ∧ RelationshipManager.is_related Run.ann_friends Demo.bob w' = (Return false, w').
Proof.
  assert (Hm : managers Run.w_related !! Run.ann_friends = Some Run.m_friends_related)
    by (vm_compute; reflexivity).
  assert (Ho : objects Run.w_related !! Demo.bob = Some Run.o_bob)
    by (vm_compute; reflexivity).
  assert (Hn : o_dict Run.o_bob !! "_node" = Some (VNode 2)) by (vm_compute; reflexivity).
  assert (Hoo : objects Run.w_related !! rm_origin Run.m_friends_related = Some Run.o_ann)
    by (vm_compute; reflexivity).
  assert (Ha : o_dict Run.o_ann !! "_node" = Some (VNode 1)) by (vm_compute; reflexivity).
  assert (Hlen : (List.length
                    (db_get_relationships_with (db Run.w_related) 1 2
                       (rm_direction Run.m_friends_related)
                       (rm_relation_type Run.m_friends_related)) ≤ 1)%nat)
    by (vm_compute; lia).
  split; [exact Hm|]. split; [exact Ho|]. split; [exact Hlen|].
  exact (unrelate_then_is_related _ _ _ _ _ _ _ _ Hm Ho Hn Hoo Ha Hlen).
Defined.

Lemma relate_incoming_edge_not_found_witness :
  managers Run.w_follow !! Run.cy_followers = Some Run.m_followers
  ∧ objects Run.w_follow !! Demo.bob = Some Run.o_bob
  ∧ rm_direction Run.m_followers = INCOMING
  ∧ db_get_relationships_with (db Run.w_follow) 3 2 INCOMING
      (rm_relation_type Run.m_followers) = []
  ∧ ∃ w' w'',
      RelationshipManager.relate Run.cy_followers Demo.bob Run.w_follow = (Return tt, w')
      ∧ RelationshipManager.unrelate Run.cy_followers Demo.bob w' = (Return tt, w'')
      ∧ ∃ r, rels (db w'') !! r = Some (mkRel 3 "FOLLOWS" 2).
Proof.
  assert (Hm : managers Run.w_follow !! Run.cy_followers = Some Run.m_followers)
    by (vm_compute; reflexivity).
  assert (Ho : objects Run.w_follow !! Demo.bob = Some Run.o_bob)
    by (vm_compute; reflexivity).
  assert (Hc : o_class Run.o_bob = rm_node_class Run.m_followers)
    by (vm_compute; reflexivity).
  assert (Hn : o_dict Run.o_bob !! "_node" = Some (VNode 2)) by (vm_compute; reflexivity).
  assert (Hoo : objects Run.w_follow !! rm_origin Run.m_followers = Some Run.o_cy)
    by (vm_compute; reflexivity).
  assert (Ha : o_dict Run.o_cy !! "_node" = Some (VNode 3)) by (vm_compute; reflexivity).
  assert (Hd : rm_direction Run.m_followers = INCOMING) by (vm_compute; reflexivity).
  assert (Hab : 3 ≠ 2) by lia.
  assert (Hnone : db_get_relationships_with (db Run.w_follow) 3 2 INCOMING
                    (rm_relation_type Run.m_followers) = [])
    by (vm_compute; reflexivity).
  split; [exact Hm|]. split; [exact Ho|]. split; [exact Hd|]. split; [exact Hnone|].
  destruct (relate_incoming_edge_not_found _ _ _ _ _ _ _ _ Hm Ho Hc Hn Hoo Ha Hd Hab Hnone)
    as (w' & w'' & Hrel & _ & Hun & _ & Hedge).
  exists w', w''. split; [exact Hrel|]. split; [exact Hun|exact Hedge].
Defined.

(** ** NeoNode: attribute lookup and assignment *)

Lemma class_getattr_own cs cls c name a :
  cs !! cls = Some c → c_dict c !! name = Some a → class_getattr cs cls name = Some a.
Proof.
  intros Hc Ha. unfold class_getattr. rewrite Hc. cbn. by rewrite Hc; cbn; rewrite Ha.
Qed.

Lemma get_property_run w cls c name a :
  classes w !! cls = Some c →
  class_getattr (classes w) cls name = Some a →
  NeoNode.get_property cls name w = (Return a, w).
Proof.
  intros Hc Ha. unfold NeoNode.get_property.
  unfold bind at 1. cbn [get_world].
  rewrite (bind_Return _ _ _ _ _ (get_class_run _ _ _ Hc)). by rewrite Ha.
Qed.

Lemma get_property_missing w cls c name :
  classes w !! cls = Some c →
  class_getattr (classes w) cls name = None →
  NeoNode.get_property cls name w = (Raise (AttributeError name), w).
Proof.
  intros Hc Ha. unfold NeoNode.get_property.
  unfold bind at 1. cbn [get_world].
  rewrite (bind_Return _ _ _ _ _ (get_class_run _ _ _ Hc)). by rewrite Ha.
Qed.

(** X8: assignment to an attribute.  A name beginning with an underscore
    is stored without any check, whatever the name and the value.  Any
    other name goes through [getattr] on the class (own dictionary, then
    the bases): a missing name raises [AttributeError] (not
    [NoSuchProperty]), a descriptor stores the value when its [validate]
    accepts it and raises [TypeError] otherwise, and an attribute that is
    not a validating descriptor raises [AttributeError]; whenever the
    assignment raises, the world is unchanged. *)
Theorem setattr_spec (w : World) (self : loc) (o : NeoNodeObj) (c : PyClass)
  (key : string) (v : value) :
  objects w !! self = Some o →
  classes w !! o_class o = Some c →
  let stored := (Return tt, set_objects (alter (λ o, obj_set o key v) self) w) in
  NeoNode.__setattr__ self key v w
  = if startswith_underscore key then stored
    else match class_getattr (classes w) (o_class o) key with
         | None => (Raise (AttributeError key), w)
         | Some (AProperty p) =>
             match p_kind p with
             | KStringProperty =>
                 if is_str v then stored
                 else (Raise (TypeError "Object of type str expected got "), w)
             | KIntegerProperty =>
                 if is_int v then stored
                 else (Raise (TypeError "Object of type int or long expected"), w)
             | KProperty => (Raise (AttributeError "validate"), w)
             end
         | Some _ => (Raise (AttributeError "validate"), w)
         end.
Proof.
  intros Ho Hc stored.
  assert (Hset : set_slot self key v w = stored) by apply set_slot_run.
  unfold NeoNode.__setattr__.
  destruct (startswith_underscore key); [exact Hset|].
  rewrite (bind_Return _ _ _ _ _ (deref_run _ _ _ Ho)).
  destruct (class_getattr (classes w) (o_class o) key) as [a|] eqn:Ha.
  - rewrite (bind_Return _ _ _ _ _ (get_property_run _ _ _ _ _ Hc Ha)).
    destruct a as [p| |]; try reflexivity.
    cbn [attr_validate]. unfold validate.
    destruct (p_kind p); try reflexivity.
    + destruct (is_str v); [|reflexivity]. unfold bind at 1. cbn [ret]. exact Hset.
    + destruct (is_int v); [|reflexivity]. unfold bind at 1. cbn [ret]. exact Hset.
  - by rewrite (bind_Raise _ _ _ _ _ (get_property_missing _ _ _ _ Hc Ha)).
Qed.

Lemma setattr_spec_witness :
  objects Run.w_bob !! Demo.ann = Some Run.o_ann
  ∧ classes Run.w_bob !! o_class Run.o_ann = Some Demo.Person
  ∧ NeoNode.__setattr__ Demo.ann "age" (VStr "old") Run.w_bob
    = (Raise (TypeError "Object of type int or long expected"), Run.w_bob).
Proof.
  assert (Ho : objects Run.w_bob !! Demo.ann = Some Run.o_ann) by (vm_compute; reflexivity).
  assert (Hc : classes Run.w_bob !! o_class Run.o_ann = Some Demo.Person)
    by (vm_compute; reflexivity).
  split; [exact Ho|]. split; [exact Hc|].
  rewrite (setattr_spec Run.w_bob Demo.ann Run.o_ann Demo.Person "age" (VStr "old") Ho Hc).
  vm_compute. reflexivity.
Defined.

(** ** NeoNode: construction *)

Lemma validate_accepts p v w :
  validates p v = true → validate p v w = (Return true, w).
Proof.
  unfold validates, validate. destruct (p_kind p); [done| |]; by intros ->.
Qed.

Lemma for_each_cons_Return {A} (x : A) l body w w1 :
  body x w = (Return tt, w1) → for_each (x :: l) body w = for_each l body w1.
Proof. intros H. cbn [for_each]. by rewrite (bind_Return _ _ _ _ _ H). Qed.

Lemma for_each_cons_Raise {A} (x : A) l body w e w1 :
  body x w = (Raise e, w1) → for_each (x :: l) body w = (Raise e, w1).
Proof. intros H. cbn [for_each]. by rewrite (bind_Raise _ _ _ _ _ H). Qed.

Lemma for_each_app_Return {A} (l1 l2 : list A) body w w1 :
  for_each l1 body w = (Return tt, w1) →
  for_each (l1 ++ l2) body w = for_each l2 body w1.
Proof.
  revert w. induction l1 as [|x l1 IH]; intros w H.
  - cbn in H. by injection H as <-.
  - cbn [for_each app] in *. unfold bind in *.
    destruct (body x w) as [[[]|e] w2]; [|done]. by apply IH.
Qed.

Lemma dict_update_union l : ∀ d,
  dict_update d l = list_to_map (reverse l) ∪ d.
Proof.
  induction l as [|[k v] l IH]; intros d.
  - cbn. by rewrite (left_id_L ∅ (∪)).
  - unfold dict_update in *. cbn [foldl]. rewrite IH. cbn [fst snd].
    rewrite reverse_cons, list_to_map_app. cbn [list_to_map foldr fst snd].
    rewrite <- (assoc_L (∪)). f_equal.
    by rewrite insert_union_singleton_l.
Qed.

Lemma dict_update_map_to_list (m : gmap string value) :
  dict_update ∅ (map_to_list m) = m.
Proof.
  rewrite dict_update_union, (right_id_L ∅ (∪)).
  rewrite <- (list_to_map_to_list m) at 2.
  apply list_to_map_proper.
  - rewrite fmap_reverse, reverse_Permutation. apply NoDup_fst_map_to_list.
  - apply reverse_Permutation.
Qed.

Lemma set_objects_ext w f g :
  f (objects w) = g (objects w) → set_objects f w = set_objects g w.
Proof. unfold set_objects. by intros ->. Qed.

Lemma set_objects_id w f : f (objects w) = objects w → set_objects f w = w.
Proof. destruct w. unfold set_objects. cbn. by intros ->. Qed.

Lemma alter_as_insert {A} (f : A → A) (m : gmap loc A) i x :
  m !! i = Some x → alter f i m = <[i := f x]> m.
Proof.
  intros Hx. apply map_eq. intros j. destruct (decide (j = i)) as [->|Hne].
  - by rewrite lookup_alter_eq, lookup_insert_eq, Hx.
  - by rewrite lookup_alter_ne, lookup_insert_ne.
Qed.

Lemma validate_args_item w self cls c D kv :
  classes w !! cls = Some c →
  objects w !! self = Some (mkObj cls D) →
  valid_item c kv →
  validate_args_body self kv w
  = (Return tt, set_objects (<[self := mkObj cls (<[kv.1 := kv.2]> D)]>) w).
Proof.
  intros Hc Ho (p & Hp & Hv). unfold validate_args_body.
  rewrite (bind_Return _ _ _ _ _ (deref_run _ _ _ Ho)). cbn [o_class].
  rewrite (bind_Return _ _ _ _ _ (get_class_run _ _ _ Hc)). rewrite Hp.
  rewrite (bind_Return _ _ _ _ _
             (get_property_run _ _ _ _ _ Hc (class_getattr_own _ _ _ _ _ Hc Hp))).
  cbn [attr_validate]. rewrite (bind_Return _ _ _ _ _ (validate_accepts _ _ _ Hv)).
  rewrite set_slot_run. f_equal. apply set_objects_ext.
  by rewrite (alter_as_insert _ _ _ _ Ho).
Qed.

Lemma validate_args_undeclared w self cls c D k v :
  classes w !! cls = Some c →
  objects w !! self = Some (mkObj cls D) →
  c_dict c !! k = None →
  validate_args_body self (k, v) w
  = (Raise (NoSuchProperty k), w).
Proof.
  intros Hc Ho Hk. unfold validate_args_body.
  rewrite (bind_Return _ _ _ _ _ (deref_run _ _ _ Ho)). cbn [o_class].
  rewrite (bind_Return _ _ _ _ _ (get_class_run _ _ _ Hc)). cbn [fst]. by rewrite Hk.
Qed.

Lemma validate_args_loop self cls c l : ∀ w D,
  classes w !! cls = Some c →
  objects w !! self = Some (mkObj cls D) →
  Forall (valid_item c) l →
  for_each l (validate_args_body self) w
  = (Return tt, set_objects (<[self := mkObj cls (dict_update D l)]>) w).
Proof.
  induction l as [|kv l IH]; intros w D Hc Ho Hall.
  - cbn. unfold ret. f_equal. symmetry. apply set_objects_id. by apply insert_id.
  - apply Forall_cons in Hall as [Hkv Hall].
    rewrite (for_each_cons_Return _ _ _ _ _ (validate_args_item _ _ _ _ _ _ Hc Ho Hkv)).
    rewrite (IH _ (<[kv.1 := kv.2]> D)); [|done| |done].
    + f_equal. change (set_objects ?f (set_objects ?g w)) with (set_objects (f ∘ g) w).
      apply set_objects_ext. cbn. apply insert_insert_eq.
    + cbn. apply lookup_insert_eq.
Qed.

Lemma validate_args_unfold self props :
  NeoNode._validate_args self props
  = for_each (map_to_list props) (validate_args_body self).
Proof. reflexivity. Qed.

Lemma item_error_None c kv : item_error c kv = None ↔ valid_item c kv.
Proof.
  unfold item_error, valid_item, validates. split.
  - destruct (c_dict c !! kv.1) as [[p| |]|]; try done.
    destruct (p_kind p) eqn:Ek; try done.
    + destruct (is_str kv.2) eqn:E; [|done]. intros _. exists p. by rewrite Ek.
    + destruct (is_int kv.2) eqn:E; [|done]. intros _. exists p. by rewrite Ek.
  - intros (p & -> & Hv). destruct (p_kind p); [done| |]; by rewrite Hv.
Qed.

Lemma validate_args_item_error w self cls c D kv e :
  classes w !! cls = Some c →
  objects w !! self = Some (mkObj cls D) →
  item_error c kv = Some e →
  validate_args_body self kv w = (Raise e, w).
Proof.
  intros Hc Ho He. unfold validate_args_body, item_error in *.
  rewrite (bind_Return _ _ _ _ _ (deref_run _ _ _ Ho)). cbn [o_class].
  rewrite (bind_Return _ _ _ _ _ (get_class_run _ _ _ Hc)).
  destruct (c_dict c !! kv.1) as [a|] eqn:Ha; [|by injection He as <-].
  rewrite (bind_Return _ _ _ _ _
             (get_property_run _ _ _ _ _ Hc (class_getattr_own _ _ _ _ _ Hc Ha))).
  destruct a as [p| |]; try (by injection He as <-).
  cbn [attr_validate]. unfold validate. destruct (p_kind p).
  - by injection He as <-.
  - destruct (is_str kv.2); [done|]. by injection He as <-.
  - destruct (is_int kv.2); [done|]. by injection He as <-.
Qed.

Lemma first_rejected c (l : list (string * value)) :
  Exists (λ kv, item_error c kv ≠ None) l →
  ∃ l1 kv l2 e, l = l1 ++ kv :: l2 ∧ Forall (valid_item c) l1 ∧ item_error c kv = Some e.
Proof.
  induction l as [|kv l IH]; intros Hex; [by apply Exists_nil in Hex|].
  destruct (item_error c kv) as [e|] eqn:E.
  - exists [], kv, l, e. eauto.
  - apply Exists_cons in Hex as [Hbad|Hex]; [congruence|].
    destruct (IH Hex) as (l1 & kv' & l2 & e & -> & Hall & He).
    exists (kv :: l1), kv', l2, e. split; [done|]. split; [|done].
    apply Forall_cons. split; [by apply item_error_None|done].
Qed.

Lemma validate_args_rejects w self cls c l1 kv l2 e :
  classes w !! cls = Some c →
  objects w !! self = Some (mkObj cls ∅) →
  Forall (valid_item c) l1 →
  item_error c kv = Some e →
  for_each (l1 ++ kv :: l2) (validate_args_body self) w
  = (Raise e, set_objects (<[self := mkObj cls (dict_update ∅ l1)]>) w).
Proof.
  intros Hc Ho Hall He.
  rewrite (for_each_app_Return _ _ _ _ _ (validate_args_loop _ _ _ _ _ _ Hc Ho Hall)).
  apply for_each_cons_Raise.
  eapply validate_args_item_error; [exact Hc| |exact He].
  cbn. apply lookup_insert_eq.
Qed.

(** X9: the constructor rejects bad keywords before anything else
    happens.  If at least one keyword is rejected by the loop of
    [_validate_args] (its key is not in the class's own dictionary, its
    value fails [validate], or the attribute is no validating
    descriptor), [__init__] raises the exception of one of the rejected
    keywords; the store and the managers are untouched and no existing
    instance is changed. *)
Theorem init_rejects (w : World) (cls : string) (c : PyClass)
  (kwargs : gmap string value) (k : string) (v : value) :
  classes w !! cls = Some c →
  kwargs !! k = Some v →
  item_error c (k, v) ≠ None →
  ∃ k' v' e w',
    kwargs !! k' = Some v'
    ∧ item_error c (k', v') = Some e
    ∧ NeoNode.__init__ cls kwargs w = (Raise e, w')
    ∧ db w' = db w
    ∧ managers w' = managers w
    ∧ ∀ l o, objects w !! l = Some o → objects w' !! l = Some o.
Proof.
  intros Hc Hk Hbad.
  assert (Hex : Exists (λ kv, item_error c kv ≠ None) (map_to_list kwargs)).
  { apply Exists_exists. exists (k, v). split; [|done]. by apply elem_of_map_to_list. }
  destruct (first_rejected c _ Hex) as (l1 & [k' v'] & l2 & e & Hl & Hall & He).
  set (self := fresh (dom (objects w))).
  set (w0 := set_objects (<[self := mkObj cls ∅]>) w).
  assert (Hc0 : classes w0 !! cls = Some c) by done.
  assert (Ho0 : objects w0 !! self = Some (mkObj cls ∅)) by (cbn; apply lookup_insert_eq).
  exists k', v', e, (set_objects (<[self := mkObj cls (dict_update ∅ l1)]>) w0).
  split; [|split; [done|split; [|split; [done|split; [done|]]]]].
  - apply elem_of_map_to_list. rewrite Hl. apply elem_of_app. right. left.
  - unfold NeoNode.__init__. unfold bind at 1. cbn [get_world].
    unfold bind at 1. cbn [modify]. fold self. fold w0.
    rewrite validate_args_unfold, Hl.
    by rewrite (bind_Raise _ _ _ _ _
                  (validate_args_rejects _ _ _ _ _ _ _ _ Hc0 Ho0 Hall He)).
  - intros l o Hlo. cbn.
    assert (l ≠ self).
    { intros ->. apply (is_fresh (dom (objects w))). apply elem_of_dom. eauto. }
    by rewrite !lookup_insert_ne.
Qed.

Lemma init_rejects_witness :
  classes Run.w0 !! "Person" = Some Demo.Person
  ∧ Run.kwargs_bogus !! "bogus" = Some (VInt 1)
  ∧ item_error Demo.Person ("bogus", VInt 1) ≠ None
  ∧ ∃ k' v' e w',
      Run.kwargs_bogus !! k' = Some v'
      ∧ item_error Demo.Person (k', v') = Some e
      ∧ NeoNode.__init__ "Person" Run.kwargs_bogus Run.w0 = (Raise e, w')
      ∧ db w' = db Run.w0
      ∧ managers w' = managers Run.w0
      ∧ ∀ l o, objects Run.w0 !! l = Some o → objects w' !! l = Some o.
Proof.
  assert (Hc : classes Run.w0 !! "Person" = Some Demo.Person) by (vm_compute; reflexivity).
  assert (Hk : Run.kwargs_bogus !! "bogus" = Some (VInt 1)) by (vm_compute; reflexivity).
  assert (Hb : item_error Demo.Person ("bogus", VInt 1) ≠ None)
    by (vm_compute; discriminate).
  split; [exact Hc|]. split; [exact Hk|]. split; [exact Hb|].
  exact (init_rejects Run.w0 "Person" Demo.Person Run.kwargs_bogus "bogus" (VInt 1) Hc Hk Hb).
Defined.

Lemma installer_unfold self w o c :
  objects w !! self = Some o →
  classes w !! o_class o = Some c →
  NeoNode.RelationshipInstaller_init self w
  = for_each (map_to_list (c_dict c)) (installer_body self)
      (set_objects (alter (λ o, obj_set o "_related" VEmptyDict) self) w).
Proof.
  intros Ho Hc. unfold NeoNode.RelationshipInstaller_init.
  rewrite (bind_Return _ _ _ _ _ (setattr_underscore _ _ "_related" _ eq_refl)).
  set (w1 := set_objects _ w).
  assert (Ho1 : objects w1 !! self = Some (obj_set o "_related" VEmptyDict)).
  { subst w1. cbn. by rewrite lookup_alter_eq, Ho. }
  rewrite (bind_Return _ _ _ _ _ (deref_run _ _ _ Ho1)). cbn [o_class obj_set].
  assert (Hc1 : classes w1 !! o_class o = Some c) by done.
  rewrite (bind_Return _ _ _ _ _ (get_class_run _ _ _ Hc1)). reflexivity.
Qed.

Lemma put_dict_twice self cls D1 D2 w :
  put_dict self cls D2 (put_dict self cls D1 w) = put_dict self cls D2 w.
Proof.
  unfold put_dict. change (set_objects ?f (set_objects ?g w)) with (set_objects (f ∘ g) w).
  apply set_objects_ext. cbn. apply insert_insert_eq.
Qed.

Lemma set_slot_put self cls D k v w :
  objects w !! self = Some (mkObj cls D) →
  set_slot self k v w = (Return tt, put_dict self cls (<[k := v]> D) w).
Proof.
  intros Ho. rewrite set_slot_run. f_equal. apply set_objects_ext.
  by rewrite (alter_as_insert _ _ _ _ Ho).
Qed.

Lemma setattr_underscore_put self cls D k v w :
  objects w !! self = Some (mkObj cls D) →
  startswith_underscore k = true →
  NeoNode.__setattr__ self k v w = (Return tt, put_dict self cls (<[k := v]> D) w).
Proof.
  intros Ho Hk. rewrite (setattr_underscore _ _ _ _ Hk). f_equal.
  apply set_objects_ext. by rewrite (alter_as_insert _ _ _ _ Ho).
Qed.

Lemma installer_loop self cls l : ∀ w D,
  objects w !! self = Some (mkObj cls D) →
  NoDup l.*1 →
  ∃ (mgr : gmap string loc) w',
    for_each l (installer_body self) w = (Return tt, w')
    ∧ objects w' = <[self := mkObj cls ((VManager <$> mgr) ∪ D)]> (objects w)
    ∧ classes w' = classes w ∧ db w' = db w
    ∧ managers w ⊆ managers w'
    ∧ (∀ k, is_Some (mgr !! k) ↔ ∃ d, (k, ARelDef d) ∈ l)
    ∧ (∀ k lm, mgr !! k = Some lm →
         managers w !! lm = None
         ∧ ∃ d, (k, ARelDef d) ∈ l ∧ managers w' !! lm = Some (new_manager d self k)).
Proof.
  induction l as [|[k a] l IH]; intros w D Ho Hnd.
  - exists ∅, w. split; [done|]. split.
    { rewrite fmap_empty, (left_id_L ∅ (∪)). symmetry. by apply insert_id. }
    split; [done|]. split; [done|]. split; [done|]. split.
    + intros k. rewrite lookup_empty. split; [by intros []|].
      intros [d Hd]. by apply elem_of_nil in Hd.
    + intros k lm. by rewrite lookup_empty.
  - cbn in Hnd. apply NoDup_cons in Hnd as [Hk Hnd].
    assert (Hkeys : ∀ (mgr : gmap string loc),
               (∀ k', is_Some (mgr !! k') ↔ ∃ d, (k', ARelDef d) ∈ l) → mgr !! k = None).
    { intros mgr Hdom. apply eq_None_not_Some. intros [d Hd]%Hdom.
      apply Hk. apply list_elem_of_fmap. by exists (k, ARelDef d). }
    destruct a as [p|d|b].
    + destruct (IH w D Ho Hnd) as (mgr & w' & Hrun & Hobj & Hcl & Hdb & Hsub & Hdom & Hm).
      exists mgr, w'. split; [by rewrite (for_each_cons_Return _ _ _ _ w)|].
      do 4 (split; [done|]). split.
      * intros k'. rewrite Hdom. split; intros [d Hd]; exists d.
        -- by right.
        -- apply elem_of_cons in Hd as [?|?]; [done|done].
      * intros k' lm Hl. destruct (Hm _ _ Hl) as (Hn & d & Hd & Hw).
        split; [done|]. exists d. split; [by right|done].
    + set (lm := fresh (dom (managers w))).
      set (w1 := set_managers (<[lm := new_manager d self k]>) w).
      set (w2 := put_dict self cls (<[k := VManager lm]> D) w1).
      assert (Hstep : installer_body self (k, ARelDef d) w = (Return tt, w2)).
      { unfold installer_body. cbn [fst snd]. unfold build_manager.
        unfold bind at 2. cbn [get_world]. unfold bind at 2. cbn [modify].
        unfold bind at 1. cbn [ret]. fold lm. apply (set_slot_put self cls D). exact Ho. }
      assert (Ho2 : objects w2 !! self = Some (mkObj cls (<[k := VManager lm]> D)))
        by (cbn; apply lookup_insert_eq).
      destruct (IH w2 _ Ho2 Hnd) as (mgr & w' & Hrun & Hobj & Hcl & Hdb & Hsub & Hdom & Hm).
      pose proof (Hkeys mgr Hdom) as Hmk.
      assert (Hfresh : managers w !! lm = None).
      { apply not_elem_of_dom. apply is_fresh. }
      assert (Hsub1 : managers w ⊆ managers w2).
      { cbn. by apply insert_subseteq. }
      exists (<[k := lm]> mgr), w'.
      split; [by rewrite (for_each_cons_Return _ _ _ _ _ Hstep)|].
      split.
      { rewrite Hobj. cbn. rewrite insert_insert_eq. do 2 f_equal.
        rewrite fmap_insert, <- insert_union_l.
        rewrite <- insert_union_r; [done|]. by rewrite lookup_fmap, Hmk. }
      split; [done|]. split; [done|]. split; [by etrans|]. split.
      * intros k'. destruct (decide (k' = k)) as [->|Hne].
        -- rewrite lookup_insert_eq. split; [|eauto]. intros _. exists d. left.
        -- rewrite lookup_insert_ne by done. rewrite Hdom.
           split; intros [d' Hd]; exists d'; [by right|].
           apply elem_of_cons in Hd as [?|?]; [congruence|done].
      * intros k' lm'. destruct (decide (k' = k)) as [->|Hne].
        -- rewrite lookup_insert_eq. intros [= <-]. split; [done|].
           exists d. split; [left|].
           eapply lookup_weaken; [|exact Hsub]. cbn. apply lookup_insert_eq.
        -- rewrite lookup_insert_ne by done. intros Hl.
           destruct (Hm _ _ Hl) as (Hn & d' & Hd & Hw). split.
           ++ eapply lookup_weaken_None; [exact Hn|exact Hsub1].
           ++ exists d'. split; [by right|done].
    + destruct (IH w D Ho Hnd) as (mgr & w' & Hrun & Hobj & Hcl & Hdb & Hsub & Hdom & Hm).
      exists mgr, w'. split; [by rewrite (for_each_cons_Return _ _ _ _ w)|].
      do 4 (split; [done|]). split.
      * intros k'. rewrite Hdom. split; intros [d Hd]; exists d.
        -- by right.
        -- apply elem_of_cons in Hd as [?|?]; [done|done].
      * intros k' lm Hl. destruct (Hm _ _ Hl) as (Hn & d & Hd & Hw).
        split; [done|]. exists d. split; [by right|done].
Qed.

Lemma valid_item_not_manager c k v : valid_item c (k, v) → is_manager v = false.
Proof.
  intros (p & _ & Hv). unfold validates in Hv. cbn in Hv.
  destruct (p_kind p); [done| |]; by destruct v.
Qed.

(** What the constructor does with keywords it accepts. *)
Lemma init_run (w : World) (cls : string) (c : PyClass)
  (kwargs : gmap string value) :
  classes w !! cls = Some c →
  (∀ k v, kwargs !! k = Some v → valid_item c (k, v)) →
  ∃ self w' o,
    NeoNode.__init__ cls kwargs w = (Return self, w')
    ∧ objects w !! self = None
    ∧ objects w' !! self = Some o
    ∧ o_class o = cls
    ∧ ((∀ d, c_dict c !! "_node" ≠ Some (ARelDef d)) → o_dict o !! "_node" = Some VNone)
    ∧ NeoNode.properties self w'
      = (Return (filter (λ kv, startswith_underscore kv.1 = false) kwargs), w')
    ∧ (∀ k d, c_dict c !! k = Some (ARelDef d) →
         ∃ lm, o_dict o !! k = Some (VManager lm)
               ∧ managers w !! lm = None
               ∧ managers w' !! lm = Some (new_manager d self k))
    ∧ nodes (db w') = nodes (db w)
    ∧ rels (db w') = rels (db w)
    ∧ (∀ l o', objects w !! l = Some o' → objects w' !! l = Some o')
    ∧ classes w' = classes w
    ∧ managers w ⊆ managers w'.
Proof.
  intros Hc Hvalid.
  set (self := fresh (dom (objects w))).
  assert (Hfresh : objects w !! self = None) by (apply not_elem_of_dom, is_fresh).
  set (w0 := put_dict self cls ∅ w).
  assert (Hall : Forall (valid_item c) (map_to_list kwargs)).
  { apply Forall_forall. intros [k v] Hin. apply Hvalid. by apply elem_of_map_to_list. }
  assert (Hc0 : classes w0 !! cls = Some c) by done.
  assert (Ho0 : objects w0 !! self = Some (mkObj cls ∅)) by (cbn; apply lookup_insert_eq).
  pose proof (validate_args_loop self cls c _ w0 ∅ Hc0 Ho0 Hall) as Hloop.
  rewrite dict_update_map_to_list in Hloop.
  fold (put_dict self cls kwargs w0) in Hloop.
  subst w0. rewrite put_dict_twice in Hloop.
  set (D1 := <["_node" := VNone]> kwargs).
  set (D2 := <["_db" := VDb]> D1).
  set (D3 := <["_type" := VStr cls]> D2).
  set (D4 := <["_index" := VIndex cls]> D3).
  set (D5 := <["_related" := VEmptyDict]> D4).
  set (wi := set_db (λ g, db_get_or_create_index g cls) w).
  assert (Hlook : ∀ D w1, objects (put_dict self cls D w1) !! self = Some (mkObj cls D))
    by (intros; cbn; apply lookup_insert_eq).
  (* the installer loop *)
  assert (Hnd : NoDup (map_to_list (c_dict c)).*1) by apply NoDup_fst_map_to_list.
  destruct (installer_loop self cls _ (put_dict self cls D5 wi) D5 (Hlook _ _) Hnd)
    as (mgr & w' & Hrun & Hobj & Hcl & Hdb & Hsub & Hdom & Hmgr).
  assert (Hinit : NeoNode.__init__ cls kwargs w = (Return self, w')).
  { unfold NeoNode.__init__. unfold bind at 1. cbn [get_world].
    unfold bind at 1. cbn [modify]. fold self. fold (put_dict self cls ∅ w).
    rewrite validate_args_unfold. rewrite (bind_Return _ _ _ _ _ Hloop).
    rewrite (bind_Return _ _ _ _ _
               (setattr_underscore_put self cls kwargs "_node" VNone _ (Hlook _ _) eq_refl)).
    rewrite put_dict_twice. fold D1.
    rewrite (bind_Return _ _ _ _ _
               (setattr_underscore_put self cls D1 "_db" VDb _ (Hlook _ _) eq_refl)).
    rewrite put_dict_twice. fold D2.
    rewrite (bind_Return _ _ _ _ _
               (setattr_underscore_put self cls D2 "_type" (VStr cls) _ (Hlook _ _) eq_refl)).
    rewrite put_dict_twice. fold D3.
    assert (Hty : o_dict (mkObj cls D3) !! "_type" = Some (VStr cls))
      by (cbn; apply lookup_insert_eq).
    rewrite (bind_Return _ _ _ _ _ (get_slot_run _ _ _ _ _ (Hlook _ _) Hty)).
    cbn [as_str]. unfold bind at 1. cbn [ret]. unfold bind at 1. cbn [modify].
    change (set_db (λ g, db_get_or_create_index g cls) (put_dict self cls D3 w))
      with (put_dict self cls D3 wi).
    rewrite (bind_Return _ _ _ _ _
               (setattr_underscore_put self cls D3 "_index" (VIndex cls) _ (Hlook _ _)
                  eq_refl)).
    rewrite put_dict_twice. fold D4.
    assert (Hw5 : set_objects (alter (λ o, obj_set o "_related" VEmptyDict) self)
                    (put_dict self cls D4 wi) = put_dict self cls D5 wi).
    { unfold put_dict.
      change (set_objects ?f (set_objects ?g wi)) with (set_objects (f ∘ g) wi).
      apply set_objects_ext. cbn.
      rewrite (alter_as_insert _ _ _ (mkObj cls D4)) by apply lookup_insert_eq.
      apply insert_insert_eq. }
    assert (Hri : NeoNode.RelationshipInstaller_init self (put_dict self cls D4 wi)
                  = (Return tt, w')).
    { rewrite (installer_unfold self (put_dict self cls D4 wi) _ c (Hlook _ _) Hc).
      by rewrite Hw5. }
    rewrite (bind_Return _ _ _ _ _ Hri). reflexivity. }
  assert (Hobj' : objects w' = <[self := mkObj cls ((VManager <$> mgr) ∪ D5)]> (objects w)).
  { rewrite Hobj. cbn. apply insert_insert_eq. }
  assert (Hmgr_dom : ∀ k lm, mgr !! k = Some lm → ∃ d, c_dict c !! k = Some (ARelDef d)).
  { intros k lm Hl. destruct (Hmgr _ _ Hl) as (_ & d & Hd & _).
    exists d. by apply elem_of_map_to_list in Hd. }
  exists self, w', (mkObj cls ((VManager <$> mgr) ∪ D5)).
  split; [exact Hinit|]. split; [exact Hfresh|].
  split; [by rewrite Hobj', lookup_insert_eq|]. split; [done|].
  split; [|split; [|split; [|split; [|split]]]].
  - intros Hnr. cbn. apply lookup_union_Some_raw. right. split.
    + rewrite lookup_fmap. destruct (mgr !! "_node") as [lm|] eqn:E; [|done].
      destruct (Hmgr_dom _ _ E) as [d Hd]. by destruct (Hnr d).
    + subst D5 D4 D3 D2 D1. rewrite !lookup_insert_ne by discriminate.
      apply lookup_insert_eq.
  - unfold NeoNode.properties.
    assert (Hself : objects w' !! self = Some (mkObj cls ((VManager <$> mgr) ∪ D5)))
      by (by rewrite Hobj', lookup_insert_eq).
    rewrite (bind_Return _ _ _ _ _ (deref_run _ _ _ Hself)). cbn [o_dict].
    unfold ret. do 2 f_equal.
    apply map_eq. intros i. apply option_eq. intros x.
    rewrite !map_lookup_filter_Some. cbn [fst snd]. unfold NeoNode.property_item.
    cbn [fst snd]. split.
    + intros [Hl Hp]. apply andb_true_iff in Hp as [Hu Hnm].
      apply negb_true_iff in Hu. apply negb_true_iff in Hnm. split; [|done].
      apply lookup_union_Some_raw in Hl as [Hl|[_ Hl]].
      * rewrite lookup_fmap in Hl. destruct (mgr !! i); [|done].
        cbn in Hl. injection Hl as <-. done.
      * subst D5 D4 D3 D2 D1.
        rewrite !lookup_insert_ne in Hl by (intros <-; done). done.
    + intros [Hl Hu]. split.
      * apply lookup_union_Some_raw. right. split.
        -- rewrite lookup_fmap. destruct (mgr !! i) as [lm|] eqn:E; [|done].
           destruct (Hmgr_dom _ _ E) as [d Hd].
           destruct (Hvalid _ _ Hl) as (p & Hp & _). cbn in Hp. congruence.
        -- subst D5 D4 D3 D2 D1.
           rewrite !lookup_insert_ne by (intros <-; done). done.
      * rewrite Hu. cbn. by rewrite (valid_item_not_manager c i x (Hvalid _ _ Hl)).
  - intros k d Hk.
    assert (Hin : is_Some (mgr !! k)).
    { apply Hdom. exists d. by apply elem_of_map_to_list. }
    destruct Hin as [lm Hl]. exists lm.
    destruct (Hmgr _ _ Hl) as (Hn & d' & Hd' & Hw).
    apply elem_of_map_to_list in Hd'. rewrite Hk in Hd'. injection Hd' as <-.
    split; [|split; [done|done]].
    cbn. apply lookup_union_Some_raw. left. by rewrite lookup_fmap, Hl.
  - rewrite Hdb. cbn. unfold db_get_or_create_index.
    by destruct (indexes (db w) !! cls).
  - rewrite Hdb. cbn. unfold db_get_or_create_index.
    by destruct (indexes (db w) !! cls).
  - split; [|split; [exact Hcl|exact Hsub]].
    intros l o' Hlo. rewrite Hobj'. rewrite lookup_insert_ne; [done|].
    intros <-. congruence.
Qed.

(** X10: the constructor accepts keywords that are all validating
    descriptors of the class's own dictionary.  It returns a new instance
    of the class; [properties] of the instance is exactly the keywords
    whose name does not begin with an underscore; [_node] is [None]
    (unless the class binds a relationship to that very name); for every
    relationship definition of the class's own dictionary the instance
    holds a fresh manager with an empty cache whose origin is the
    instance; nodes and relationships of the store and all existing
    instances are untouched. *)
Theorem init_accepts (w : World) (cls : string) (c : PyClass)
  (kwargs : gmap string value) :
  classes w !! cls = Some c →
  (∀ k v, kwargs !! k = Some v → valid_item c (k, v)) →
  ∃ self w' o,
    NeoNode.__init__ cls kwargs w = (Return self, w')
    ∧ objects w !! self = None
    ∧ objects w' !! self = Some o
    ∧ o_class o = cls
    ∧ ((∀ d, c_dict c !! "_node" ≠ Some (ARelDef d)) → o_dict o !! "_node" = Some VNone)
    ∧ NeoNode.properties self w'
      = (Return (filter (λ kv, startswith_underscore kv.1 = false) kwargs), w')
    ∧ (∀ k d, c_dict c !! k = Some (ARelDef d) →
         ∃ lm, o_dict o !! k = Some (VManager lm)
               ∧ managers w !! lm = None
               ∧ managers w' !! lm = Some (new_manager d self k))
    ∧ nodes (db w') = nodes (db w)
    ∧ rels (db w') = rels (db w)
    ∧ ∀ l o', objects w !! l = Some o' → objects w' !! l = Some o'.
Proof.
  intros Hc Hvalid.
  destruct (init_run w cls c kwargs Hc Hvalid)
    as (self & w' & o & H1 & H2 & H3 & H4 & H5 & H6 & H7 & H8 & H9 & H10 & _).
  exists self, w', o. done.
Qed.

Lemma kwargs_ann_valid k v :
  Run.kwargs_ann !! k = Some v → valid_item Demo.Person (k, v).
Proof.
  unfold Run.kwargs_ann. intros H.
  apply lookup_insert_Some in H as [[<- <-]|[_ H]].
  { eexists. split; [vm_compute; reflexivity|reflexivity]. }
  apply lookup_insert_Some in H as [[<- <-]|[_ H]].
  { eexists. split; [vm_compute; reflexivity|reflexivity]. }
  by rewrite lookup_empty in H.
Qed.

Lemma init_accepts_witness :
  classes Run.w0 !! "Person" = Some Demo.Person
  ∧ ∃ self w' o,
      NeoNode.__init__ "Person" Run.kwargs_ann Run.w0 = (Return self, w')
      ∧ objects w' !! self = Some o
      ∧ NeoNode.properties self w'
        = (Return (filter (λ kv, startswith_underscore kv.1 = false) Run.kwargs_ann), w').
Proof.
  assert (Hc : classes Run.w0 !! "Person" = Some Demo.Person) by (vm_compute; reflexivity).
  split; [exact Hc|].
  destruct (init_accepts Run.w0 "Person" Demo.Person Run.kwargs_ann Hc kwargs_ann_valid)
    as (self & w' & o & Hrun & _ & Ho & _ & _ & Hp & _).
  exists self, w', o. split; [exact Hrun|]. split; [exact Ho|exact Hp].
Defined.

(** ** NeoNode: declared where? *)

(** X11: a descriptor declared on a base class only is treated
    differently by the two ways of setting it.  The constructor looks
    the key up in the class's own dictionary and raises
    [NoSuchProperty]; assignment looks it up with [getattr], finds the
    inherited descriptor and stores the value. *)
Theorem inherited_property_init_vs_setattr (w : World) (cls : string) (c : PyClass)
  (k : string) (p : Property) (v : value) (self : loc) (o : NeoNodeObj) :
  classes w !! cls = Some c →
  c_dict c !! k = None →
  class_getattr (classes w) cls k = Some (AProperty p) →
  validates p v = true →
  startswith_underscore k = false →
  objects w !! self = Some o →
  o_class o = cls →
  (∃ w', NeoNode.__init__ cls {[k := v]} w = (Raise (NoSuchProperty k), w'))
  ∧ NeoNode.__setattr__ self k v w
    = (Return tt, set_objects (alter (λ o, obj_set o k v) self) w).
Proof.
  intros Hc Hk Hg Hv Hu Ho Hcls. split.
  - set (new := fresh (dom (objects w))).
    set (w0 := put_dict new cls ∅ w).
    assert (Hc0 : classes w0 !! cls = Some c) by done.
    assert (Ho0 : objects w0 !! new = Some (mkObj cls ∅)) by (cbn; apply lookup_insert_eq).
    assert (He : item_error c (k, v) = Some (NoSuchProperty k)).
    { unfold item_error. cbn. by rewrite Hk. }
    eexists. unfold NeoNode.__init__. unfold bind at 1. cbn [get_world].
    unfold bind at 1. cbn [modify]. fold new. fold (put_dict new cls ∅ w). fold w0.
    rewrite validate_args_unfold, map_to_list_singleton.
    by rewrite (bind_Raise _ _ _ _ _
                  (validate_args_rejects w0 new cls c [] (k, v) [] _ Hc0 Ho0
                     (List.Forall_nil _) He)).
  - subst cls. unfold NeoNode.__setattr__. rewrite Hu.
    rewrite (bind_Return _ _ _ _ _ (deref_run _ _ _ Ho)).
    rewrite (bind_Return _ _ _ _ _ (get_property_run _ _ _ _ _ Hc Hg)).
    cbn [attr_validate]. rewrite (bind_Return _ _ _ _ _ (validate_accepts _ _ _ Hv)).
    apply set_slot_run.
Qed.

(** ** NeoNode.relate, the class method *)

Lemma class_getattr_type cs cls c name a :
  cs !! cls = Some c → type_attrs !! name = Some a → is_Some (class_getattr cs cls name).
Proof.
  intros Hc Ha. unfold class_getattr. rewrite Hc. cbn [mbind option_bind].
  destruct (mro_lookup cs (cls :: c_mro c) name); [eauto|]. rewrite Ha. eauto.
Qed.

(** X12: declaring a relationship on a class.  A name that [hasattr]
    finds on the class, in its own dictionary, inherited, or had from
    the metaclass (as [mro] or [__name__] are), is refused with an
    [Exception] and nothing changes.  Otherwise the definition is bound
    to the name on the class, so that declaring the same name again is
    refused; the instances that exist are left as they are (they get no
    manager for it), and so are the managers and the store. *)
Theorem relate_class_spec (w : World) (cls : string) (c : PyClass)
  (name ty to : string) (dir : Direction) :
  classes w !! cls = Some c →
  (is_Some (type_attrs !! name) →
   NeoNode.relate cls name ty dir to w
   = (Raise (Exception (cls +:+ " already has attribute " +:+ name)), w))
  ∧ match class_getattr (classes w) cls name with
    | Some _ =>
        NeoNode.relate cls name ty dir to w
        = (Raise (Exception (cls +:+ " already has attribute " +:+ name)), w)
    | None =>
        ∃ w',
          NeoNode.relate cls name ty dir to w = (Return tt, w')
          ∧ class_getattr (classes w') cls name = Some (ARelDef (mkRelDef ty to dir))
          ∧ (∀ ty' dir' to',
               NeoNode.relate cls name ty' dir' to' w'
               = (Raise (Exception (cls +:+ " already has attribute " +:+ name)), w'))
          ∧ objects w' = objects w
          ∧ managers w' = managers w
          ∧ db w' = db w
    end.
Proof.
  intros Hc.
  assert (Hraise : ∀ w1 c1 a ty' dir' to',
            classes w1 !! cls = Some c1 →
            class_getattr (classes w1) cls name = Some a →
            NeoNode.relate cls name ty' dir' to' w1
            = (Raise (Exception (cls +:+ " already has attribute " +:+ name)), w1)).
  { intros w1 c1 a ty' dir' to' Hc1 Ha. unfold NeoNode.relate.
    unfold bind at 1. cbn [get_world].
    rewrite (bind_Return _ _ _ _ _ (get_class_run _ _ _ Hc1)). by rewrite Ha. }
  split.
  { intros [a Ha]. destruct (class_getattr_type _ _ _ _ _ Hc Ha) as [a' Ha'].
    by eapply Hraise. }
  destruct (class_getattr (classes w) cls name) as [a|] eqn:Ha.
  - by eapply Hraise.
  - set (c' := mkClass (<[name := ARelDef (mkRelDef ty to dir)]> (c_dict c)) (c_mro c)).
    set (w' := mkWorld (<[cls := c']> (classes w)) (objects w) (managers w) (db w)
                 (category_cache w)).
    assert (Hc' : classes w' !! cls = Some c') by (cbn; apply lookup_insert_eq).
    assert (Hg' : class_getattr (classes w') cls name = Some (ARelDef (mkRelDef ty to dir))).
    { apply (class_getattr_own _ _ c'); [done|]. cbn. apply lookup_insert_eq. }
    exists w'. split.
    { unfold NeoNode.relate. unfold bind at 1. cbn [get_world].
      rewrite (bind_Return _ _ _ _ _ (get_class_run _ _ _ Hc)). by rewrite Ha. }
    split; [exact Hg'|]. split; [|done].
    intros ty' dir' to'. by eapply Hraise.
Qed.

Lemma inherited_property_init_vs_setattr_witness :
  classes Run.w_emp !! "Employee" = Some Run.Employee_registered
  ∧ c_dict Run.Employee_registered !! "name" = None
  ∧ class_getattr (classes Run.w_emp) "Employee" "name"
    = Some (AProperty (mkProperty KStringProperty true false))
  ∧ objects Run.w_emp !! Run.eve = Some Run.o_eve
  ∧ o_class Run.o_eve = "Employee"
  ∧ (∃ w', NeoNode.__init__ "Employee" {["name" := VStr "Eve"]} Run.w_emp
           = (Raise (NoSuchProperty "name"), w'))
  ∧ NeoNode.__setattr__ Run.eve "name" (VStr "Eve") Run.w_emp
    = (Return tt,
       set_objects (alter (λ o, obj_set o "name" (VStr "Eve")) Run.eve) Run.w_emp).
Proof.
  assert (Hc : classes Run.w_emp !! "Employee" = Some Run.Employee_registered)
    by (vm_compute; reflexivity).
  assert (Hk : c_dict Run.Employee_registered !! "name" = None)
    by (vm_compute; reflexivity).
  assert (Hg : class_getattr (classes Run.w_emp) "Employee" "name"
               = Some (AProperty (mkProperty KStringProperty true false)))
    by (vm_compute; reflexivity).
  assert (Hv : validates (mkProperty KStringProperty true false) (VStr "Eve") = true)
    by reflexivity.
  assert (Hu : startswith_underscore "name" = false) by reflexivity.
  assert (Ho : objects Run.w_emp !! Run.eve = Some Run.o_eve) by (vm_compute; reflexivity).
  assert (Hcls : o_class Run.o_eve = "Employee") by reflexivity.
  split; [exact Hc|]. split; [exact Hk|]. split; [exact Hg|]. split; [exact Ho|].
  split; [exact Hcls|].
  exact (inherited_property_init_vs_setattr _ _ _ _ _ _ _ _ Hc Hk Hg Hv Hu Ho Hcls).
Defined.

Lemma relate_class_spec_witness :
  classes Run.w_bob !! "Person" = Some Demo.Person
  ∧ class_getattr (classes Run.w_bob) "Person" "followers" = None
  ∧ NeoNode.relate "Person" "mro" "FOLLOWS" INCOMING "Person" Run.w_bob
    = (Raise (Exception ("Person" +:+ " already has attribute " +:+ "mro")), Run.w_bob)
  ∧ ∃ w',
      NeoNode.relate "Person" "followers" "FOLLOWS" INCOMING "Person" Run.w_bob
      = (Return tt, w')
      ∧ class_getattr (classes w') "Person" "followers"
        = Some (ARelDef (mkRelDef "FOLLOWS" "Person" INCOMING))
      ∧ (∀ ty' dir' to',
           NeoNode.relate "Person" "followers" ty' dir' to' w'
           = (Raise (Exception ("Person" +:+ " already has attribute " +:+ "followers")),
              w'))
      ∧ objects w' = objects Run.w_bob
      ∧ managers w' = managers Run.w_bob
      ∧ db w' = db Run.w_bob.
Proof.
  assert (Hc : classes Run.w_bob !! "Person" = Some Demo.Person)
    by (vm_compute; reflexivity).
  assert (Hn : class_getattr (classes Run.w_bob) "Person" "followers" = None)
    by (vm_compute; reflexivity).
  assert (Hm : is_Some (type_attrs !! "mro"))
    by (exists (AObject true); vm_compute; reflexivity).
  split; [exact Hc|]. split; [exact Hn|].
  split.
  { exact (proj1 (relate_class_spec Run.w_bob "Person" Demo.Person "mro" "FOLLOWS"
                    "Person" INCOMING Hc) Hm). }
  destruct (relate_class_spec Run.w_bob "Person" Demo.Person "followers" "FOLLOWS"
              "Person" INCOMING Hc) as [_ H].
  rewrite Hn in H. exact H.
Defined.

(** ** NeoDB.category *)

Lemma set_db_id w f : f (db w) = db w → set_db f w = w.
Proof. destruct w. unfold set_db. cbn. by intros ->. Qed.

Lemma index_entries_set_index g name es name' :
  index_entries (set_index g name es) name'
  = if decide (name = name') then es else index_entries g name'.
Proof.
  unfold index_entries, set_index. cbn. case_decide as Hn.
  - subst. by rewrite lookup_insert_eq.
  - by rewrite lookup_insert_ne.
Qed.

Lemma db_get_or_create_index_entries g name name' :
  index_entries (db_get_or_create_index g name) name' = index_entries g name'.
Proof.
  unfold db_get_or_create_index, index_entries.
  destruct (indexes g !! name) eqn:E; [done|]. cbn.
  destruct (decide (name = name')) as [<-|Hne].
  - by rewrite lookup_insert_eq, E.
  - by rewrite lookup_insert_ne.
Qed.

Lemma db_get_or_create_index_has g name :
  is_Some (indexes (db_get_or_create_index g name) !! name).
Proof.
  unfold db_get_or_create_index. destruct (indexes g !! name) eqn:E; [by rewrite E|].
  cbn. rewrite lookup_insert_eq. eauto.
Qed.

Lemma db_get_or_create_index_idem g name :
  is_Some (indexes g !! name) → db_get_or_create_index g name = g.
Proof. intros [es E]. unfold db_get_or_create_index. by rewrite E. Qed.

Lemma db_get_or_create_index_nodes_rels g name :
  nodes (db_get_or_create_index g name) = nodes g
  ∧ rels (db_get_or_create_index g name) = rels g.
Proof. unfold db_get_or_create_index. by destruct (indexes g !! name). Qed.

Lemma find_existsb {A} (f : A → bool) l :
  existsb f l = match List.find f l with Some _ => true | None => false end.
Proof. induction l as [|x l IH]; [done|]. cbn. by destruct (f x). Qed.

(** What [category] does, with the world it leaves. *)
Lemma category_run (w : World) (name : string) :
  ∃ n w1,
    category name w = (Return n, w1)
    ∧ category name w1 = (Return n, w1)
    ∧ category_cache w1 !! name = Some n
    ∧ classes w1 = classes w
    ∧ objects w1 = objects w
    ∧ managers w1 = managers w
    ∧ rels (db w1) = rels (db w)
    ∧ nodes (db w) ⊆ nodes (db w1)
    ∧ (∀ iname, iname ≠ "Category" →
         index_entries (db w1) iname = index_entries (db w) iname)
    ∧ match category_cache w !! name with
      | Some n0 => n = n0 ∧ nodes (db w1) = nodes (db w)
      | None =>
          if index_has (db w) "Category" "category" (VStr name)
          then nodes (db w1) = nodes (db w)
          else nodes (db w) !! n = None
               ∧ nodes (db w1) = <[n := {["category" := VStr name]}]> (nodes (db w))
               ∧ index_has (db w1) "Category" "category" (VStr name) = true
      end.
Proof.
  set (g0 := db_get_or_create_index (db w) "Category").
  set (wa := set_db (λ g, db_get_or_create_index g "Category") w).
  assert (Hcached : ∀ w' n, is_Some (indexes (db w') !! "Category") →
            category_cache w' !! name = Some n → category name w' = (Return n, w')).
  { intros w' n Hi Hn. unfold category. unfold bind at 1. cbn [modify].
    rewrite (set_db_id w') by (by apply db_get_or_create_index_idem).
    unfold bind at 1. cbn [get_world]. by rewrite Hn. }
  destruct (db_get_or_create_index_nodes_rels (db w) "Category") as [Hn0 Hr0].
  fold g0 in Hn0, Hr0.
  assert (He0 : ∀ iname, index_entries g0 iname = index_entries (db w) iname)
    by (intros; apply db_get_or_create_index_entries).
  destruct (category_cache w !! name) as [n0|] eqn:Hc.
  - exists n0, wa. split.
    { unfold category. unfold bind at 1. cbn [modify]. fold wa.
      unfold bind at 1. cbn [get_world].
      change (category_cache wa) with (category_cache w). by rewrite Hc. }
    split; [apply Hcached; [apply db_get_or_create_index_has|exact Hc]|].
    split; [exact Hc|]. do 3 (split; [done|]).
    split; [exact Hr0|]. split; [by rewrite <- Hn0|].
    split; [intros iname _; apply He0|]. split; [done|exact Hn0].
  - set (cg := index_get_or_create g0 "Category" "category" (VStr name)
                 {["category" := VStr name]}).
    set (wb := set_category_cache (<[name := cg.1]>) (set_db (λ _, cg.2) wa)).
    assert (Hrun : category name w = (Return cg.1, wb)).
    { unfold category. unfold bind at 1. cbn [modify]. fold wa.
      unfold bind at 1. cbn [get_world].
      change (category_cache wa) with (category_cache w). by rewrite Hc. }
    exists cg.1, wb. split; [exact Hrun|].
    assert (Hcache : category_cache wb !! name = Some cg.1) by (cbn; apply lookup_insert_eq).
    assert (Hcases :
      is_Some (indexes cg.2 !! "Category") ∧ rels cg.2 = rels (db w)
      ∧ nodes (db w) ⊆ nodes cg.2
      ∧ (∀ iname, iname ≠ "Category" →
           index_entries cg.2 iname = index_entries (db w) iname)
      ∧ if index_has (db w) "Category" "category" (VStr name)
        then nodes cg.2 = nodes (db w)
        else nodes (db w) !! cg.1 = None
             ∧ nodes cg.2 = <[cg.1 := {["category" := VStr name]}]> (nodes (db w))
             ∧ index_has cg.2 "Category" "category" (VStr name) = true).
    { subst cg. unfold index_get_or_create, index_has.
      rewrite <- (He0 "Category"), find_existsb.
      destruct (List.find _ (index_entries g0 "Category")) as [e|] eqn:Ef; cbn [fst snd].
      - split; [apply db_get_or_create_index_has|]. split; [done|].
        split; [by rewrite Hn0|]. split; [intros iname _; apply He0|done].
      - rewrite Hn0, Hr0.
        assert (Hfr : nodes (db w) !! fresh (dom (nodes (db w))) = None)
          by apply not_elem_of_dom, is_fresh.
        split; [cbn; rewrite lookup_insert_eq; eauto|].
        split; [done|]. split; [cbn; by apply insert_subseteq|]. split.
        { intros iname Hne. unfold index_add. rewrite index_entries_set_index.
          rewrite decide_False by done. apply (He0 iname). }
        split; [done|]. split; [done|].
        unfold index_add. rewrite index_entries_set_index, decide_True by done.
        rewrite existsb_app. cbn. unfold entry_at. cbn.
        rewrite !bool_decide_eq_true_2 by done. by rewrite orb_true_r. }
    destruct Hcases as (Hi & Hr & Hsub & Hix & Hnodes).
    split; [apply Hcached; [exact Hi|exact Hcache]|].
    split; [exact Hcache|]. do 3 (split; [done|]).
    split; [exact Hr|]. split; [exact Hsub|]. split; [exact Hix|exact Hnodes].
Qed.

(** X13: the category node of a type.  [category] always returns; the
    node it returns is cached, so that a second call returns the same
    node and changes nothing.  It never touches relationships, instances
    or managers and never changes or removes a node.  With the name
    already cached, or already in the [Category] index, no node is
    created; otherwise exactly one node, with the single property
    [category], is created and entered in the index. *)
Theorem category_spec (w : World) (name : string) :
  ∃ n w1,
    category name w = (Return n, w1)
    ∧ category name w1 = (Return n, w1)
    ∧ category_cache w1 !! name = Some n
    ∧ rels (db w1) = rels (db w)
    ∧ objects w1 = objects w
    ∧ managers w1 = managers w
    ∧ match category_cache w !! name with
      | Some n0 => n = n0 ∧ nodes (db w1) = nodes (db w)
      | None =>
          if index_has (db w) "Category" "category" (VStr name)
          then nodes (db w1) = nodes (db w)
          else nodes (db w) !! n = None
               ∧ nodes (db w1) = <[n := {["category" := VStr name]}]> (nodes (db w))
               ∧ index_has (db w1) "Category" "category" (VStr name) = true
      end.
Proof.
  destruct (category_run w name)
    as (n & w1 & Hrun & Hagain & Hcache & _ & Ho & Hm & Hr & _ & _ & Hcases).
  exists n, w1. done.
Qed.

(** ** NeoIndex.search and NeoIndex.get *)

Lemma search_unfold self query kwargs :
  NeoIndex.search self query kwargs
  = (for_each (map_to_list kwargs) (search_body (ni_node_class self)) ;;;
     q <- match query with
          | Some q => ret q
          | None => NeoIndex.reduce_and (kwargs_terms kwargs)
          end ;;
     w <- get_world ;;
     for_collect (index_query (db w) (ni_index self) q) (λ node,
       w' <- get_world ;;
       neonode <- NeoNode.__init__ (ni_node_class self) (db_get_properties (db w') node) ;;
       NeoNode.__setattr__ neonode "_node" (VNode node) ;;;
       ret neonode)).
Proof. reflexivity. Qed.

Lemma search_body_run w cls c kv :
  classes w !! cls = Some c →
  search_body cls kv w
  = match search_item_error (classes w) cls kv with
    | Some e => (Raise e, w)
    | None => (Return tt, w)
    end.
Proof.
  intros Hc. unfold search_body, search_item_error.
  destruct (class_getattr (classes w) cls kv.1) as [a|] eqn:Ha.
  - rewrite (bind_Return _ _ _ _ _ (get_property_run _ _ _ _ _ Hc Ha)).
    destruct a as [p|d|[]]; try reflexivity.
    cbn [attr_truthy negb attr_is_indexed]. unfold bind at 1. cbn [ret].
    destruct (is_indexed p); [|reflexivity]. cbn [negb attr_validate].
    unfold validate. destruct (p_kind p); try reflexivity.
    + by destruct (is_str kv.2).
    + by destruct (is_int kv.2).
  - by rewrite (bind_Raise _ _ _ _ _ (get_property_missing _ _ _ _ Hc Ha)).
Qed.

Lemma for_each_readonly {A} (err : A → option exn) (body : A → M unit) l w :
  (∀ x, body x w = match err x with Some e => (Raise e, w) | None => (Return tt, w) end) →
  for_each l body w
  = match omap err l with
    | e :: _ => (Raise e, w)
    | [] => (Return tt, w)
    end.
Proof.
  intros Hb. induction l as [|x l IH]; [done|].
  cbn [for_each]. unfold bind at 1. rewrite Hb. simpl omap.
  destruct (err x) as [e|]; [reflexivity|]. exact IH.
Qed.

Lemma search_loop w cls c l :
  classes w !! cls = Some c →
  for_each l (search_body cls) w
  = match omap (search_item_error (classes w) cls) l with
    | e :: _ => (Raise e, w)
    | [] => (Return tt, w)
    end.
Proof.
  intros Hc. apply for_each_readonly. intros x. by apply (search_body_run w cls c).
Qed.

Lemma omap_nil_iff {A B} (f : A → option B) l :
  omap f l = [] ↔ ∀ x, x ∈ l → f x = None.
Proof.
  induction l as [|x l IH]; cbn.
  - split; [|done]. intros _ y Hy. by apply elem_of_nil in Hy.
  - destruct (f x) eqn:E.
    + split; [done|]. intros H. specialize (H x (list_elem_of_here _ _)). congruence.
    + rewrite IH. split.
      * intros H y [->|Hy]%elem_of_cons; [done|by apply H].
      * intros H y Hy. apply H. by right.
Qed.

Lemma get_unfold self query kwargs w :
  NeoIndex.get self query kwargs w
  = match NeoIndex.search self query kwargs w with
    | (Return [n], w') => (Return n, w')
    | (Return (_ :: _ :: _), w') =>
        (Raise (Exception "Multiple nodes returned from query, expected one"), w')
    | (Return [], w') => (Raise (Exception "No nodes found"), w')
    | (Raise e, w') => (Raise e, w')
    end.
Proof.
  unfold NeoIndex.get, bind.
  destruct (NeoIndex.search self query kwargs w) as [[[|n [|n' l]]|e] w']; reflexivity.
Qed.

(** X14: [search] checks every keyword before it looks at the query or
    at the store.  If some keyword is refused ([getattr] on the class
    misses the name: [AttributeError], never [NoSuchProperty]; the
    attribute is false: [NoSuchProperty]; a descriptor that is not
    indexed: [PropertyNotIndexed]; an attribute without [is_indexed] or
    [validate]: [AttributeError]; a value [validate] refuses:
    [TypeError]), then [search] and [get] raise the exception of one of
    the refused keywords, whatever the query, and change nothing. *)
Theorem search_rejects (w : World) (self : NeoIndexObj) (c : PyClass)
  (kwargs : gmap string value) (k : string) (v : value) :
  classes w !! ni_node_class self = Some c →
  kwargs !! k = Some v →
  search_item_error (classes w) (ni_node_class self) (k, v) ≠ None →
  ∃ k' v' e,
    kwargs !! k' = Some v'
    ∧ search_item_error (classes w) (ni_node_class self) (k', v') = Some e
    ∧ ∀ query,
        NeoIndex.search self query kwargs w = (Raise e, w)
        ∧ NeoIndex.get self query kwargs w = (Raise e, w).
Proof.
  intros Hc Hk Hbad.
  pose proof (search_loop w _ c (map_to_list kwargs) Hc) as Hloop.
  destruct (omap _ (map_to_list kwargs)) as [|e es] eqn:Eo.
  - exfalso. apply Hbad. apply (proj1 (omap_nil_iff _ _) Eo (k, v)).
    by apply elem_of_map_to_list.
  - assert (Hin : e ∈ omap (search_item_error (classes w) (ni_node_class self))
                       (map_to_list kwargs)) by (rewrite Eo; left).
    apply list_elem_of_omap in Hin as ([k' v'] & Hin & He).
    exists k', v', e. split; [by apply elem_of_map_to_list|]. split; [done|].
    intros query.
    assert (Hs : NeoIndex.search self query kwargs w = (Raise e, w)).
    { rewrite search_unfold. by rewrite (bind_Raise _ _ _ _ _ Hloop). }
    split; [exact Hs|]. by rewrite get_unfold, Hs.
Qed.

(** X15: [search] and [get] called with no query and no keyword raise
    the [TypeError] of [reduce] on an empty sequence, and change
    nothing. *)
Theorem search_no_criteria (w : World) (self : NeoIndexObj) :
  NeoIndex.search self None ∅ w
  = (Raise (TypeError "reduce() of empty sequence with no initial value"), w)
  ∧ NeoIndex.get self None ∅ w
    = (Raise (TypeError "reduce() of empty sequence with no initial value"), w).
Proof.
  assert (Hs : NeoIndex.search self None ∅ w
               = (Raise (TypeError "reduce() of empty sequence with no initial value"), w)).
  { rewrite search_unfold. unfold kwargs_terms. rewrite map_to_list_empty. reflexivity. }
  split; [exact Hs|]. by rewrite get_unfold, Hs.
Qed.

Lemma q_matches_foldl es n qs : ∀ q,
  q_matches es n (foldl QAnd q qs) = q_matches es n q && forallb (q_matches es n) qs.
Proof.
  induction qs as [|q' qs IH]; intros q; cbn.
  - by rewrite andb_true_r.
  - rewrite IH. cbn. by rewrite andb_assoc.
Qed.

Lemma q_matches_term_unindexed es n k v :
  existsb (entry_at k v) es = false → q_matches es n (QTerm k v) = false.
Proof.
  intros H. cbn. induction es as [|e es IH]; [done|].
  cbn in *. apply orb_false_iff in H as [-> H]. cbn. by apply IH.
Qed.

Lemma reduce_and_matches es n qs q0 w :
  q0 ∈ qs →
  q_matches es n q0 = false →
  ∃ q, NeoIndex.reduce_and qs w = (Return q, w) ∧ q_matches es n q = false.
Proof.
  intros Hin Hq. destruct qs as [|q1 qs]; [by apply elem_of_nil in Hin|].
  exists (foldl QAnd q1 qs). split; [done|].
  rewrite q_matches_foldl. apply elem_of_cons in Hin as [<-|Hin].
  - by rewrite Hq.
  - apply andb_false_iff. right. apply not_true_iff_false. intros Hall.
    rewrite forallb_forall in Hall. specialize (Hall q0).
    rewrite Hall in Hq; [done|]. by apply list_elem_of_In.
Qed.

Lemma filter_none {A} (P : A → Prop) `{∀ x, Decision (P x)} (l : list A) :
  (∀ x, ¬ P x) → filter P l = [].
Proof.
  intros Hn. induction l as [|x l IH]; [done|]. by rewrite filter_cons_False.
Qed.

(** X16: the query built from the keywords is their conjunction.  With
    no query given and every keyword accepted, if one of the pairs
    (key, value) has no entry in the index, [search] returns the empty
    list and [get] raises [Exception("No nodes found")]; no instance is
    made and nothing is changed. *)
Theorem search_unindexed_pair (w : World) (self : NeoIndexObj) (c : PyClass)
  (kwargs : gmap string value) (k : string) (v : value) :
  classes w !! ni_node_class self = Some c →
  (∀ k' v', kwargs !! k' = Some v' →
     search_item_error (classes w) (ni_node_class self) (k', v') = None) →
  kwargs !! k = Some v →
  index_has (db w) (ni_index self) k v = false →
  NeoIndex.search self None kwargs w = (Return [], w)
  ∧ NeoIndex.get self None kwargs w = (Raise (Exception "No nodes found"), w).
Proof.
  intros Hc Hvalid Hk Hno.
  pose proof (search_loop w _ c (map_to_list kwargs) Hc) as Hloop.
  assert (Eo : omap (search_item_error (classes w) (ni_node_class self))
                 (map_to_list kwargs) = []).
  { apply omap_nil_iff. intros [k' v'] Hin. apply Hvalid. by apply elem_of_map_to_list. }
  rewrite Eo in Hloop.
  assert (Hs : NeoIndex.search self None kwargs w = (Return [], w)).
  { rewrite search_unfold. rewrite (bind_Return _ _ _ _ _ Hloop).
    assert (Hin : QTerm k v ∈ kwargs_terms kwargs).
    { unfold kwargs_terms. apply list_elem_of_fmap. exists (k, v).
      split; [done|]. by apply elem_of_map_to_list. }
    set (es := index_entries (db w) (ni_index self)).
    assert (Hq : ∀ n, ∃ q, NeoIndex.reduce_and (kwargs_terms kwargs) w = (Return q, w)
                           ∧ q_matches es n q = false).
    { intros n. apply (reduce_and_matches es n _ (QTerm k v)); [done|].
      by apply q_matches_term_unindexed. }
    destruct (NeoIndex.reduce_and (kwargs_terms kwargs) w) as [[q|e] w1] eqn:Er.
    2:{ destruct (Hq inhabitant) as (q & Hr & _). discriminate. }
    assert (w1 = w) as -> by (destruct (Hq inhabitant) as (q' & Hr & _); congruence).
    rewrite (bind_Return _ _ _ _ _ Er). unfold bind at 1. cbn [get_world].
    assert (Hnil : index_query (db w) (ni_index self) q = []).
    { unfold index_query. fold es. apply filter_none. intros n.
      destruct (Hq n) as (q' & Hr & Hm). assert (q' = q) as -> by congruence.
      by rewrite Hm. }
    rewrite Hnil. reflexivity. }
  split; [exact Hs|]. by rewrite get_unfold, Hs.
Qed.

Lemma search_rejects_witness :
  classes Run.w_bob !! ni_node_class Run.person_index = Some Demo.Person
  ∧ ({["nick" := VStr "Annie"]} : gmap string value) !! "nick" = Some (VStr "Annie")
  ∧ search_item_error (classes Run.w_bob) (ni_node_class Run.person_index)
      ("nick", VStr "Annie") = Some (PropertyNotIndexed "nick")
  ∧ ∃ k' v' e,
      ({["nick" := VStr "Annie"]} : gmap string value) !! k' = Some v'
      ∧ search_item_error (classes Run.w_bob) (ni_node_class Run.person_index) (k', v')
        = Some e
      ∧ ∀ query,
          NeoIndex.search Run.person_index query {["nick" := VStr "Annie"]} Run.w_bob
          = (Raise e, Run.w_bob)
          ∧ NeoIndex.get Run.person_index query {["nick" := VStr "Annie"]} Run.w_bob
            = (Raise e, Run.w_bob).
Proof.
  assert (Hc : classes Run.w_bob !! ni_node_class Run.person_index = Some Demo.Person)
    by (vm_compute; reflexivity).
  assert (Hk : ({["nick" := VStr "Annie"]} : gmap string value) !! "nick"
               = Some (VStr "Annie")) by (vm_compute; reflexivity).
  assert (He : search_item_error (classes Run.w_bob) (ni_node_class Run.person_index)
                 ("nick", VStr "Annie") = Some (PropertyNotIndexed "nick"))
    by (vm_compute; reflexivity).
  assert (Hb : search_item_error (classes Run.w_bob) (ni_node_class Run.person_index)
                 ("nick", VStr "Annie") ≠ None) by (rewrite He; discriminate).
  split; [exact Hc|]. split; [exact Hk|]. split; [exact He|].
  exact (search_rejects Run.w_bob Run.person_index Demo.Person _ "nick" (VStr "Annie")
           Hc Hk Hb).
Defined.

Lemma search_unindexed_pair_witness :
  classes Run.w_bob !! ni_node_class Run.person_index = Some Demo.Person
  ∧ index_has (db Run.w_bob) (ni_index Run.person_index) "name" (VStr "Zed") = false
  ∧ NeoIndex.search Run.person_index None {["name" := VStr "Zed"]} Run.w_bob
    = (Return [], Run.w_bob)
  ∧ NeoIndex.get Run.person_index None {["name" := VStr "Zed"]} Run.w_bob
    = (Raise (Exception "No nodes found"), Run.w_bob).
Proof.
  assert (Hc : classes Run.w_bob !! ni_node_class Run.person_index = Some Demo.Person)
    by (vm_compute; reflexivity).
  assert (Hno : index_has (db Run.w_bob) (ni_index Run.person_index) "name" (VStr "Zed")
                = false) by (vm_compute; reflexivity).
  assert (Hk : ({["name" := VStr "Zed"]} : gmap string value) !! "name" = Some (VStr "Zed"))
    by (vm_compute; reflexivity).
  assert (Hv : ∀ k' v', ({["name" := VStr "Zed"]} : gmap string value) !! k' = Some v' →
                 search_item_error (classes Run.w_bob) (ni_node_class Run.person_index)
                   (k', v') = None).
  { intros k' v' [<- <-]%lookup_singleton_Some. vm_compute. reflexivity. }
  split; [exact Hc|]. split; [exact Hno|].
  exact (search_unindexed_pair Run.w_bob Run.person_index Demo.Person _ "name" (VStr "Zed")
           Hc Hv Hk Hno).
Defined.

(** ** IndexBatch and NeoNode._update_index *)

Lemma batch_step_frame g name rq :
  nodes (batch_step g name rq).2 = nodes g
  ∧ rels (batch_step g name rq).2 = rels g
  ∧ ∀ name', name' ≠ name →
      index_entries (batch_step g name rq).2 name' = index_entries g name'.
Proof.
  destruct rq as [k v n|k v n]; cbn.
  - split; [done|]. split; [done|]. intros name' Hne.
    unfold index_add. rewrite index_entries_set_index. by rewrite decide_False.
  - destruct (index_has g name k v); cbn; [done|].
    split; [done|]. split; [done|]. intros name' Hne.
    unfold index_add. rewrite index_entries_set_index. by rewrite decide_False.
Qed.

Lemma batch_submit_frame name rqs : ∀ g,
  nodes (batch_submit g name rqs).2 = nodes g
  ∧ rels (batch_submit g name rqs).2 = rels g
  ∧ ∀ name', name' ≠ name →
      index_entries (batch_submit g name rqs).2 name' = index_entries g name'.
Proof.
  induction rqs as [|rq rqs IH]; intros g; [done|].
  cbn [batch_submit snd].
  destruct (IH (batch_step g name rq).2) as (Hn & Hr & Hi).
  destruct (batch_step_frame g name rq) as (Hn' & Hr' & Hi').
  split; [congruence|]. split; [congruence|].
  intros name' Hne. by rewrite Hi, Hi'.
Qed.

Lemma index_entries_index_add g name k v n :
  index_entries (index_add g name k v n) name = index_entries g name ++ [(k, py_str v, n)].
Proof. unfold index_add. rewrite index_entries_set_index. by rewrite decide_True. Qed.

(** The batch only appends, and what it appends are entries its requests
    ask for. *)
Lemma batch_submit_entries name rqs : ∀ g,
  ∃ added,
    index_entries (batch_submit g name rqs).2 name = index_entries g name ++ added
    ∧ added ⊆ request_entry <$> rqs.
Proof.
  induction rqs as [|rq rqs IH]; intros g.
  - exists []. by rewrite app_nil_r.
  - cbn [batch_submit snd]. destruct (IH (batch_step g name rq).2) as (added & He & Hsub).
    destruct rq as [k v n|k v n]; cbn [batch_step snd] in *.
    + exists ((k, py_str v, n) :: added). rewrite He, index_entries_index_add, <- app_assoc.
      split; [done|]. intros e [->|Hin]%elem_of_cons; [left|right; by apply Hsub].
    + destruct (index_has g name k v); cbn [snd] in *.
      * exists added. split; [done|]. intros e Hin. right. by apply Hsub.
      * exists ((k, py_str v, n) :: added). rewrite He, index_entries_index_add, <- app_assoc.
        split; [done|]. intros e [->|Hin]%elem_of_cons; [left|right; by apply Hsub].
Qed.

Lemma index_has_app g name k v :
  index_has g name k v = existsb (entry_at k v) (index_entries g name).
Proof. reflexivity. Qed.

Lemma index_has_batch_step g name rq k v :
  index_has g name k v = true → index_has (batch_step g name rq).2 name k v = true.
Proof.
  intros H. destruct rq as [k' v' n|k' v' n]; cbn.
  - unfold index_has. rewrite index_entries_index_add, existsb_app.
    unfold index_has in H. by rewrite H.
  - destruct (index_has g name k' v'); cbn; [done|].
    unfold index_has. rewrite index_entries_index_add, existsb_app.
    unfold index_has in H. by rewrite H.
Qed.

(** A conditional insert under a pair that is indexed already is
    answered 200, wherever it stands in the batch. *)
Lemma batch_submit_conflict name rqs k v n : ∀ g,
  BAddIfNone k v n ∈ rqs →
  index_has g name k v = true →
  200 ∈ (batch_submit g name rqs).1.
Proof.
  induction rqs as [|rq rqs IH]; intros g Hin Hhas; [by apply elem_of_nil in Hin|].
  cbn [batch_submit fst]. apply elem_of_cons in Hin as [<-|Hin].
  - cbn. rewrite Hhas. left.
  - right. apply IH; [done|]. by apply index_has_batch_step.
Qed.

Lemma index_has_index_add g name k v n k' v' :
  index_has (index_add g name k v n) name k' v'
  = index_has g name k' v' || entry_at k' v' (k, py_str v, n).
Proof.
  unfold index_has. rewrite index_entries_index_add, existsb_app. cbn.
  by rewrite orb_false_r.
Qed.

(** With one request per key, and no conditional insert under a pair that
    is indexed already, every request is answered 201 and carried out. *)
Lemma batch_submit_ok name rqs : ∀ g,
  NoDup (request_key <$> rqs) →
  (∀ k v n, BAddIfNone k v n ∈ rqs → index_has g name k v = false) →
  (200 ∉ (batch_submit g name rqs).1)
  ∧ index_entries (batch_submit g name rqs).2 name
    = index_entries g name ++ (request_entry <$> rqs).
Proof.
  induction rqs as [|rq rqs IH]; intros g Hnd Hfree.
  - cbn. split; [by intros ?%elem_of_nil|]. by rewrite app_nil_r.
  - cbn [fmap list_fmap] in Hnd. apply NoDup_cons in Hnd as [Hk Hnd].
    cbn [batch_submit fst snd].
    assert (Hstep : ∃ k0 v0 n0,
              request_entry rq = (k0, py_str v0, n0)
              ∧ (batch_step g name rq).1 = 201
              ∧ (batch_step g name rq).2 = index_add g name k0 v0 n0).
    { destruct rq as [k v n|k v n]; exists k, v, n; cbn; [done|].
      rewrite (Hfree k v n) by left. done. }
    destruct Hstep as (k0 & v0 & n0 & Hrq & Hst & Hg).
    destruct (IH (batch_step g name rq).2 Hnd) as [Hno He].
    { intros k v n Hin. rewrite Hg, index_has_index_add.
      rewrite (Hfree k v n) by (by right). cbn.
      unfold entry_at. cbn. apply andb_false_iff. left.
      apply bool_decide_eq_false. intros Heq. apply Hk.
      apply list_elem_of_fmap. exists (BAddIfNone k v n). split; [|done].
      unfold request_key. rewrite Hrq. cbn. done. }
    split.
    + rewrite Hst. intros [Hbad|Hin]%elem_of_cons; [discriminate|]. by apply Hno.
    + rewrite He, Hg, index_entries_index_add, <- app_assoc. cbn.
      by rewrite Hrq.
Qed.

Lemma update_index_requests_run w self o c n l :
  objects w !! self = Some o →
  o_dict o !! "_node" = Some (VNode n) →
  classes w !! o_class o = Some c →
  Forall (λ kv : string * value,
            ∃ p, class_getattr (classes w) (o_class o) kv.1 = Some (AProperty p)) l →
  NeoNode._update_index_requests self l w
  = (Return (flat_map (item_requests (classes w) (o_class o) n) l), w).
Proof.
  intros Ho Hn Hc. induction l as [|kv l IH]; intros Hall; [done|].
  apply Forall_cons in Hall as [[p Hp] Hall].
  cbn [NeoNode._update_index_requests flat_map].
  rewrite (bind_Return _ _ _ _ _ (deref_run _ _ _ Ho)).
  rewrite (bind_Return _ _ _ _ _ (get_property_run _ _ _ _ _ Hc Hp)).
  cbn [attr_unique_index]. unfold bind at 1. cbn [ret].
  unfold item_requests at 1. rewrite Hp.
  destruct (unique_index p).
  - unfold bind at 1. rewrite (bind_Return _ _ _ _ _ (get_slot_run _ _ _ _ _ Ho Hn)).
    cbn [as_node]. unfold bind at 1. cbn [ret].
    unfold bind at 1. rewrite (IH Hall). reflexivity.
  - cbn [attr_index]. unfold bind at 1. unfold bind at 1. cbn [ret].
    destruct (index p).
    + rewrite (bind_Return _ _ _ _ _ (get_slot_run _ _ _ _ _ Ho Hn)).
      cbn [as_node]. unfold bind at 1. cbn [ret].
      unfold bind at 1. rewrite (IH Hall). reflexivity.
    + cbn [ret]. unfold bind at 1. rewrite (IH Hall). reflexivity.
Qed.

Lemma all_declared_spec cs cls props :
  all_declared cs cls props = true ↔
  ∀ k v, props !! k = Some v → ∃ p, class_getattr cs cls k = Some (AProperty p).
Proof.
  unfold all_declared. rewrite forallb_forall. split.
  - intros H k v Hk. specialize (H (k, v)). cbn in H.
    destruct (class_getattr cs cls k) as [[p| |]|]; [eauto|..];
      discriminate H; by apply list_elem_of_In, elem_of_map_to_list.
  - intros H [k v] Hin. apply list_elem_of_In, elem_of_map_to_list in Hin.
    destruct (H k v Hin) as [p Hp]. cbn. by rewrite Hp.
Qed.

Lemma update_index_run w self o c n iname props :
  objects w !! self = Some o →
  o_dict o !! "_node" = Some (VNode n) →
  o_dict o !! "_index" = Some (VIndex iname) →
  classes w !! o_class o = Some c →
  all_declared (classes w) (o_class o) props = true →
  NeoNode._update_index self props w
  = (if bool_decide
          (200 ∈ (batch_submit (db w) iname
                    (update_requests (classes w) (o_class o) n props)).1)
     then Raise (NotUnique "A supplied value is not unique")
     else Return tt,
     set_db (λ _, (batch_submit (db w) iname
                     (update_requests (classes w) (o_class o) n props)).2) w).
Proof.
  intros Ho Hn Hi Hc Hd. unfold NeoNode._update_index.
  rewrite (bind_Return _ _ _ _ _ (get_slot_run _ _ _ _ _ Ho Hi)).
  cbn [as_index]. unfold bind at 1. cbn [ret].
  assert (Hall : Forall (λ kv : string * value,
              ∃ p, class_getattr (classes w) (o_class o) kv.1 = Some (AProperty p))
            (map_to_list props)).
  { apply Forall_forall. intros [k v] Hin.
    apply (proj1 (all_declared_spec _ _ _) Hd k v). by apply elem_of_map_to_list. }
  rewrite (bind_Return _ _ _ _ _ (update_index_requests_run _ _ _ _ _ _ Ho Hn Hc Hall)).
  unfold bind at 1. cbn [get_world]. unfold bind at 1. cbn [modify].
  fold (update_requests (classes w) (o_class o) n props).
  by destruct (bool_decide _).
Qed.

Lemma item_requests_keys cs cls n kv rq :
  rq ∈ item_requests cs cls n kv → request_entry rq = (kv.1, py_str kv.2, n).
Proof.
  unfold item_requests. destruct (class_getattr cs cls kv.1) as [[p| |]|];
    try (by intros ?%elem_of_nil).
  destruct (unique_index p); [by intros ->%list_elem_of_singleton|].
  destruct (index p); [by intros ->%list_elem_of_singleton|by intros ?%elem_of_nil].
Qed.

Lemma requests_NoDup cs cls n (l : list (string * value)) :
  NoDup l.*1 → NoDup (request_key <$> flat_map (item_requests cs cls n) l).
Proof.
  induction l as [|kv l IH]; intros Hnd; [constructor|].
  cbn in Hnd. apply NoDup_cons in Hnd as [Hk Hnd].
  cbn [flat_map]. rewrite fmap_app. apply NoDup_app. split; [|split].
  - unfold item_requests. destruct (class_getattr cs cls kv.1) as [[p| |]|];
      try constructor.
    destruct (unique_index p); [apply NoDup_singleton|].
    destruct (index p); [apply NoDup_singleton|constructor].
  - intros k [rq [-> Hrq]]%list_elem_of_fmap [rq' [Heq Hrq']]%list_elem_of_fmap.
    apply item_requests_keys in Hrq.
    apply list_elem_of_In, in_flat_map in Hrq' as (kv' & Hkv' & Hrq').
    apply list_elem_of_In, item_requests_keys in Hrq'.
    unfold request_key in Heq. rewrite Hrq, Hrq' in Heq. cbn in Heq.
    apply Hk. rewrite Heq. apply list_elem_of_fmap. exists kv'. split; [done|].
    by apply list_elem_of_In.
  - by apply IH.
Qed.

Lemma update_requests_NoDup cs cls n props :
  NoDup (request_key <$> update_requests cs cls n props).
Proof. apply requests_NoDup, NoDup_fst_map_to_list. Qed.

Lemma elem_of_update_requests cs cls n props rq :
  rq ∈ update_requests cs cls n props ↔
  ∃ k v p,
    props !! k = Some v ∧ class_getattr cs cls k = Some (AProperty p)
    ∧ (unique_index p = true ∧ rq = BAddIfNone k v n
       ∨ unique_index p = false ∧ index p = true ∧ rq = BAdd k v n).
Proof.
  unfold update_requests. rewrite list_elem_of_In, in_flat_map. split.
  - intros ([k v] & Hin & Hrq). apply list_elem_of_In, elem_of_map_to_list in Hin.
    apply list_elem_of_In in Hrq. unfold item_requests in Hrq. cbn [fst snd] in Hrq.
    destruct (class_getattr cs cls k) as [[p| |]|] eqn:E;
      try (by apply elem_of_nil in Hrq).
    exists k, v, p. split; [done|]. split; [done|].
    destruct (unique_index p); [left; by apply list_elem_of_singleton in Hrq|].
    destruct (index p); [|by apply elem_of_nil in Hrq].
    right. by apply list_elem_of_singleton in Hrq.
  - intros (k & v & p & Hk & Hp & Hcase). exists (k, v).
    split; [by apply list_elem_of_In, elem_of_map_to_list|].
    apply list_elem_of_In. unfold item_requests. cbn [fst snd]. rewrite Hp.
    destruct Hcase as [[-> ->]|(-> & -> & ->)]; by apply list_elem_of_singleton.
Qed.

Lemma unique_conflict_spec cs cls g name props :
  unique_conflict cs cls g name props = true ↔
  ∃ k v p,
    props !! k = Some v ∧ class_getattr cs cls k = Some (AProperty p)
    ∧ unique_index p = true ∧ index_has g name k v = true.
Proof.
  unfold unique_conflict. rewrite existsb_exists. split.
  - intros ([k v] & Hin & H). apply list_elem_of_In, elem_of_map_to_list in Hin.
    cbn [fst snd] in H. destruct (class_getattr cs cls k) as [[p| |]|] eqn:E; try done.
    apply andb_true_iff in H as [Hu Hh]. by exists k, v, p.
  - intros (k & v & p & Hk & Hp & Hu & Hh). exists (k, v).
    split; [by apply list_elem_of_In, elem_of_map_to_list|].
    cbn [fst snd]. by rewrite Hp, Hu, Hh.
Qed.

(** The batch of [_update_index] reports a 200 exactly when a uniquely
    indexed property has its value indexed already. *)
Lemma update_batch_status cs cls n g name props :
  bool_decide (200 ∈ (batch_submit g name (update_requests cs cls n props)).1)
  = unique_conflict cs cls g name props.
Proof.
  destruct (unique_conflict cs cls g name props) eqn:E.
  - apply unique_conflict_spec in E as (k & v & p & Hk & Hp & Hu & Hh).
    apply bool_decide_eq_true. apply (batch_submit_conflict _ _ k v n); [|done].
    apply elem_of_update_requests. exists k, v, p. eauto.
  - apply bool_decide_eq_false.
    apply (batch_submit_ok name _ g (update_requests_NoDup _ _ _ _)).
    intros k v n' Hin. apply elem_of_update_requests in Hin
      as (k' & v' & p & Hk & Hp & [[Hu [= <- <- <-]]|(_ & _ & [=])]).
    apply not_true_iff_false. intros Hh. apply not_true_iff_false in E. apply E.
    apply unique_conflict_spec. by exists k, v, p.
Qed.

(** The entries of the index after the batch of [_update_index], when no
    uniquely indexed value is taken: the old ones, and one for each
    indexed property. *)
Lemma update_batch_entries cs cls n g name props e :
  unique_conflict cs cls g name props = false →
  e ∈ index_entries (batch_submit g name (update_requests cs cls n props)).2 name ↔
  e ∈ index_entries g name
  ∨ ∃ k v p, e = (k, py_str v, n) ∧ props !! k = Some v
             ∧ class_getattr cs cls k = Some (AProperty p) ∧ is_indexed p = true.
Proof.
  intros E.
  destruct (batch_submit_ok name (update_requests cs cls n props) g
              (update_requests_NoDup _ _ _ _)) as [_ He].
  { intros k v n' Hin. apply elem_of_update_requests in Hin
      as (k' & v' & p & Hk & Hp & [[Hu [= <- <- <-]]|(_ & _ & [=])]).
    apply not_true_iff_false. intros Hh. apply not_true_iff_false in E. apply E.
    apply unique_conflict_spec. by exists k, v, p. }
  rewrite He, elem_of_app, list_elem_of_fmap. apply or_iff_compat_l. split.
  - intros (rq & -> & Hin). apply elem_of_update_requests in Hin
      as (k & v & p & Hk & Hp & [[Hu ->]|(Hu & Hi & ->)]); exists k, v, p; cbn;
      unfold is_indexed; rewrite ?Hu, ?Hi; eauto using orb_true_r.
  - intros (k & v & p & -> & Hk & Hp & Hi). unfold is_indexed in Hi.
    destruct (unique_index p) eqn:Hu.
    + exists (BAddIfNone k v n). split; [done|]. apply elem_of_update_requests.
      exists k, v, p. eauto.
    + cbn in Hi. exists (BAdd k v n). split; [done|]. apply elem_of_update_requests.
      exists k, v, p. eauto 10.
Qed.

(** Whatever the statuses, an entry of the index after the batch is an
    old one or is one for an indexed property. *)
Lemma update_batch_entries_sub cs cls n g name props e :
  e ∈ index_entries (batch_submit g name (update_requests cs cls n props)).2 name →
  e ∈ index_entries g name
  ∨ ∃ k v p, e = (k, py_str v, n) ∧ props !! k = Some v
             ∧ class_getattr cs cls k = Some (AProperty p) ∧ is_indexed p = true.
Proof.
  destruct (batch_submit_entries name (update_requests cs cls n props) g)
    as (added & He & Hsub).
  rewrite He, elem_of_app. intros [Hold|Hnew]; [by left|right].
  apply Hsub, list_elem_of_fmap in Hnew as (rq & -> & Hin).
  apply elem_of_update_requests in Hin
    as (k & v & p & Hk & Hp & [[Hu ->]|(Hu & Hi & ->)]); exists k, v, p; cbn;
    unfold is_indexed; rewrite ?Hu, ?Hi; eauto using orb_true_r.
Qed.

Lemma batch_submit_old name rqs g e :
  e ∈ index_entries g name → e ∈ index_entries (batch_submit g name rqs).2 name.
Proof.
  destruct (batch_submit_entries name rqs g) as (added & He & _).
  rewrite He, elem_of_app. by left.
Qed.

(** ** NeoNode.save *)

Lemma properties_run w self o :
  objects w !! self = Some o →
  NeoNode.properties self w = (Return (properties_of (o_dict o)), w).
Proof.
  intros Ho. unfold NeoNode.properties.
  by rewrite (bind_Return _ _ _ _ _ (deref_run _ _ _ Ho)).
Qed.

Lemma unique_conflict_ext cs cls g g' name props :
  index_entries g name = index_entries g' name →
  unique_conflict cs cls g name props = unique_conflict cs cls g' name props.
Proof. intros He. unfold unique_conflict, index_has. by rewrite He. Qed.

Lemma obj_set_set o k v v' : obj_set (obj_set o k v) k v' = obj_set o k v'.
Proof. unfold obj_set. cbn. by rewrite insert_insert_eq. Qed.

Lemma obj_set_id o k v : o_dict o !! k = Some v → obj_set o k v = o.
Proof. intros H. destruct o as [cls D]. unfold obj_set. cbn in *. by rewrite insert_id. Qed.

(** What [save] does on an instance that has no node yet. *)
Lemma save_new_run w self o c cls iname :
  objects w !! self = Some o →
  o_dict o !! "_node" = Some VNone →
  o_dict o !! "_type" = Some (VStr cls) →
  o_dict o !! "_index" = Some (VIndex iname) →
  classes w !! o_class o = Some c →
  all_declared (classes w) (o_class o) (properties_of (o_dict o)) = true →
  iname ≠ "Category" →
  ∃ anchor w1 w',
    category cls w = (Return anchor, w1)
    ∧ NeoNode.save self w
      = (if unique_conflict (classes w) (o_class o) (db w) iname (properties_of (o_dict o))
         then Raise (NotUnique "A supplied value is not unique")
         else Return self, w')
    ∧ nodes (db w) ⊆ nodes (db w1)
    ∧ classes w' = classes w
    ∧ managers w' = managers w
    ∧ if unique_conflict (classes w) (o_class o) (db w) iname (properties_of (o_dict o))
      then
        objects w' = objects w
        ∧ nodes (db w') = nodes (db w1)
        ∧ ∀ r' rel,
            rels (db w') !! r' = Some rel ↔
            rels (db w) !! r' = Some rel
            ∧ touches (fresh (dom (nodes (db w1)))) rel = false
      else
        objects w'
        = <[self := obj_set o "_node" (VNode (fresh (dom (nodes (db w1)))))]> (objects w)
        ∧ nodes (db w')
          = <[fresh (dom (nodes (db w1))) := properties_of (o_dict o)]> (nodes (db w1))
        ∧ rels (db w')
          = <[fresh (dom (rels (db w)))
              := mkRel anchor (upper cls) (fresh (dom (nodes (db w1))))]> (rels (db w))
        ∧ ∀ e,
            e ∈ index_entries (db w') iname ↔
            e ∈ index_entries (db w) iname
            ∨ ∃ k v p,
                e = (k, py_str v, fresh (dom (nodes (db w1))))
                ∧ properties_of (o_dict o) !! k = Some v
                ∧ class_getattr (classes w) (o_class o) k = Some (AProperty p)
                ∧ is_indexed p = true.
Proof.
  intros Ho Hnode Hty Hix Hc Hd Hcat.
  set (P := properties_of (o_dict o)) in *.
  destruct (category_run w cls)
    as (anchor & w1 & Hrun & _ & _ & Hcl1 & Ho1 & Hm1 & Hr1 & Hsub & Hie & _).
  destruct w1 as [cs1 os1 ms1 g1 cc1]. cbn in Hcl1, Ho1, Hm1, Hr1, Hsub, Hie.
  subst cs1 os1 ms1. cbn [db].
  set (n := fresh (dom (nodes g1))).
  set (r := fresh (dom (rels (db w)))).
  set (g2 := mkDB (<[n := P]> (nodes g1)) (<[r := mkRel anchor (upper cls) n]> (rels (db w)))
               (indexes g1)).
  set (o3 := obj_set o "_node" (VNode n)).
  set (w3 := mkWorld (classes w) (<[self := o3]> (objects w)) (managers w) g2 cc1).
  set (bs := batch_submit g2 iname (update_requests (classes w) (o_class o) n P)).
  assert (Hcreate : NeoNode._create self P w
                    = try_except (NeoNode._update_index self P)
                        (λ e, _ <- NeoNode.delete self ;; raise e) w3).
  { unfold NeoNode._create.
    rewrite (bind_Return _ _ _ _ _ (get_slot_run _ _ _ _ _ Ho Hty)).
    cbn [as_str]. unfold bind at 1. cbn [ret].
    rewrite (bind_Return _ _ _ _ _ Hrun).
    unfold bind at 1. cbn [get_world]. unfold bind at 1. cbn [modify].
    rewrite (bind_Return _ _ _ _ _ (setattr_underscore _ _ "_node" _ eq_refl)).
    f_equal. unfold set_objects, set_db, db_create. cbn. subst w3 g2 n r o3.
    rewrite Hr1. by rewrite (alter_as_insert _ _ _ _ Ho). }
  assert (Ho3 : objects w3 !! self = Some o3) by (cbn; apply lookup_insert_eq).
  assert (Hn3 : o_dict o3 !! "_node" = Some (VNode n)) by (cbn; apply lookup_insert_eq).
  assert (Hi3 : o_dict o3 !! "_index" = Some (VIndex iname)).
  { cbn. by rewrite lookup_insert_ne. }
  pose proof (update_index_run w3 self o3 c n iname P Ho3 Hn3 Hi3 Hc Hd) as Hupd.
  cbn [classes db o_class o3 obj_set w3] in Hupd.
  rewrite update_batch_status in Hupd. fold bs in Hupd.
  assert (Hent2 : index_entries g2 iname = index_entries (db w) iname).
  { rewrite <- (Hie iname Hcat). reflexivity. }
  rewrite (unique_conflict_ext _ _ g2 (db w) _ _ Hent2) in Hupd.
  assert (Hsave : NeoNode.save self w
                  = match NeoNode._create self P w with
                    | (Return _, w') => (Return self, w')
                    | (Raise e, w') => (Raise e, w')
                    end).
  { unfold NeoNode.save.
    rewrite (bind_Return _ _ _ _ _ (get_slot_run _ _ _ _ _ Ho Hnode)).
    cbn [truthy]. unfold bind at 1. unfold bind at 1.
    rewrite (properties_run _ _ _ Ho). fold P.
    by destruct (NeoNode._create self P w) as [[[]|e] w']. }
  destruct (batch_submit_frame iname (update_requests (classes w) (o_class o) n P) g2)
    as (Hbn & Hbr & _). fold bs in Hbn, Hbr.
  assert (Hfn : nodes g1 !! n = None) by apply not_elem_of_dom, is_fresh.
  assert (Hfr : rels (db w) !! r = None) by apply not_elem_of_dom, is_fresh.
  destruct (unique_conflict (classes w) (o_class o) (db w) iname P) eqn:Econf.
  - set (w4 := set_db (λ _, bs.2) w3) in *.
    assert (Ho4 : objects w4 !! self = Some o3) by exact Ho3.
    set (w5 := set_objects (alter (λ o, obj_set o "_node" VNone) self)
                 (set_db (λ g, db_delete_node g n) w4)).
    exists anchor, (mkWorld (classes w) (objects w) (managers w) g1 cc1), w5.
    split; [exact Hrun|]. split.
    { rewrite Hsave, Hcreate. unfold try_except. rewrite Hupd.
      rewrite (bind_Return _ _ _ _ _ (delete_run _ _ _ _ Ho4 Hn3)). reflexivity. }
    split; [exact Hsub|]. split; [done|]. split; [done|]. split; [|split].
    + cbn. rewrite (alter_as_insert _ _ _ o3) by apply lookup_insert_eq.
      rewrite insert_insert_eq. subst o3. rewrite obj_set_set, (obj_set_id o) by done.
      by apply insert_id.
    + cbn. rewrite db_delete_node_nodes, Hbn. cbn. by apply delete_insert_id.
    + intros r' rel. cbn. rewrite db_delete_node_rels, Hbr. cbn.
      destruct (decide (r' = r)) as [->|Hne].
      * rewrite lookup_insert_eq, Hfr.
        unfold touches at 1. cbn. rewrite (bool_decide_eq_true_2 (n = n)) by done.
        rewrite orb_true_r. split; [done|by intros [? _]].
      * rewrite lookup_insert_ne by done.
        destruct (rels (db w) !! r') as [rel'|]; [|split; [done|by intros [? _]]].
        destruct (touches n rel') eqn:Et.
        -- split; [done|]. intros [[= ->] Hf]. fold n in Hf. congruence.
        -- split; [intros [= ->]; done|by intros [? _]].
  - set (w4 := set_db (λ _, bs.2) w3) in *.
    exists anchor, (mkWorld (classes w) (objects w) (managers w) g1 cc1), w4.
    split; [exact Hrun|]. split.
    { rewrite Hsave, Hcreate. unfold try_except. by rewrite Hupd. }
    split; [exact Hsub|]. split; [done|]. split; [done|].
    split; [done|]. split; [exact Hbn|]. split; [exact Hbr|].
    intros e. cbn [db w4 set_db]. subst bs.
    rewrite update_batch_entries.
    + by rewrite Hent2.
    + by rewrite (unique_conflict_ext _ _ g2 (db w) _ _ Hent2).
Qed.

Lemma no_dangling_untouched (g : GraphDB) (ns : gmap nodeid (gmap string value)) n rel r :
  (∀ r' rel', rels g !! r' = Some rel' →
     is_Some (nodes g !! r_start rel') ∧ is_Some (nodes g !! r_end rel')) →
  nodes g ⊆ ns →
  ns !! n = None →
  rels g !! r = Some rel →
  touches n rel = false.
Proof.
  intros Hwf Hsub Hn Hr. destruct (Hwf _ _ Hr) as [[x Hs] [y He]].
  unfold touches. apply orb_false_iff. split; apply bool_decide_eq_false; intros Heq.
  - rewrite Heq in Hs. pose proof (lookup_weaken _ _ _ _ Hs Hsub). congruence.
  - rewrite Heq in He. pose proof (lookup_weaken _ _ _ _ He Hsub). congruence.
Qed.

(** X17: saving a new instance whose value for a uniquely indexed
    property is already in the index of its class.  [save] raises
    [NotUnique] and the creation is rolled back: the node made for the
    instance is gone from the store (the nodes are those left by the
    category lookup), no relationship at it is left and the other
    relationships are as before (all of them, in a store without
    dangling relationships), the instance and every other instance are
    exactly as before, so that [_node] is still [None] and a [delete]
    is refused.  [IndexBatch] is the one described by the
    specification. *)
Theorem save_new_not_unique (w : World) (self : loc) (o : NeoNodeObj) (c : PyClass)
  (cls iname : string) :
  objects w !! self = Some o →
  o_dict o !! "_node" = Some VNone →
  o_dict o !! "_type" = Some (VStr cls) →
  o_dict o !! "_index" = Some (VIndex iname) →
  classes w !! o_class o = Some c →
  all_declared (classes w) (o_class o) (properties_of (o_dict o)) = true →
  iname ≠ "Category" →
  unique_conflict (classes w) (o_class o) (db w) iname (properties_of (o_dict o)) = true →
  ∃ anchor w1 w',
    category cls w = (Return anchor, w1)
    ∧ NeoNode.save self w = (Raise (NotUnique "A supplied value is not unique"), w')
    ∧ objects w' = objects w
    ∧ managers w' = managers w
    ∧ nodes (db w') = nodes (db w1)
    ∧ nodes (db w) ⊆ nodes (db w')
    ∧ (∀ r rel, rels (db w') !! r = Some rel → rels (db w) !! r = Some rel)
    ∧ (∀ r rel, rels (db w') !! r = Some rel →
         touches (fresh (dom (nodes (db w1)))) rel = false)
    ∧ ((∀ r rel, rels (db w) !! r = Some rel →
          is_Some (nodes (db w) !! r_start rel) ∧ is_Some (nodes (db w) !! r_end rel)) →
       rels (db w') = rels (db w))
    ∧ NeoNode.delete self w'
      = (Raise (Exception "Node has not been saved so cannot be deleted"), w').
Proof.
  intros Ho Hnode Hty Hix Hc Hd Hcat Hconf.
  destruct (save_new_run w self o c cls iname Ho Hnode Hty Hix Hc Hd Hcat)
    as (anchor & w1 & w' & Hrun & Hsave & Hsub & Hcl & Hm & Hcase).
  rewrite Hconf in Hsave, Hcase. destruct Hcase as (Hobj & Hnodes & Hrels).
  exists anchor, w1, w'. split; [exact Hrun|]. split; [exact Hsave|].
  split; [exact Hobj|]. split; [exact Hm|]. split; [exact Hnodes|].
  split; [by rewrite Hnodes|].
  split; [intros r rel Hr; by apply Hrels in Hr as [? _]|].
  split; [intros r rel Hr; by apply Hrels in Hr as [_ ?]|].
  split.
  - intros Hwf. apply map_eq. intros r. apply option_eq. intros rel.
    rewrite Hrels. split; [by intros [? _]|]. intros Hr. split; [done|].
    apply (no_dangling_untouched (db w) (nodes (db w1)) _ _ r Hwf Hsub); [|done].
    apply not_elem_of_dom, is_fresh.
  - apply (delete_transient w' self o); [by rewrite Hobj|done].
Qed.


(** X19: saving an instance that has a node.  The properties of the
    node in the store are replaced by [properties] of the instance and
    the entries of the node in the index of the class are removed,
    before the index is filled again; the entries of other nodes,
    relationships, instances and managers are untouched.  [save] raises
    [NotUnique] exactly when a uniquely indexed value of the instance is
    indexed for another node, and nothing is rolled back then: the
    properties stay replaced, and the node keeps no index entry but for
    its present properties.  Without such a value [save] returns the
    instance, and every indexed property has its entry; the instance's
    own former entries never count against it.  [IndexBatch] is the one
    described by the specification. *)
Theorem save_persisted (w : World) (self : loc) (o : NeoNodeObj) (c : PyClass)
  (n : nodeid) (iname : string) :
  objects w !! self = Some o →
  o_dict o !! "_node" = Some (VNode n) →
  o_dict o !! "_index" = Some (VIndex iname) →
  classes w !! o_class o = Some c →
  all_declared (classes w) (o_class o) (properties_of (o_dict o)) = true →
  ∃ w',
    NeoNode.save self w
    = (if unique_conflict (classes w) (o_class o) (index_remove (db w) iname n) iname
            (properties_of (o_dict o))
       then Raise (NotUnique "A supplied value is not unique")
       else Return self, w')
    ∧ nodes (db w') = <[n := properties_of (o_dict o)]> (nodes (db w))
    ∧ rels (db w') = rels (db w)
    ∧ objects w' = objects w
    ∧ managers w' = managers w
    ∧ (∀ e, e.2 ≠ n →
         e ∈ index_entries (db w') iname ↔ e ∈ index_entries (db w) iname)
    ∧ (∀ k t, (k, t, n) ∈ index_entries (db w') iname →
         ∃ v p, t = py_str v
                ∧ properties_of (o_dict o) !! k = Some v
                ∧ class_getattr (classes w) (o_class o) k = Some (AProperty p)
                ∧ is_indexed p = true)
    ∧ (unique_conflict (classes w) (o_class o) (index_remove (db w) iname n) iname
         (properties_of (o_dict o)) = false →
       ∀ k v p,
         properties_of (o_dict o) !! k = Some v →
         class_getattr (classes w) (o_class o) k = Some (AProperty p) →
         is_indexed p = true →
         (k, py_str v, n) ∈ index_entries (db w') iname).
Proof.
  intros Ho Hnode Hix Hc Hd.
  set (P := properties_of (o_dict o)) in *.
  set (g1 := index_remove (db_set_properties (db w) n P) iname n).
  set (w2 := set_db (λ _, g1) w).
  set (rqs := update_requests (classes w) (o_class o) n P).
  set (bs := batch_submit g1 iname rqs).
  pose proof (update_index_run w2 self o c n iname P Ho Hnode Hix Hc Hd) as Hupd.
  cbn [classes db w2 set_db] in Hupd. rewrite update_batch_status in Hupd.
  fold rqs in Hupd. fold bs in Hupd.
  assert (Hent1 : index_entries g1 iname
                  = filter (λ e : IndexEntry, e.2 ≠ n) (index_entries (db w) iname)).
  { subst g1. unfold index_remove. rewrite index_entries_set_index.
    by rewrite decide_True. }
  assert (Hent1' : index_entries g1 iname
                   = index_entries (index_remove (db w) iname n) iname).
  { rewrite Hent1. unfold index_remove. rewrite index_entries_set_index.
    by rewrite decide_True. }
  rewrite (unique_conflict_ext _ _ g1 (index_remove (db w) iname n) _ _ Hent1') in Hupd.
  destruct (batch_submit_frame iname rqs g1) as (Hbn & Hbr & _). fold bs in Hbn, Hbr.
  exists (set_db (λ _, bs.2) w2). split.
  { unfold NeoNode.save.
    rewrite (bind_Return _ _ _ _ _ (get_slot_run _ _ _ _ _ Ho Hnode)).
    cbn [truthy]. unfold bind at 1. unfold bind at 1.
    rewrite (properties_run _ _ _ Ho). fold P.
    cbn [as_node]. unfold bind at 1. cbn [ret]. unfold bind at 1. cbn [modify].
    set (wa := set_db (λ g, db_set_properties g n P) w).
    assert (Hoa : objects wa !! self = Some o) by exact Ho.
    rewrite (bind_Return _ _ _ _ _ (get_slot_run _ _ _ _ _ Hoa Hix)).
    cbn [as_index]. unfold bind at 1. cbn [ret].
    rewrite (bind_Return _ _ _ _ _ (get_slot_run _ _ _ _ _ Hoa Hnode)).
    cbn [as_node]. unfold bind at 1. cbn [ret]. unfold bind at 1. cbn [modify].
    change (set_db (λ g, index_remove g iname n) wa) with w2.
    assert (Ho2 : objects w2 !! self = Some o) by exact Ho.
    rewrite (bind_Return _ _ _ _ _ (properties_run _ _ _ Ho2)). fold P.
    rewrite Hupd.
    by destruct (unique_conflict _ _ _ _ _). }
  split; [exact Hbn|]. split; [exact Hbr|]. split; [done|]. split; [done|].
  cbn [db set_db].
  split; [|split].
  - intros e Hne. split.
    + intros [Hold|(k & v & p & -> & _)]%update_batch_entries_sub; [|done].
      rewrite Hent1 in Hold. by apply list_elem_of_filter in Hold as [_ ?].
    + intros Hin. apply batch_submit_old. rewrite Hent1.
      by apply list_elem_of_filter.
  - intros k t [Hold|(k' & v' & p & [= <- ->] & Hk & Hp & Hi)]%update_batch_entries_sub.
    + rewrite Hent1 in Hold. by apply list_elem_of_filter in Hold as [? _].
    + by exists v', p.
  - intros Hconf k v p Hk Hp Hi. subst bs rqs. rewrite update_batch_entries.
    + right. by exists k, v, p.
    + by rewrite (unique_conflict_ext _ _ g1 (index_remove (db w) iname n) _ _ Hent1').
Qed.

Lemma save_new_not_unique_witness :
  objects Run.w_bob !! Demo.ann2 = Some Run.o_ann2
  ∧ o_dict Run.o_ann2 !! "_node" = Some VNone
  ∧ classes Run.w_bob !! o_class Run.o_ann2 = Some Demo.Person
  ∧ all_declared (classes Run.w_bob) (o_class Run.o_ann2)
      (properties_of (o_dict Run.o_ann2)) = true
  ∧ unique_conflict (classes Run.w_bob) (o_class Run.o_ann2) (db Run.w_bob) "Person"
      (properties_of (o_dict Run.o_ann2)) = true
  ∧ ∃ w',
      NeoNode.save Demo.ann2 Run.w_bob
      = (Raise (NotUnique "A supplied value is not unique"), w')
      ∧ objects w' = objects Run.w_bob
      ∧ nodes (db Run.w_bob) ⊆ nodes (db w')
      ∧ NeoNode.delete Demo.ann2 w'
        = (Raise (Exception "Node has not been saved so cannot be deleted"), w').
Proof.
  assert (Ho : objects Run.w_bob !! Demo.ann2 = Some Run.o_ann2) by (vm_compute; reflexivity).
  assert (Hn : o_dict Run.o_ann2 !! "_node" = Some VNone) by (vm_compute; reflexivity).
  assert (Ht : o_dict Run.o_ann2 !! "_type" = Some (VStr "Person"))
    by (vm_compute; reflexivity).
  assert (Hi : o_dict Run.o_ann2 !! "_index" = Some (VIndex "Person"))
    by (vm_compute; reflexivity).
  assert (Hc : classes Run.w_bob !! o_class Run.o_ann2 = Some Demo.Person)
    by (vm_compute; reflexivity).
  assert (Hd : all_declared (classes Run.w_bob) (o_class Run.o_ann2)
                 (properties_of (o_dict Run.o_ann2)) = true) by (vm_compute; reflexivity).
  assert (Hne : "Person" ≠ "Category") by discriminate.
  assert (Hu : unique_conflict (classes Run.w_bob) (o_class Run.o_ann2) (db Run.w_bob)
                 "Person" (properties_of (o_dict Run.o_ann2)) = true)
    by (vm_compute; reflexivity).
  split; [exact Ho|]. split; [exact Hn|]. split; [exact Hc|]. split; [exact Hd|].
  split; [exact Hu|].
  destruct (save_new_not_unique Run.w_bob Demo.ann2 Run.o_ann2 Demo.Person "Person" "Person"
              Ho Hn Ht Hi Hc Hd Hne Hu)
    as (anchor & w1 & w' & _ & Hsave & Hobj & _ & _ & Hsub & _ & _ & _ & Hdel).
  exists w'. split; [exact Hsave|]. split; [exact Hobj|]. split; [exact Hsub|exact Hdel].
Defined.


Lemma save_persisted_witness :
  objects Run.w_bob !! Demo.ann = Some Run.o_ann
  ∧ o_dict Run.o_ann !! "_node" = Some (VNode 1)
  ∧ classes Run.w_bob !! o_class Run.o_ann = Some Demo.Person
  ∧ all_declared (classes Run.w_bob) (o_class Run.o_ann)
      (properties_of (o_dict Run.o_ann)) = true
  ∧ index_has (db Run.w_bob) "Person" "name" (VStr "Ann") = true
  ∧ ∃ w',
      NeoNode.save Demo.ann Run.w_bob = (Return Demo.ann, w')
      ∧ nodes (db w') = <[1 := properties_of (o_dict Run.o_ann)]> (nodes (db Run.w_bob))
      ∧ rels (db w') = rels (db Run.w_bob)
      ∧ objects w' = objects Run.w_bob.
Proof.
  assert (Ho : objects Run.w_bob !! Demo.ann = Some Run.o_ann) by (vm_compute; reflexivity).
  assert (Hn : o_dict Run.o_ann !! "_node" = Some (VNode 1)) by (vm_compute; reflexivity).
  assert (Hi : o_dict Run.o_ann !! "_index" = Some (VIndex "Person"))
    by (vm_compute; reflexivity).
  assert (Hc : classes Run.w_bob !! o_class Run.o_ann = Some Demo.Person)
    by (vm_compute; reflexivity).
  assert (Hd : all_declared (classes Run.w_bob) (o_class Run.o_ann)
                 (properties_of (o_dict Run.o_ann)) = true) by (vm_compute; reflexivity).
  assert (Hh : index_has (db Run.w_bob) "Person" "name" (VStr "Ann") = true)
    by (vm_compute; reflexivity).
  assert (Hu : unique_conflict (classes Run.w_bob) (o_class Run.o_ann)
                 (index_remove (db Run.w_bob) "Person" 1) "Person"
                 (properties_of (o_dict Run.o_ann)) = false) by (vm_compute; reflexivity).
  split; [exact Ho|]. split; [exact Hn|]. split; [exact Hc|]. split; [exact Hd|].
  split; [exact Hh|].
  destruct (save_persisted Run.w_bob Demo.ann Run.o_ann Demo.Person 1 "Person"
              Ho Hn Hi Hc Hd) as (w' & Hsave & Hnodes & Hrels & Hobj & _).
  rewrite Hu in Hsave.
  exists w'. split; [exact Hsave|]. split; [exact Hnodes|]. split; [exact Hrels|exact Hobj].
Defined.

(** ** Saving a node and getting it back through the index *)

Lemma all_valid_spec c props :
  all_valid c props = true ↔ ∀ k v, props !! k = Some v → valid_item c (k, v).
Proof.
  unfold all_valid, valid_item. rewrite forallb_forall. split.
  - intros H k v Hk. specialize (H (k, v)). cbn [fst snd] in *.
    destruct (c_dict c !! k) as [[p| |]|]; [exists p; split; [done|]; apply H|..];
      try (discriminate H); by apply list_elem_of_In, elem_of_map_to_list.
  - intros H [k v] Hin. apply list_elem_of_In, elem_of_map_to_list in Hin.
    destruct (H k v Hin) as (p & Hp & Hv). cbn [fst snd] in *. by rewrite Hp.
Qed.

Lemma filter_unique {A} (P : A → Prop) `{∀ x, Decision (P x)} (l : list A) n :
  NoDup l → n ∈ l → (∀ m, P m ↔ m = n) → filter P l = [n].
Proof.
  intros Hnd Hin HP. induction l as [|x l IH]; [by apply elem_of_nil in Hin|].
  apply NoDup_cons in Hnd as [Hx Hnd].
  assert (Hnone : ∀ l', n ∉ l' → filter P l' = []).
  { intros l' Hn. induction l' as [|y l' IH']; [done|].
    apply not_elem_of_cons in Hn as [Hy Hn].
    rewrite filter_cons_False; [by apply IH'|]. rewrite HP. congruence. }
  destruct (decide (P x)) as [Hpx|Hpx].
  - rewrite filter_cons_True by done. apply HP in Hpx as ->. by rewrite (Hnone l Hx).
  - rewrite filter_cons_False by done.
    apply elem_of_cons in Hin as [->|Hin]; [by destruct Hpx; apply HP|]. by apply IH.
Qed.

(** One node indexed under the pair, and no other: the query for the
    pair finds that node. *)
Lemma index_query_unique g name k v n :
  (k, py_str v, n) ∈ index_entries g name →
  (∀ e, e ∈ index_entries g name → entry_at k v e = true → e.2 = n) →
  index_query g name (QTerm k v) = [n].
Proof.
  intros Hin Huniq. unfold index_query.
  apply filter_unique.
  - apply NoDup_remove_dups.
  - apply elem_of_remove_dups, list_elem_of_fmap. by exists (k, py_str v, n).
  - intros m. cbn [q_matches]. rewrite existsb_exists. split.
    + intros (e & He & Hm). apply andb_true_iff in Hm as [Hat Hm].
      apply bool_decide_eq_true in Hm. rewrite <- Hm.
      apply Huniq; [by apply list_elem_of_In|done].
    + intros ->. exists (k, py_str v, n). split; [by apply list_elem_of_In|].
      unfold entry_at. cbn. by rewrite !bool_decide_eq_true_2.
Qed.

Lemma index_has_false g name k v e :
  index_has g name k v = false → e ∈ index_entries g name → entry_at k v e = false.
Proof.
  unfold index_has. intros H Hin. apply not_true_iff_false. intros He.
  apply not_true_iff_false in H. apply H. apply existsb_exists.
  exists e. split; [by apply list_elem_of_In|done].
Qed.

Lemma properties_of_no_underscore D :
  filter (λ kv : string * value, startswith_underscore kv.1 = false) (properties_of D)
  = properties_of D.
Proof.
  apply map_filter_id. intros k v Hk. unfold properties_of in Hk.
  apply map_lookup_filter_Some in Hk as [_ Hp]. unfold NeoNode.property_item in Hp.
  apply andb_true_iff in Hp as [Hu _]. by apply negb_true_iff in Hu.
Qed.

(** X20: save, then get.  A new instance whose properties the
    constructor of its class accepts is saved without a uniqueness
    conflict; then [get] on the index of the class, asked for the value
    of one of its uniquely indexed properties, returns a new instance,
    different from the saved one, with the same [properties] and the
    same [_node]; the nodes and relationships of the store are as the
    [save] left them.  [IndexBatch] is the one described by the
    specification. *)
Theorem save_then_get (w : World) (self : loc) (o : NeoNodeObj) (c : PyClass)
  (iname k : string) (v : value) (p : Property) :
  objects w !! self = Some o →
  o_dict o !! "_node" = Some VNone →
  o_dict o !! "_type" = Some (VStr (o_class o)) →
  o_dict o !! "_index" = Some (VIndex iname) →
  classes w !! o_class o = Some c →
  all_valid c (properties_of (o_dict o)) = true →
  iname ≠ "Category" →
  unique_conflict (classes w) (o_class o) (db w) iname (properties_of (o_dict o)) = false →
  properties_of (o_dict o) !! k = Some v →
  c_dict c !! k = Some (AProperty p) →
  unique_index p = true →
  ∃ w' w'' self' n,
    NeoNode.save self w = (Return self, w')
    ∧ NeoIndex.get (mkNeoIndex (o_class o) iname) None {[k := v]} w' = (Return self', w'')
    ∧ self' ≠ self
    ∧ objects w' !! self' = None
    ∧ NeoNode.properties self' w'' = (Return (properties_of (o_dict o)), w'')
    ∧ NeoNode.properties self w'' = (Return (properties_of (o_dict o)), w'')
    ∧ get_slot self' "_node" w'' = (Return (VNode n), w'')
    ∧ get_slot self "_node" w'' = (Return (VNode n), w'')
    ∧ nodes (db w'') = nodes (db w')
    ∧ rels (db w'') = rels (db w').
Proof.
  intros Ho Hnode Hty Hix Hc Hvalid Hcat Hconf Hk Hp Hu.
  set (P := properties_of (o_dict o)) in *.
  pose proof (proj1 (all_valid_spec _ _) Hvalid) as Hval.
  assert (Hd : all_declared (classes w) (o_class o) P = true).
  { apply all_declared_spec. intros k' v' Hk'. destruct (Hval _ _ Hk') as (p' & Hp' & _).
    exists p'. by apply (class_getattr_own _ _ c). }
  destruct (save_new_run w self o c (o_class o) iname Ho Hnode Hty Hix Hc Hd Hcat)
    as (anchor & w1 & w' & Hrun & Hsave & Hsub & Hcl & Hm & Hcase).
  fold P in Hsave, Hcase. rewrite Hconf in Hsave, Hcase.
  destruct Hcase as (Hobj & Hnodes & Hrels & Hent).
  set (n := fresh (dom (nodes (db w1)))) in *.
  assert (Hgetattr : class_getattr (classes w) (o_class o) k = Some (AProperty p))
    by (by apply (class_getattr_own _ _ c)).
  assert (Hc' : classes w' !! (o_class o) = Some c) by (by rewrite Hcl).
  (* the index has the pair for the new node only *)
  assert (Hfree : index_has (db w) iname k v = false).
  { apply not_true_iff_false. intros Hh. apply not_true_iff_false in Hconf. apply Hconf.
    apply unique_conflict_spec. by exists k, v, p. }
  assert (Hq : index_query (db w') iname (QTerm k v) = [n]).
  { apply index_query_unique.
    - apply Hent. right. exists k, v, p. split; [done|]. split; [done|]. split; [done|].
      unfold is_indexed. by rewrite Hu.
    - intros e [Hold|(k' & v' & p' & -> & _)]%Hent Hat; [|done].
      by rewrite (index_has_false _ _ _ _ _ Hfree Hold) in Hat. }
  (* the constructor on the stored properties *)
  assert (Hprops : db_get_properties (db w') n = P).
  { unfold db_get_properties. by rewrite Hnodes, lookup_insert_eq. }
  destruct (init_run w' (o_class o) c P Hc' Hval)
    as (self' & wi & oi & Hinit & Hfresh & Hoi & Hcls & _ & Hpi & _ & Hni & Hri & Hkeep & _).
  unfold P in Hpi. rewrite properties_of_no_underscore in Hpi. fold P in Hpi.
  assert (Ho' : objects w' !! self = Some (obj_set o "_node" (VNode n)))
    by (rewrite Hobj; apply lookup_insert_eq).
  assert (Hne : self' ≠ self) by (intros ->; congruence).
  set (w'' := set_objects (alter (λ o, obj_set o "_node" (VNode n)) self') wi).
  assert (Hoi'' : objects w'' !! self' = Some (obj_set oi "_node" (VNode n))).
  { cbn. by rewrite lookup_alter_eq, Hoi. }
  assert (Ho'' : objects w'' !! self = Some (obj_set o "_node" (VNode n))).
  { cbn. rewrite lookup_alter_ne by done. by apply Hkeep. }
  assert (Hpoi : properties_of (o_dict oi) = P).
  { rewrite (properties_run _ _ _ Hoi) in Hpi. congruence. }
  assert (Hpset : ∀ o0, properties_of (o_dict (obj_set o0 "_node" (VNode n)))
                        = properties_of (o_dict o0)).
  { intros o0. unfold properties_of. cbn. apply map_filter_insert_not.
    intros y. by cbn. }
  (* the search *)
  assert (Herr : search_item_error (classes w') (o_class o) (k, v) = None).
  { unfold search_item_error. cbn [fst snd]. rewrite Hcl, Hgetattr.
    unfold is_indexed. rewrite Hu. cbn.
    destruct (Hval _ _ Hk) as (p' & Hp' & Hv). cbn in Hp'.
    assert (p' = p) as -> by congruence.
    unfold validates in Hv. cbn in Hv. destruct (p_kind p); [done| |]; by rewrite Hv. }
  assert (Hsearch : NeoIndex.search (mkNeoIndex (o_class o) iname) None {[k := v]} w'
                    = (Return [self'], w'')).
  { rewrite search_unfold. cbn [ni_node_class ni_index].
    pose proof (search_loop w' (o_class o) c (map_to_list ({[k := v]} : gmap string value)) Hc')
      as Hloop.
    rewrite map_to_list_singleton in Hloop. cbn [omap list_omap] in Hloop.
    rewrite Herr in Hloop. rewrite map_to_list_singleton.
    rewrite (bind_Return _ _ _ _ _ Hloop).
    unfold kwargs_terms. rewrite map_to_list_singleton. cbn [fmap list_fmap fst snd].
    cbn [NeoIndex.reduce_and foldl]. unfold bind at 1. cbn [ret].
    unfold bind at 1. cbn [get_world]. rewrite Hq.
    cbn [for_collect]. unfold bind at 1. unfold bind at 1. cbn [get_world].
    rewrite Hprops. rewrite (bind_Return _ _ _ _ _ Hinit).
    rewrite (bind_Return _ _ _ _ _ (setattr_underscore _ _ "_node" _ eq_refl)).
    fold w''. reflexivity. }
  exists w', w'', self', n. split; [exact Hsave|].
  split; [by rewrite get_unfold, Hsearch|]. split; [exact Hne|]. split; [exact Hfresh|].
  split; [by rewrite (properties_run _ _ _ Hoi''), Hpset, Hpoi|].
  split; [by rewrite (properties_run _ _ _ Ho''), Hpset|].
  split; [apply (get_slot_run _ _ _ _ _ Hoi''); cbn; apply lookup_insert_eq|].
  split; [apply (get_slot_run _ _ _ _ _ Ho''); cbn; apply lookup_insert_eq|].
  split; [exact Hni|exact Hri].
Qed.

Lemma save_then_get_witness :
  objects Run.w_dan !! Run.dan = Some Run.o_dan
  ∧ o_dict Run.o_dan !! "_node" = Some VNone
  ∧ classes Run.w_dan !! o_class Run.o_dan = Some Demo.Person
  ∧ all_valid Demo.Person (properties_of (o_dict Run.o_dan)) = true
  ∧ unique_conflict (classes Run.w_dan) (o_class Run.o_dan) (db Run.w_dan) "Person"
      (properties_of (o_dict Run.o_dan)) = false
  ∧ properties_of (o_dict Run.o_dan) !! "name" = Some (VStr "Dan")
  ∧ ∃ w' w'' self' n,
      NeoNode.save Run.dan Run.w_dan = (Return Run.dan, w')
      ∧ NeoIndex.get (mkNeoIndex (o_class Run.o_dan) "Person") None
          {["name" := VStr "Dan"]} w' = (Return self', w'')
      ∧ self' ≠ Run.dan
      ∧ NeoNode.properties self' w'' = (Return (properties_of (o_dict Run.o_dan)), w'')
      ∧ get_slot self' "_node" w'' = (Return (VNode n), w'')
      ∧ get_slot Run.dan "_node" w'' = (Return (VNode n), w'').
Proof.
  assert (Ho : objects Run.w_dan !! Run.dan = Some Run.o_dan) by (vm_compute; reflexivity).
  assert (Hn : o_dict Run.o_dan !! "_node" = Some VNone) by (vm_compute; reflexivity).
  assert (Ht : o_dict Run.o_dan !! "_type" = Some (VStr (o_class Run.o_dan)))
    by (vm_compute; reflexivity).
  assert (Hi : o_dict Run.o_dan !! "_index" = Some (VIndex "Person"))
    by (vm_compute; reflexivity).
  assert (Hc : classes Run.w_dan !! o_class Run.o_dan = Some Demo.Person)
    by (vm_compute; reflexivity).
  assert (Hv : all_valid Demo.Person (properties_of (o_dict Run.o_dan)) = true)
    by (vm_compute; reflexivity).
  assert (Hne : "Person" ≠ "Category") by discriminate.
  assert (Hu : unique_conflict (classes Run.w_dan) (o_class Run.o_dan) (db Run.w_dan)
                 "Person" (properties_of (o_dict Run.o_dan)) = false)
    by (vm_compute; reflexivity).
  assert (Hk : properties_of (o_dict Run.o_dan) !! "name" = Some (VStr "Dan"))
    by (vm_compute; reflexivity).
  assert (Hp : c_dict Demo.Person !! "name"
               = Some (AProperty (mkProperty KStringProperty true false)))
    by (vm_compute; reflexivity).
  split; [exact Ho|]. split; [exact Hn|]. split; [exact Hc|]. split; [exact Hv|].
  split; [exact Hu|]. split; [exact Hk|].
  destruct (save_then_get Run.w_dan Run.dan Run.o_dan Demo.Person "Person" "name"
              (VStr "Dan") (mkProperty KStringProperty true false)
              Ho Hn Ht Hi Hc Hv Hne Hu Hk Hp eq_refl)
    as (w' & w'' & self' & n & Hsave & Hget & Hneq & _ & Hprops & _ & Hs1 & Hs2 & _).
  exists w', w'', self', n. split; [exact Hsave|]. split; [exact Hget|].
  split; [exact Hneq|]. split; [exact Hprops|]. split; [exact Hs1|exact Hs2].
Defined.

(** ** RelationshipManager.all: filling the cache from the store *)

Lemma all_unfold self w m oo a :
  managers w !! self = Some m →
  rm_related m = ∅ →
  objects w !! rm_origin m = Some oo →
  o_dict oo !! "_node" = Some (VNode a) →
  db_get_related_nodes (db w) a (rm_direction m) (rm_relation_type m) ≠ [] →
  RelationshipManager.all self w
  = (for_each (db_get_related_nodes (db w) a (rm_direction m) (rm_relation_type m))
       (all_body self (rm_node_class m)) ;;;
     m' <- get_manager self ;;
     ret (Some ((map_to_list (rm_related m')).*2))) w.
Proof.
  intros Hm He Hoo Ha Hsome. unfold RelationshipManager.all.
  rewrite (bind_Return _ _ _ _ _ (get_manager_run _ _ _ Hm)).
  rewrite decide_True by done.
  unfold RelationshipManager.origin_node.
  rewrite (bind_Return _ _ _ _ _ (get_slot_run _ _ _ _ _ Hoo Ha)).
  cbn [as_node]. unfold bind at 1. cbn [ret]. unfold bind at 1. cbn [get_world].
  by destruct (db_get_related_nodes (db w) a (rm_direction m) (rm_relation_type m)).
Qed.

Lemma properties_of_set_node D n :
  properties_of (<["_node" := VNode n]> D) = properties_of D.
Proof. unfold properties_of. apply map_filter_insert_not. intros y. by cbn. Qed.

Lemma all_step self m c w0 w' cache n :
  classes w0 !! rm_node_class m = Some c →
  all_valid c (db_get_properties (db w0) n) = true →
  all_inv self m w0 w' cache →
  ∃ w'' l,
    all_body self (rm_node_class m) n w' = (Return tt, w'')
    ∧ all_inv self m w0 w'' (<[n := l]> cache).
Proof.
  intros Hc Hvalid (Hm & Hcl & Hn & Hr & Hkeep & Hcache).
  assert (Hprops : db_get_properties (db w') n = db_get_properties (db w0) n)
    by (unfold db_get_properties; by rewrite Hn).
  assert (Hc' : classes w' !! rm_node_class m = Some c) by (by rewrite Hcl).
  destruct (init_run w' (rm_node_class m) c (db_get_properties (db w0) n) Hc'
              (proj1 (all_valid_spec _ _) Hvalid))
    as (l & wi & oi & Hinit & Hfresh & Hoi & _ & _ & Hpi & _ & Hni & Hri & Hkeepi
        & Hcli & Hsubi).
  rewrite (properties_run _ _ _ Hoi) in Hpi.
  set (w2 := set_objects (alter (λ o, obj_set o "_node" (VNode n)) l) wi).
  set (w3 := set_managers (alter (with_related (<[n := l]>)) self) w2).
  exists w3, l. split.
  { unfold all_body. unfold bind at 1. cbn [get_world]. rewrite Hprops.
    rewrite (bind_Return _ _ _ _ _ Hinit).
    rewrite (bind_Return _ _ _ _ _ (setattr_underscore _ _ "_node" _ eq_refl)).
    reflexivity. }
  split; [|split; [|split; [|split; [|split]]]].
  - cbn. rewrite lookup_alter_eq. by rewrite (lookup_weaken _ _ _ _ Hm Hsubi).
  - cbn. by rewrite Hcli.
  - cbn. by rewrite Hni.
  - cbn. by rewrite Hri.
  - intros l0 o0 H0. cbn. rewrite lookup_alter_ne.
    + by apply Hkeepi, Hkeep.
    + intros <-. apply Hkeep in H0. congruence.
  - intros n0 l0 Hl0. destruct (decide (n0 = n)) as [->|Hne].
    + rewrite lookup_insert_eq in Hl0. injection Hl0 as <-. split.
      * destruct (objects w0 !! l) as [o0|] eqn:E0; [|done].
        apply Hkeep in E0. congruence.
      * exists (obj_set oi "_node" (VNode n)). split; [|split].
        -- cbn. by rewrite lookup_alter_eq, Hoi.
        -- cbn. apply lookup_insert_eq.
        -- cbn. rewrite properties_of_set_node. congruence.
    + rewrite lookup_insert_ne in Hl0 by done.
      destruct (Hcache _ _ Hl0) as (Hnew & o0 & Ho0 & Hnode0 & Hp0).
      split; [done|]. exists o0. split; [|done].
      cbn. rewrite lookup_alter_ne; [by apply Hkeepi|].
      intros <-. congruence.
Qed.

Lemma all_loop self m c w0 l : ∀ w' cache,
  classes w0 !! rm_node_class m = Some c →
  Forall (λ n, all_valid c (db_get_properties (db w0) n) = true) l →
  all_inv self m w0 w' cache →
  ∃ w'' cache',
    for_each l (all_body self (rm_node_class m)) w' = (Return tt, w'')
    ∧ all_inv self m w0 w'' cache'
    ∧ dom cache' = dom cache ∪ list_to_set l.
Proof.
  induction l as [|n l IH]; intros w' cache Hc Hall Hinv.
  - exists w', cache. split; [done|]. split; [done|]. cbn. by rewrite (right_id_L ∅ (∪)).
  - apply Forall_cons in Hall as [Hn Hall].
    destruct (all_step self m c w0 w' cache n Hc Hn Hinv) as (w1 & l1 & Hstep & Hinv1).
    destruct (IH w1 _ Hc Hall Hinv1) as (w'' & cache' & Hrun & Hinv' & Hdom).
    exists w'', cache'. split; [by rewrite (for_each_cons_Return _ _ _ _ _ Hstep)|].
    split; [done|]. rewrite Hdom, dom_insert_L. cbn [list_to_set].
    by rewrite (assoc_L (∪)), (comm_L (∪) (dom cache) {[n]}).
Qed.

(** X21: [all] with an empty cache, when the store has related nodes
    whose properties the constructor of the manager's class accepts.
    [all] returns one new instance for each distinct related node and
    caches it under the node: the instance has that node as [_node] and
    the node's properties in the store (names that begin with an
    underscore apart) as [properties]; nodes, relationships and the
    instances that existed are untouched; a second call returns the same
    list from the cache and changes nothing. *)
Theorem all_from_store (w : World) (self : loc) (m : RelationshipManagerObj)
  (oo : NeoNodeObj) (a : nodeid) (c : PyClass) :
  managers w !! self = Some m →
  rm_related m = ∅ →
  objects w !! rm_origin m = Some oo →
  o_dict oo !! "_node" = Some (VNode a) →
  classes w !! rm_node_class m = Some c →
  db_get_related_nodes (db w) a (rm_direction m) (rm_relation_type m) ≠ [] →
  forallb (λ n, all_valid c (db_get_properties (db w) n))
    (db_get_related_nodes (db w) a (rm_direction m) (rm_relation_type m)) = true →
  ∃ ls w' m',
    RelationshipManager.all self w = (Return (Some ls), w')
    ∧ RelationshipManager.all self w' = (Return (Some ls), w')
    ∧ managers w' !! self = Some m'
    ∧ ls = (map_to_list (rm_related m')).*2
    ∧ dom (rm_related m')
      = list_to_set (db_get_related_nodes (db w) a (rm_direction m) (rm_relation_type m))
    ∧ (∀ n l, rm_related m' !! n = Some l →
         objects w !! l = None
         ∧ get_slot l "_node" w' = (Return (VNode n), w')
         ∧ NeoNode.properties l w'
           = (Return (filter (λ kv : string * value, startswith_underscore kv.1 = false)
                        (db_get_properties (db w) n)), w'))
    ∧ nodes (db w') = nodes (db w)
    ∧ rels (db w') = rels (db w)
    ∧ ∀ l o, objects w !! l = Some o → objects w' !! l = Some o.
Proof.
  intros Hm He Hoo Ha Hc Hsome Hvalid.
  set (related := db_get_related_nodes (db w) a (rm_direction m) (rm_relation_type m)) in *.
  assert (Hall : Forall (λ n, all_valid c (db_get_properties (db w) n) = true) related).
  { apply Forall_forall. intros n Hn. rewrite forallb_forall in Hvalid.
    apply Hvalid. by apply list_elem_of_In. }
  assert (Hinv0 : all_inv self m w w ∅).
  { split.
    { rewrite Hm. f_equal. destruct m. cbn in *. by subst. }
    do 4 (split; [done|]). intros n l. by rewrite lookup_empty. }
  destruct (all_loop self m c w related w ∅ Hc Hall Hinv0)
    as (w' & cache & Hrun & (Hm' & Hcl & Hn & Hr & Hkeep & Hcache) & Hdom).
  exists ((map_to_list cache).*2), w', (with_related (λ _, cache) m).
  assert (Hne : cache ≠ ∅).
  { intros ->. rewrite dom_empty_L, (left_id_L ∅ (∪)) in Hdom.
    destruct related as [|n l]; [done|].
    assert (Hin : n ∈ (∅ : gset nodeid)).
    { rewrite Hdom. cbn. apply elem_of_union_l. by apply elem_of_singleton. }
    by apply not_elem_of_empty in Hin. }
  split.
  { rewrite (all_unfold _ _ _ _ _ Hm He Hoo Ha Hsome). fold related.
    rewrite (bind_Return _ _ _ _ _ Hrun).
    by rewrite (bind_Return _ _ _ _ _ (get_manager_run _ _ _ Hm')). }
  split; [by apply (all_cached_run w' self _ Hm')|].
  split; [exact Hm'|]. split; [done|].
  split; [cbn; by rewrite Hdom, dom_empty_L, (left_id_L ∅ (∪))|].
  split.
  { intros n l Hl. destruct (Hcache _ _ Hl) as (Hnew & o & Ho & Hnode & Hp).
    split; [done|]. split; [by apply (get_slot_run _ _ _ _ _ Ho)|].
    by rewrite (properties_run _ _ _ Ho), Hp. }
  split; [exact Hn|]. split; [exact Hr|exact Hkeep].
Qed.

Lemma all_from_store_witness :
  managers Run.w_knows !! Run.ann_friends = Some Run.m_friends
  ∧ rm_related Run.m_friends = ∅
  ∧ objects Run.w_knows !! rm_origin Run.m_friends = Some Run.o_ann
  ∧ o_dict Run.o_ann !! "_node" = Some (VNode 1)
  ∧ classes Run.w_knows !! rm_node_class Run.m_friends = Some Demo.Person
  ∧ db_get_related_nodes (db Run.w_knows) 1 (rm_direction Run.m_friends)
      (rm_relation_type Run.m_friends) = [2]
  ∧ ∃ ls w' m',
      RelationshipManager.all Run.ann_friends Run.w_knows = (Return (Some ls), w')
      ∧ RelationshipManager.all Run.ann_friends w' = (Return (Some ls), w')
      ∧ managers w' !! Run.ann_friends = Some m'
      ∧ ls = (map_to_list (rm_related m')).*2
      ∧ dom (rm_related m') = list_to_set [2].
Proof.
  assert (Hm : managers Run.w_knows !! Run.ann_friends = Some Run.m_friends)
    by (vm_compute; reflexivity).
  assert (He : rm_related Run.m_friends = ∅) by (vm_compute; reflexivity).
  assert (Hoo : objects Run.w_knows !! rm_origin Run.m_friends = Some Run.o_ann)
    by (vm_compute; reflexivity).
  assert (Ha : o_dict Run.o_ann !! "_node" = Some (VNode 1)) by (vm_compute; reflexivity).
  assert (Hc : classes Run.w_knows !! rm_node_class Run.m_friends = Some Demo.Person)
    by (vm_compute; reflexivity).
  assert (Hrel : db_get_related_nodes (db Run.w_knows) 1 (rm_direction Run.m_friends)
                   (rm_relation_type Run.m_friends) = [2]) by (vm_compute; reflexivity).
  assert (Hsome : db_get_related_nodes (db Run.w_knows) 1 (rm_direction Run.m_friends)
                    (rm_relation_type Run.m_friends) ≠ []) by (rewrite Hrel; discriminate).
  assert (Hv : forallb (λ n, all_valid Demo.Person (db_get_properties (db Run.w_knows) n))
                 (db_get_related_nodes (db Run.w_knows) 1 (rm_direction Run.m_friends)
                    (rm_relation_type Run.m_friends)) = true) by (vm_compute; reflexivity).
  split; [exact Hm|]. split; [exact He|]. split; [exact Hoo|]. split; [exact Ha|].
  split; [exact Hc|]. split; [exact Hrel|].
  destruct (all_from_store Run.w_knows Run.ann_friends Run.m_friends Run.o_ann 1 Demo.Person
              Hm He Hoo Ha Hc Hsome Hv)
    as (ls & w' & m' & Hrun & Hagain & Hm' & Hls & Hdom & _).
  rewrite Hrel in Hdom.
  exists ls, w', m'. split; [exact Hrun|]. split; [exact Hagain|]. split; [exact Hm'|].
  split; [exact Hls|exact Hdom].
Defined.

(** ** NeoIndex.search with a query *)

(** X22: with a query given, the keywords are checked but not used:
    keywords that are all accepted leave the result of [search] and of
    [get] as it is without any keyword. *)
Theorem search_query_ignores_keywords (w : World) (self : NeoIndexObj) (c : PyClass)
  (kwargs : gmap string value) (q : Q) :
  classes w !! ni_node_class self = Some c →
  (∀ k v, kwargs !! k = Some v →
     search_item_error (classes w) (ni_node_class self) (k, v) = None) →
  NeoIndex.search self (Some q) kwargs w = NeoIndex.search self (Some q) ∅ w
  ∧ NeoIndex.get self (Some q) kwargs w = NeoIndex.get self (Some q) ∅ w.
Proof.
  intros Hc Hvalid.
  assert (Hs : NeoIndex.search self (Some q) kwargs w = NeoIndex.search self (Some q) ∅ w).
  { rewrite !search_unfold.
    pose proof (search_loop w _ c (map_to_list kwargs) Hc) as Hloop.
    assert (Eo : omap (search_item_error (classes w) (ni_node_class self))
                   (map_to_list kwargs) = []).
    { apply omap_nil_iff. intros [k v] Hin. apply Hvalid. by apply elem_of_map_to_list. }
    rewrite Eo in Hloop. rewrite (bind_Return _ _ _ _ _ Hloop).
    rewrite map_to_list_empty. reflexivity. }
  split; [exact Hs|]. by rewrite !get_unfold, Hs.
Qed.

Lemma search_query_ignores_keywords_witness :
  classes Run.w_bob !! ni_node_class Run.person_index = Some Demo.Person
  ∧ search_item_error (classes Run.w_bob) (ni_node_class Run.person_index)
      ("name", VStr "Zed") = None
  ∧ NeoIndex.search Run.person_index (Some (QTerm "name" (VStr "Ann")))
      {["name" := VStr "Zed"]} Run.w_bob
    = NeoIndex.search Run.person_index (Some (QTerm "name" (VStr "Ann"))) ∅ Run.w_bob
  ∧ NeoIndex.get Run.person_index (Some (QTerm "name" (VStr "Ann")))
      {["name" := VStr "Zed"]} Run.w_bob
    = NeoIndex.get Run.person_index (Some (QTerm "name" (VStr "Ann"))) ∅ Run.w_bob.
Proof.
  assert (Hc : classes Run.w_bob !! ni_node_class Run.person_index = Some Demo.Person)
    by (vm_compute; reflexivity).
  assert (He : search_item_error (classes Run.w_bob) (ni_node_class Run.person_index)
                 ("name", VStr "Zed") = None) by (vm_compute; reflexivity).
  assert (Hv : ∀ k v, ({["name" := VStr "Zed"]} : gmap string value) !! k = Some v →
                 search_item_error (classes Run.w_bob) (ni_node_class Run.person_index)
                   (k, v) = None).
  { intros k v [<- <-]%lookup_singleton_Some. exact He. }
  split; [exact Hc|]. split; [exact He|].
  exact (search_query_ignores_keywords Run.w_bob Run.person_index Demo.Person _
           (QTerm "name" (VStr "Ann")) Hc Hv).
Defined.

(** ** NeoNodeMeta *)

(** X23: what the metaclass leaves behind.  The class statement always
    succeeds and registers the class; the entries of every index, the
    nodes, the relationships, the instances and the managers are as
    before.  For [NeoNode] itself nothing else happens: the class has the
    attributes of its body and the store is untouched.  For any other
    name the store has the index of the class, and the class has the
    attributes of its body except that [index] is bound to the index
    object of the class, even where the body declares a descriptor of
    that name.  So [index] is no property of such a class: the
    constructor called with that keyword raises [AttributeError] for the
    missing [validate], a search by it raises [AttributeError] for the
    missing [is_indexed], and [relate] refuses the name. *)
Theorem metaclass_binds_index (w : World) (name : string) (c : PyClass) (v : value) :
  ∃ w',
    NeoNodeMeta_new name c w = (Return tt, w')
    ∧ (∀ i, index_entries (db w') i = index_entries (db w) i)
    ∧ nodes (db w') = nodes (db w)
    ∧ rels (db w') = rels (db w)
    ∧ objects w' = objects w
    ∧ managers w' = managers w
    ∧ if decide (name = "NeoNode") then
        classes w' !! name = Some c ∧ db w' = db w
      else
        (∃ c', classes w' !! name = Some c'
               ∧ c_mro c' = c_mro c
               ∧ c_dict c' !! "index" = Some (AObject true)
               ∧ ∀ k, k ≠ "index" → c_dict c' !! k = c_dict c !! k)
        ∧ is_Some (indexes (db w') !! name)
        ∧ (∃ w'', NeoNode.__init__ name {["index" := v]} w'
                  = (Raise (AttributeError "validate"), w''))
        ∧ (∀ self query,
             ni_node_class self = name →
             NeoIndex.search self query {["index" := v]} w'
             = (Raise (AttributeError "is_indexed"), w'))
        ∧ (∀ ty dir to,
             NeoNode.relate name "index" ty dir to w'
             = (Raise (Exception (name +:+ " already has attribute " +:+ "index")), w')).
Proof.
  destruct (decide (name = "NeoNode")) as [Hname|Hname].
  { exists (set_class name c w). split.
    { unfold NeoNodeMeta_new. unfold bind at 1. cbn [modify].
      by rewrite decide_False by (intros H; by apply H). }
    do 5 (split; [done|]). split; [cbn; apply lookup_insert_eq|done]. }
  set (c' := class_set c "index" (AObject true)).
  set (w' := set_class name c'
               (set_db (λ g, db_get_or_create_index g name) (set_class name c w))).
  assert (Hc' : classes w' !! name = Some c') by (cbn; apply lookup_insert_eq).
  assert (Hix : c_dict c' !! "index" = Some (AObject true)) by (cbn; apply lookup_insert_eq).
  assert (Hg : class_getattr (classes w') name "index" = Some (AObject true))
    by (by apply (class_getattr_own _ _ c')).
  destruct (db_get_or_create_index_nodes_rels (db w) name) as [Hn Hr].
  exists w'. split.
  { unfold NeoNodeMeta_new. unfold bind at 1. cbn [modify].
    by rewrite decide_True by done. }
  split; [intros i; apply db_get_or_create_index_entries|].
  split; [exact Hn|]. split; [exact Hr|]. split; [done|]. split; [done|].
  split.
  { exists c'. split; [done|]. split; [done|]. split; [done|].
    intros k Hk. cbn. by rewrite lookup_insert_ne. }
  split; [apply db_get_or_create_index_has|].
  split; [|split].
  - set (new := fresh (dom (objects w'))).
    set (w0 := put_dict new name ∅ w').
    assert (Hc0 : classes w0 !! name = Some c') by exact Hc'.
    assert (Ho0 : objects w0 !! new = Some (mkObj name ∅)) by (cbn; apply lookup_insert_eq).
    assert (He : item_error c' ("index", v) = Some (AttributeError "validate")).
    { unfold item_error. cbn [fst]. by rewrite Hix. }
    eexists. unfold NeoNode.__init__. unfold bind at 1. cbn [get_world].
    unfold bind at 1. cbn [modify]. fold new. fold (put_dict new name ∅ w'). fold w0.
    rewrite validate_args_unfold, map_to_list_singleton.
    by rewrite (bind_Raise _ _ _ _ _
                  (validate_args_rejects w0 new name c' [] ("index", v) [] _ Hc0 Ho0
                     (List.Forall_nil _) He)).
  - intros self query Hself. rewrite search_unfold.
    pose proof (search_loop w' (ni_node_class self) c'
                  (map_to_list ({["index" := v]} : gmap string value))) as Hloop.
    rewrite Hself in Hloop. specialize (Hloop Hc').
    rewrite map_to_list_singleton in Hloop. cbn [omap list_omap] in Hloop.
    unfold search_item_error in Hloop. cbn [fst] in Hloop. rewrite Hg in Hloop.
    rewrite Hself, map_to_list_singleton.
    by rewrite (bind_Raise _ _ _ _ _ Hloop).
  - intros ty dir to. unfold NeoNode.relate. unfold bind at 1. cbn [get_world].
    rewrite (bind_Return _ _ _ _ _ (get_class_run _ _ _ Hc')). by rewrite Hg.
Qed.
